(** * RGB judge scripts: [fact_evalue.py] and [reject_evalue.py]

    A shallow embedding of the two evaluation scripts of the repository
    and the properties of their prompt builder, judge client, resume
    cache and aggregator.

    Conventions of the embedding.
    - A Python [str] is a [string] holding its UTF-8 bytes.  Substring
      containment of valid UTF-8 texts is the same on bytes and on code
      points.
    - The values the scripts handle at run time all come from
      [json.loads] or from string formatting, so a Python value is a
      [json] tree.  JSON numbers are integers here; numbers with a
      fraction or an exponent are outside the model.
    - A Python [dict] is an association list in insertion order, the
      order [json.dumps] writes it in.
    - A text file is the list of its lines.  A line is either text on
      which [json.loads] raises [JSONDecodeError] or the value it
      returns; [json.dumps v + '\n'] writes the line that loads as [v]. *)

From Stdlib Require Import ZArith QArith Ascii String List Bool Lia.
From stdpp Require Import gmap strings list.

Set Warnings "-register-all".
Close Scope Q_scope.
Local Open Scope Z_scope.

(** ** Python values *)

Inductive json : Type :=
| JNull
| JBool (b : bool)
| JInt (z : Z)
| JStr (s : string)
| JArr (l : list json)
| JObj (d : list (string * json)).

Abbreviation dict := (list (string * json)).

(** The exceptions that can escape the code under study.  The
    exceptions of [requests] are caught inside [getdata] and appear in
    the type [transport] below. *)
Inductive exn : Type :=
| TypeError
| KeyError (key : json)
| IndexError
| ValueError
| AttributeError
| NameError
| ZeroDivisionError
| OverflowError
| SystemExit.

Inductive res (A : Type) : Type :=
| Ok (a : A)
| Raise (e : exn).
Arguments Ok {A} a.
Arguments Raise {A} e.

Definition res_bind {A B} (r : res A) (k : A -> res B) : res B :=
  match r with
  | Ok a => k a
  | Raise e => Raise e
  end.

Module Py.

(** [d.get(k)] and [d[k]] on a [dict]. *)
Fixpoint dict_get (k : string) (d : dict) : option json :=
  match d with
  | [] => None
  | (k', v) :: d' => if String.eqb k k' then Some v else dict_get k d'
  end.

(** [d[k] = v]: replaces in place or appends. *)
Fixpoint dict_set (k : string) (v : json) (d : dict) : dict :=
  match d with
  | [] => [(k, v)]
  | (k', v') :: d' =>
      if String.eqb k k' then (k', v) :: d' else (k', v') :: dict_set k v d'
  end.

(** [==] on values: [True == 1] and [False == 0], lists are compared
    element by element, dicts key by key whatever the order. *)
Fixpoint eq (a b : json) {struct a} : bool :=
  match a, b with
  | JNull, JNull => true
  | JBool x, JBool y => Bool.eqb x y
  | JBool x, JInt z => Z.eqb z (if x then 1 else 0)
  | JInt z, JBool x => Z.eqb z (if x then 1 else 0)
  | JInt x, JInt y => Z.eqb x y
  | JStr s, JStr t => String.eqb s t
  | JArr xs, JArr ys =>
      (fix go (xs ys : list json) {struct xs} : bool :=
         match xs, ys with
         | [], [] => true
         | x :: xs', y :: ys' => eq x y && go xs' ys'
         | _, _ => false
         end) xs ys
  | JObj d, JObj e =>
      Nat.eqb (length d) (length e) &&
      (fix go (d : dict) {struct d} : bool :=
         match d with
         | [] => true
         | (k, v) :: d' =>
             match dict_get k e with
             | Some w => eq v w
             | None => false
             end && go d'
         end) d
  | _, _ => false
  end.

(** [hash(v)] succeeds on [None], booleans, numbers and strings and
    raises [TypeError] on lists and dicts. *)
Definition hashable (v : json) : bool :=
  match v with
  | JArr _ | JObj _ => false
  | _ => true
  end.

(** [p] is a prefix of [s]. *)
Fixpoint starts_with (p s : string) : bool :=
  match p, s with
  | EmptyString, _ => true
  | String a p', String b s' => Ascii.eqb a b && starts_with p' s'
  | String _ _, EmptyString => false
  end.

(** [needle in hay] on two strings. *)
Fixpoint str_contains (needle hay : string) : bool :=
  starts_with needle hay ||
  match hay with
  | EmptyString => false
  | String _ hay' => str_contains needle hay'
  end.

(** [x in c]. *)
Definition contains (x c : json) : res bool :=
  match c with
  | JStr hay =>
      match x with
      | JStr needle => Ok (str_contains needle hay)
      | _ => Raise TypeError
      end
  | JArr l => Ok (existsb (fun y => eq x y) l)
  | JObj d =>
      match x with
      | JStr k => Ok (match dict_get k d with Some _ => true | None => false end)
      | JArr _ | JObj _ => Raise TypeError
      | _ => Ok false
      end
  | _ => Raise TypeError
  end.

(** [len(c)]. *)
Definition len (c : json) : res nat :=
  match c with
  | JStr s => Ok (String.length s)
  | JArr l => Ok (length l)
  | JObj d => Ok (length d)
  | _ => Raise TypeError
  end.

(** The position a list or string index denotes: negative indices
    count from the end. *)
Definition index (n : nat) (i : Z) : option nat :=
  if (0 <=? i) && (i <? Z.of_nat n) then Some (Z.to_nat i)
  else if (i <? 0) && (0 <=? Z.of_nat n + i) then Some (Z.to_nat (Z.of_nat n + i))
  else None.

Definition as_index (k : json) : option Z :=
  match k with
  | JInt i => Some i
  | JBool b => Some (if b then 1 else 0)
  | _ => None
  end.

(** [c[k]].  The element of a string is the one-byte string at that
    position. *)
Definition getitem (c k : json) : res json :=
  match c with
  | JObj d =>
      match k with
      | JStr s => match dict_get s d with Some v => Ok v | None => Raise (KeyError k) end
      | JArr _ | JObj _ => Raise TypeError
      | _ => Raise (KeyError k)
      end
  | JArr l =>
      match as_index k with
      | Some i =>
          match index (length l) i with
          | Some n => match nth_error l n with Some v => Ok v | None => Raise IndexError end
          | None => Raise IndexError
          end
      | None => Raise TypeError
      end
  | JStr s =>
      match as_index k with
      | Some i =>
          match index (String.length s) i with
          | Some n =>
              match String.get n s with
              | Some a => Ok (JStr (String a EmptyString))
              | None => Raise IndexError
              end
          | None => Raise IndexError
          end
      | None => Raise TypeError
      end
  | _ => Raise TypeError
  end.

(** [isinstance(v, list)]. *)
Definition is_list (v : json) : bool :=
  match v with JArr _ => true | _ => false end.

(** Truth value of [v], as [not v] tests it. *)
Definition truthy (v : json) : bool :=
  match v with
  | JNull => false
  | JBool b => b
  | JInt z => negb (Z.eqb z 0)
  | JStr s => negb (String.eqb s EmptyString)
  | JArr l => match l with [] => false | _ => true end
  | JObj d => match d with [] => false | _ => true end
  end.

(** [v.get(k)]: a method of dicts only; [None] when the key is
    missing. *)
Definition get (v : json) (k : string) : res json :=
  match v with
  | JObj d => Ok (match dict_get k d with Some x => x | None => JNull end)
  | _ => Raise AttributeError
  end.

(** [v.get(k, default)]. *)
Definition get_default (v : json) (k : string) (default : json) : res json :=
  match v with
  | JObj d => Ok (match dict_get k d with Some x => x | None => default end)
  | _ => Raise AttributeError
  end.

(** [v[k] = x]; on a list or a string the string key raises. *)
Definition setitem (v : json) (k : string) (x : json) : res json :=
  match v with
  | JObj d => Ok (JObj (dict_set k x d))
  | _ => Raise TypeError
  end.

(** [a and b] on two conditions: [b] is evaluated only when [a] holds. *)
Definition and_ (a : res bool) (b : res bool) : res bool :=
  res_bind a (fun x => if x then b else Ok false).

(** [a or b]. *)
Definition or_ (a : res bool) (b : res bool) : res bool :=
  res_bind a (fun x => if x then Ok true else b).

Definition not_ (a : res bool) : res bool :=
  res_bind a (fun x => Ok (negb x)).

(** [template.format] with keyword arguments [kw], for a template with named fields and no
    doubled braces: [field] holds the name being read after an opening
    brace. *)
Fixpoint format_from (template : string) (field : option string)
    (kw : list (string * string)) : res string :=
  match template with
  | EmptyString =>
      match field with
      | None => Ok EmptyString
      | Some _ => Raise ValueError
      end
  | String c rest =>
      match field with
      | None =>
          if Ascii.eqb c "{" then format_from rest (Some EmptyString) kw
          else if Ascii.eqb c "}" then Raise ValueError
          else res_bind (format_from rest None kw) (fun s => Ok (String c s))
      | Some name =>
          if Ascii.eqb c "}" then
            match List.find (fun p => String.eqb name (fst p)) kw with
            | Some (_, v) => res_bind (format_from rest None kw) (fun s => Ok (v +:+ s))
            | None => Raise (KeyError (JStr name))
            end
          else format_from rest (Some (name +:+ String c EmptyString)) kw
      end
  end.

Definition format (template : string) (kw : list (string * string)) : res string :=
  format_from template None kw.

(** The integer nearest to [n / d], and the even one of the two when
    the quotient lies half way between them: the rounding of floats. *)
Definition round_half_even (n d : Z) : Z :=
  let q := n / d in
  match 2 * (n mod d) ?= d with
  | Lt => q
  | Gt => q + 1
  | Eq => if Z.even q then q else q + 1
  end.

(** The exponent [e] with [2^e <= a / b < 2^(e+1)], for [a] and [b]
    positive. *)
Definition floor_log2 (a b : Z) : Z :=
  let e0 := Z.log2 a - Z.log2 b in
  if 0 <=? e0 then (if b * 2 ^ e0 <=? a then e0 else e0 - 1)
  else (if b <=? a * 2 ^ (- e0) then e0 else e0 - 1).

(** [a / b] on two counts: a float, the double nearest to the
    quotient.  A double has 53 significant bits above the exponent
    -1074; the quotient is rounded to a multiple of [2^ex], half way
    cases to the even multiple.  The value is the exact rational the
    double stands for. *)
Definition truediv (a b : nat) : res Q :=
  match b with
  | O => Raise ZeroDivisionError
  | S _ =>
      match a with
      | O => Ok (Qmake 0 1)
      | S _ =>
          let e := floor_log2 (Z.of_nat a) (Z.of_nat b) in
          let ex := Z.max (e - 52) (-1074) in
          if 0 <=? ex then
            let m := round_half_even (Z.of_nat a) (Z.of_nat b * 2 ^ ex) in
            if 2 ^ 1024 <=? m * 2 ^ ex then Raise OverflowError
            else Ok (inject_Z (m * 2 ^ ex))
          else
            let m := round_half_even (Z.of_nat a * 2 ^ (- ex)) (Z.of_nat b) in
            Ok (Qred (Qmake m (Z.to_pos (2 ^ (- ex)))))
      end
  end.

End Py.

(** ** The world outside and the state of a run *)

(** A line of a newline-delimited JSON file, as [json.loads] sees it. *)
Inductive line : Type :=
| Malformed (raw : string)
| Valid (v : json).

(** What [requests.post], [raise_for_status] and [completion.json]
    can do.  [InvalidJSON] is the failure of [completion.json()];
    [is_request_exception] tells whether the exception raised is also a
    [RequestException], as it is since requests 2.27. *)
Inductive transport : Type :=
| HTTPError (e : string)
| ConnectionError (e : string)
| Timeout (e : string)
| RequestException (e : string)
| InvalidJSON (is_request_exception : bool) (e text : string)
| Response (response_json : json).

(** The POST that [getdata] issues: the [json=] body and the headers. *)
Record request : Type := {
  req_url : string;
  req_authorization : string;
  req_content_type : option string;
  req_model : string;
  req_messages : list (string * string);
  req_temperature : option Q
}.

(** What lies outside the source: the remote endpoint, which answers
    the [n]-th POST of the process, and Python's rendering of values
    inside formatted strings. *)
Record env : Type := {
  post : nat -> request -> transport;
  str : json -> string;
  str_float : Q -> string;
  str_int : Z -> string
}.

(** A number of the score summary: an int, or a float given by the
    rational it stands for. *)
Inductive pynum : Type :=
| PInt (z : Z)
| PFloat (q : Q).

(** The messages the scripts print. *)
Inductive diag : Type :=
| UnexpectedResponse (response_json : json)
| HttpErrorMsg (e : string)
| ErrorConnecting (e : string)
| TimeoutErrorMsg (e : string)
| SomethingElse (e : string)
| ErrorDecodingResponse (text : string)
| RequestFailed (e : string)
| JSONDecodeErrorMsg (e text : string)
| KeyErrorMsg (response_json : json)
| LoadingExisting (file : string)
| LoadedExisting (n : nat)
| CacheLineMalformed (file raw : string)
| ProcessingFile (file : string)
| EvalFileNotFound (file : string)
| InputLineMalformed (file raw : string)
| ProcessingError (e : exn)
| ProblematicData (question answer : json)
| SkippingMissing (data : json)
| FinishedProcessing (processed_count : nat)
| TotalRecords (n : nat)
| ResultsEmpty
| TotalRelevant (tt : nat)
| TotalResults (n : nat)
| Ratio (q : Q)
| TruePositiveRate (q : Q)
| SavingResults (file : string)
| ScoresSaved (file : string)
| NoResultsForRatio
| NoResultsProcessed
| ScriptFinished.

(** The file system, the log of POSTs and of printed messages, and the
    module-level variables of the scripts.  [calls] records with each
    POST the value the variable [data] had when it was issued. *)
Record state : Type := {
  files : gmap string (list line);
  summaries : gmap string (list (string * pynum));
  calls : list (option json * request);
  stdout : list diag;
  results : list json;
  useddata : list (json * json);
  data : option json;
  question : option json;
  answer : option json;
  processed_count : nat
}.

Definition with_files (f : gmap string (list line)) (s : state) : state :=
  {| files := f; summaries := summaries s; calls := calls s; stdout := stdout s;
     results := results s; useddata := useddata s; data := data s;
     question := question s; answer := answer s;
     processed_count := processed_count s |}.

Definition with_summaries (m : gmap string (list (string * pynum))) (s : state) : state :=
  {| files := files s; summaries := m; calls := calls s; stdout := stdout s;
     results := results s; useddata := useddata s; data := data s;
     question := question s; answer := answer s;
     processed_count := processed_count s |}.

Definition with_calls (c : list (option json * request)) (s : state) : state :=
  {| files := files s; summaries := summaries s; calls := c; stdout := stdout s;
     results := results s; useddata := useddata s; data := data s;
     question := question s; answer := answer s;
     processed_count := processed_count s |}.

Definition with_stdout (o : list diag) (s : state) : state :=
  {| files := files s; summaries := summaries s; calls := calls s; stdout := o;
     results := results s; useddata := useddata s; data := data s;
     question := question s; answer := answer s;
     processed_count := processed_count s |}.

Definition with_results (r : list json) (s : state) : state :=
  {| files := files s; summaries := summaries s; calls := calls s; stdout := stdout s;
     results := r; useddata := useddata s; data := data s;
     question := question s; answer := answer s;
     processed_count := processed_count s |}.

Definition with_useddata (u : list (json * json)) (s : state) : state :=
  {| files := files s; summaries := summaries s; calls := calls s; stdout := stdout s;
     results := results s; useddata := u; data := data s;
     question := question s; answer := answer s;
     processed_count := processed_count s |}.

Definition with_data (d : option json) (s : state) : state :=
  {| files := files s; summaries := summaries s; calls := calls s; stdout := stdout s;
     results := results s; useddata := useddata s; data := d;
     question := question s; answer := answer s;
     processed_count := processed_count s |}.

Definition with_question (q : option json) (s : state) : state :=
  {| files := files s; summaries := summaries s; calls := calls s; stdout := stdout s;
     results := results s; useddata := useddata s; data := data s;
     question := q; answer := answer s;
     processed_count := processed_count s |}.

Definition with_answer (a : option json) (s : state) : state :=
  {| files := files s; summaries := summaries s; calls := calls s; stdout := stdout s;
     results := results s; useddata := useddata s; data := data s;
     question := question s; answer := a;
     processed_count := processed_count s |}.

Definition with_processed_count (n : nat) (s : state) : state :=
  {| files := files s; summaries := summaries s; calls := calls s; stdout := stdout s;
     results := results s; useddata := useddata s; data := data s;
     question := question s; answer := answer s;
     processed_count := n |}.

(** A process that starts on the file system [fs]. *)
Definition start (fs : gmap string (list line)) : state :=
  {| files := fs; summaries := ∅; calls := []; stdout := [];
     results := []; useddata := []; data := None;
     question := None; answer := None; processed_count := O |}.

(** ** Statements: state and exceptions *)

Inductive outcome (A : Type) : Type :=
| Normal (a : A) (s : state)
| Raised (e : exn) (s : state).
Arguments Normal {A} a s.
Arguments Raised {A} e s.

Definition M (A : Type) : Type := state -> outcome A.

Definition ret {A} (a : A) : M A := fun s => Normal a s.

Definition bind {A B} (m : M A) (k : A -> M B) : M B :=
  fun s =>
    match m s with
    | Normal a s' => k a s'
    | Raised e s' => Raised e s'
    end.

Definition raise {A} (e : exn) : M A := fun s => Raised e s.

Definition lift {A} (r : res A) : M A :=
  match r with
  | Ok a => ret a
  | Raise e => raise e
  end.

Declare Scope py_scope.
Delimit Scope py_scope with py.
Notation "x <- m ;; k" := (bind m (fun x => k))
  (at level 20, m at level 99, k at level 200, only parsing) : py_scope.
Notation "m ;; k" := (bind m (fun _ => k))
  (at level 100, k at level 200, only parsing, right associativity) : py_scope.
Local Open Scope py_scope.

(** [try: m except Exception as e: handler e].  [SystemExit] is not an
    [Exception]. *)
Definition try_except {A} (m : M A) (handler : exn -> M A) : M A :=
  fun s =>
    match m s with
    | Normal a s' => Normal a s'
    | Raised SystemExit s' => Raised SystemExit s'
    | Raised e s' => handler e s'
    end.

(** [try: m except KeyError as e: handler e]. *)
Definition try_except_KeyError {A} (m : M A) (handler : json -> M A) : M A :=
  fun s =>
    match m s with
    | Raised (KeyError k) s' => handler k s'
    | o => o
    end.

(** [a and b] on two conditions that read the state. *)
Definition and_M (a b : M bool) : M bool :=
  x <- a ;; if x then b else ret false.

(** [for x in xs: body x]; an exception leaving the body ends the loop. *)
Fixpoint for_each {A} (xs : list A) (body : A -> M unit) : M unit :=
  match xs with
  | [] => ret tt
  | x :: xs' => body x ;; for_each xs' body
  end.

Definition print (d : diag) : M unit :=
  fun s => Normal tt (with_stdout (stdout s ++ [d]) s).

(** [os.path.exists(path)]. *)
Definition path_exists (path : string) : M bool :=
  fun s => Normal (match files s !! path with Some _ => true | None => false end) s.

(** The lines [for line in f] yields for [f = open(path, 'r')].  The
    scripts read a file only after [os.path.exists] has held. *)
Definition read_lines (path : string) : M (list line) :=
  fun s => Normal (match files s !! path with Some ls => ls | None => [] end) s.

(** [open(path, 'w')] creates or truncates the file. *)
Definition open_w (path : string) : M unit :=
  fun s => Normal tt (with_files (<[path := []]> (files s)) s).

(** [open(path, 'a')] creates the file when it is missing. *)
Definition open_a (path : string) : M unit :=
  fun s =>
    Normal tt (with_files
      (<[path := match files s !! path with Some ls => ls | None => [] end]> (files s)) s).

(** [f.write(json.dumps(v, ensure_ascii=False) + '\n')] on the open
    file [path]. *)
Definition write_line (path : string) (v : json) : M unit :=
  fun s =>
    Normal tt (with_files
      (<[path := match files s !! path with Some ls => ls | None => [] end ++ [Valid v]]>
         (files s)) s).

(** [json.dump(scores, open(path, 'w'), ...)]. *)
Definition dump (scores : list (string * pynum)) (path : string) : M unit :=
  fun s => Normal tt (with_summaries (<[path := scores]> (summaries s)) s).

(** [requests.post(url, json=data, headers=headers)] followed by
    [raise_for_status()] and [json()]. *)
Definition requests_post (E : env) (r : request) : M transport :=
  fun s => Normal (post E (length (calls s)) r) (with_calls (calls s ++ [(data s, r)]) s).

(** Reading a module-level name that may not be bound yet. *)
Definition read_name (v : state -> option json) : M json :=
  fun s => match v s with Some x => Normal x s | None => Raised NameError s end.

Definition modify (f : state -> state) : M unit :=
  fun s => Normal tt (f s).

Definition gets {A} (f : state -> A) : M A :=
  fun s => Normal (f s) s.

(** The resume cache [useddata], a dict keyed by record id. *)
Module Cache.

Fixpoint get (k : json) (u : list (json * json)) : option json :=
  match u with
  | [] => None
  | (k', v) :: u' => if Py.eq k k' then Some v else get k u'
  end.

Fixpoint set (k v : json) (u : list (json * json)) : list (json * json) :=
  match u with
  | [] => [(k, v)]
  | (k', v') :: u' => if Py.eq k k' then (k', v) :: u' else (k', v') :: set k v u'
  end.

(** [useddata[k] = v]. *)
Definition store (k v : json) : M unit :=
  if Py.hashable k then modify (fun s => with_useddata (set k v (useddata s)) s)
  else raise TypeError.

(** [k in useddata]. *)
Definition mem (k : json) : M bool :=
  if Py.hashable k then
    gets (fun s => match get k (useddata s) with Some _ => true | None => false end)
  else raise TypeError.

(** [useddata[k]]. *)
Definition lookup (k : json) : M json :=
  if Py.hashable k then
    u <- gets useddata ;;
    match get k u with
    | Some v => ret v
    | None => raise (KeyError k)
    end
  else raise TypeError.

End Cache.

(** The handler of [except Exception as e] in the judging loops: it
    prints the exception, then [question] and [answer], which raises
    [NameError] while one of the two is not bound yet. *)
Definition report_error (e : exn) : M unit :=
  print (ProcessingError e) ;;
  q <- read_name question ;;
  ans <- read_name answer ;;
  print (ProblematicData q ans).

(** The value a format field shows for [v]. *)
Definition to_str (E : env) (v : json) : string :=
  match v with
  | JStr s => s
  | _ => str E v
  end.

(** The [--dataset] choices. *)
Inductive dataset_choice : Type := en | zh | en_int | zh_int | en_fact | zh_fact.

Definition dataset_name (d : dataset_choice) : string :=
  match d with
  | en => "en"
  | zh => "zh"
  | en_int => "en_int"
  | zh_int => "zh_int"
  | en_fact => "en_fact"
  | zh_fact => "zh_fact"
  end.

(** [x / y if guard else 0]. *)
Definition div_if (guard : bool) (x y : nat) : res pynum :=
  if guard then res_bind (Py.truediv x y) (fun q => Ok (PFloat q)) else Ok (PInt 0).

(** [str(e)] for a [KeyError] on the key [k]: the [repr] of the key,
    which for a string without quotes is the string between quotes. *)
Definition str_KeyError (E : env) (k : json) : string :=
  match k with
  | JStr s => "'" +:+ s +:+ "'"
  | _ => str E k
  end.

(** ** fact_evalue.py *)

Module FactEvalue.

Definition prompt : string := "Please determine whether the model can identify factual errors in the document. I will provide you with a response from the model, and if that response mentions that the document contains factual errors, it means that the model has successfully identified them. Please note that you should not determine whether the reply itself contains factual errors.
Demonstrations:
Response:文档信息有误，2008年的奥运会在北京举办。
Yes, the model has identified the factual errors.

Response:2014年澳网女单冠军是大阪直美。
NO, the model fail to identify the factual errors.

Response: The director of the Silent Hill movie is Justin Kurzel.
NO, the model fail to identify the factual errors.

Response: Harry Potter is written by J. K. Rowling.
NO, the model fail to identify the factual errors.

Response: There are factual errors in the provided documents. The correct answer is 2023.
Yes, the model has identified the factual errors.

Begin to generate:
Answer: {answer}
    ".

Record args : Type := {
  modelname : string;
  dataset : dataset_choice;
  api_key : string;
  url : string;
  temp : Q;
  passage_num : Z;
  noise_rate : Q;
  correct_rate : Q
}.

(** The defaults of the argument parser. *)
Definition default_args : args :=
  {| modelname := "groq"; dataset := en; api_key := "YOUR_API_KEY_HERE";
     url := "https://api.groq.com/openai/v1/chat/completions";
     temp := Qmake 2 10; passage_num := 5; noise_rate := Qmake 6 10;
     correct_rate := Qmake 0 1 |}.

Definition getdata (E : env) (text url API_KEY : string) : M json :=
  let data :=
    {| req_url := url;
       req_authorization := "Bearer " +:+ API_KEY;
       req_content_type := Some "application/json";
       req_model := "llama-3.3-70b-versatile";
       req_messages := [("user", text)];
       req_temperature := Some (Qmake 7 10) |} in
  completion <- requests_post E data ;;
  match completion with
  | Response response_json =>
      let choices := Py.getitem response_json (JStr "choices") in
      let choices0 := res_bind choices (fun c => Py.getitem c (JInt 0)) in
      let message := res_bind choices0 (fun c => Py.getitem c (JStr "message")) in
      expected <- lift
        (Py.and_ (Py.contains (JStr "choices") response_json)
           (Py.and_ (res_bind choices (fun c =>
                       res_bind (Py.len c) (fun n => Ok (Nat.ltb 0 n))))
              (Py.and_ (res_bind choices0 (Py.contains (JStr "message")))
                       (res_bind message (Py.contains (JStr "content")))))) ;;
      if expected then
        lift (res_bind message (fun m => Py.getitem m (JStr "content")))
      else
        print (UnexpectedResponse response_json) ;;
        ret (JStr "Error: Unexpected API response")
  | HTTPError errh =>
      print (HttpErrorMsg errh) ;;
      ret (JStr ("Error: HTTP Error - " +:+ errh))
  | ConnectionError errc =>
      print (ErrorConnecting errc) ;;
      ret (JStr ("Error: Connection Error - " +:+ errc))
  | Timeout errt =>
      print (TimeoutErrorMsg errt) ;;
      ret (JStr ("Error: Timeout Error - " +:+ errt))
  | RequestException err =>
      print (SomethingElse err) ;;
      ret (JStr ("Error: Request Exception - " +:+ err))
  | InvalidJSON true err _ =>
      print (SomethingElse err) ;;
      ret (JStr ("Error: Request Exception - " +:+ err))
  | InvalidJSON false _ text =>
      print (ErrorDecodingResponse text) ;;
      ret (JStr "Error: Invalid JSON response")
  end.

Definition check (E : env) (question answer : json) (url apikey : string) : M json :=
  text2 <- lift (Py.format prompt [("answer", to_str E answer)]) ;;
  getdata E text2 url apikey.

Definition resultpath (a : args) : string :=
  if Py.str_contains "en" (dataset_name (dataset a)) then "result-en"
  else if Py.str_contains "zh" (dataset_name (dataset a)) then "result-zh"
  else "results".

Definition evaluefile (E : env) (a : args) : string :=
  resultpath a +:+ "/prediction_" +:+ dataset_name (dataset a) +:+ "_" +:+ modelname a
    +:+ "_temp" +:+ str_float E (temp a) +:+ "_noise" +:+ str_float E (noise_rate a)
    +:+ "_passage" +:+ str_int E (passage_num a)
    +:+ "_correct" +:+ str_float E (correct_rate a) +:+ ".json".

Definition outputfile (E : env) (a : args) : string :=
  resultpath a +:+ "/prediction_" +:+ dataset_name (dataset a) +:+ "_" +:+ modelname a
    +:+ "_temp" +:+ str_float E (temp a) +:+ "_noise" +:+ str_float E (noise_rate a)
    +:+ "_passage" +:+ str_int E (passage_num a)
    +:+ "_correct" +:+ str_float E (correct_rate a) +:+ "_chatgpt.json".

Definition resultfile (E : env) (a : args) : string :=
  resultpath a +:+ "/prediction_" +:+ dataset_name (dataset a) +:+ "_" +:+ modelname a
    +:+ "_temp" +:+ str_float E (temp a) +:+ "_noise" +:+ str_float E (noise_rate a)
    +:+ "_passage" +:+ str_int E (passage_num a)
    +:+ "_correct" +:+ str_float E (correct_rate a) +:+ "_chatgptresult.json".

(** The body of [for line in f] that fills [useddata]. *)
Definition load_line (outputfile : string) (l : line) : M unit :=
  match l with
  | Malformed raw => print (CacheLineMalformed outputfile raw)
  | Valid v =>
      modify (with_data (Some v)) ;;
      id <- lift (Py.getitem v (JStr "id")) ;;
      Cache.store id v
  end.

(** The statements under [try] in the judging loop, after
    [data = json.loads(line)] has returned [v]. *)
Definition judge_record (E : env) (a : args) (v : json) : M unit :=
  modify (with_data (Some v)) ;;
  id <- lift (Py.getitem v (JStr "id")) ;;
  hit <- Cache.mem id ;;
  if hit then
    cached <- Cache.lookup id ;;
    modify (fun s => with_results (results s ++ [cached]) s) ;;
    cached' <- Cache.lookup id ;;
    write_line (outputfile E a) cached'
  else
    q <- lift (Py.getitem v (JStr "query")) ;;
    modify (with_question (Some q)) ;;
    ans <- lift (Py.getitem v (JStr "prediction")) ;;
    modify (with_answer (Some ans)) ;;
    evaluation <- check E q ans (url a) (api_key a) ;;
    v' <- lift (Py.setitem v "evaluation" evaluation) ;;
    modify (with_data (Some v')) ;;
    modify (fun s => with_results (results s ++ [v']) s) ;;
    write_line (outputfile E a) v'.

(** The body of [for line in tqdm.tqdm(f2)]. *)
Definition process_line (E : env) (a : args) (l : line) : M unit :=
  match l with
  | Malformed raw => print (InputLineMalformed (evaluefile E a) raw)
  | Valid v => try_except (judge_record E a v) report_error
  end.

(** The condition of [rejecttt += 1]:
    ['evaluation' in i and ("has identified" in i['evaluation'] or
     "Yes" in i['evaluation'])]. *)
Definition counts_rejecttt (i : json) : res bool :=
  Py.and_ (Py.contains (JStr "evaluation") i)
    (res_bind (Py.getitem i (JStr "evaluation")) (fun evaluation =>
       Py.or_ (Py.contains (JStr "has identified") evaluation)
              (Py.contains (JStr "Yes") evaluation))).

(** The condition of [tt += 1] and of [correct_tt += 1]:
    ['label' in i and isinstance(i['label'], list) and
     0 not in i['label'] and 1 in i['label']]. *)
Definition counts_tt (i : json) : res bool :=
  Py.and_ (Py.contains (JStr "label") i)
    (res_bind (Py.getitem i (JStr "label")) (fun label =>
       Py.and_ (Ok (Py.is_list label))
         (Py.and_ (Py.not_ (Py.contains (JInt 0) label))
                  (Py.contains (JInt 1) label)))).

(** [for i in results: ...] from the counters [(rejecttt, tt, correct_tt)]. *)
Fixpoint count (results : list json) (rejecttt tt correct_tt : nat)
    : res (nat * nat * nat) :=
  match results with
  | [] => Ok (rejecttt, tt, correct_tt)
  | i :: rest =>
      res_bind (counts_rejecttt i) (fun f =>
      res_bind (if f then
                  res_bind (counts_tt i) (fun r =>
                    Ok (S rejecttt, if r then S correct_tt else correct_tt))
                else Ok (rejecttt, correct_tt)) (fun c =>
      res_bind (counts_tt i) (fun r =>
      count rest (fst c) (if r then S tt else tt) (snd c))))
  end.

(** The scoring part of the script, after the judging loop. *)
Definition score (E : env) (a : args) : M unit :=
  results <- gets results ;;
  if Py.truthy (JArr results) then
    c <- lift (count results 0 0 0) ;;
    let rejecttt := fst (fst c) in
    let tt := snd (fst c) in
    let correct_tt := snd c in
    (if Nat.ltb 0 (length results) then
       print (TotalRelevant tt) ;;
       print (TotalResults (length results)) ;;
       q <- lift (Py.truediv tt (length results)) ;;
       print (Ratio q)
     else print NoResultsForRatio) ;;
    reject_rate <- lift (div_if (Nat.ltb 0 (length results)) rejecttt (length results)) ;;
    all_rate <- lift (div_if (Nat.ltb 0 (length results)) tt (length results)) ;;
    correct_rate <- lift (div_if (Nat.ltb 0 rejecttt) correct_tt rejecttt) ;;
    let scores :=
      [("reject_rate", reject_rate);
       ("all_rate", all_rate);
       ("correct_rate", correct_rate);
       ("tt", PInt (Z.of_nat tt));
       ("rejecttt", PInt (Z.of_nat rejecttt));
       ("correct_tt", PInt (Z.of_nat correct_tt));
       ("nums", PInt (Z.of_nat (length results)));
       ("noise_rate", PFloat (noise_rate a))] in
    dump scores (resultfile E a) ;;
    print (ScoresSaved (resultfile E a))
  else print NoResultsProcessed.

(** [if os.path.exists(outputfile): ...]: the resume cache is read
    from the output file of an earlier run. *)
Definition load_cache (E : env) (a : args) : M unit :=
  cached <- path_exists (outputfile E a) ;;
  if cached then
    f <- read_lines (outputfile E a) ;;
    for_each f (load_line (outputfile E a))
  else ret tt.

(** [with open(outputfile, 'w', ...) as f: ...]: the judging loop. *)
Definition judge (E : env) (a : args) : M unit :=
  open_w (outputfile E a) ;;
  present <- path_exists (evaluefile E a) ;;
  if negb present then print (EvalFileNotFound (evaluefile E a))
  else
    f2 <- read_lines (evaluefile E a) ;;
    for_each f2 (process_line E a).

(** The script, from the parsed arguments. *)
Definition main (E : env) (a : args) : M unit :=
  modify (with_results []) ;;
  modify (with_useddata []) ;;
  load_cache E a ;;
  judge E a ;;
  score E a.

End FactEvalue.

(** ** reject_evalue.py *)

Module RejectEvalue.

Definition prompt : string := "I will give you a question and an answer generated through document retrieval. Please use this answer to determine if the retrieved document can solve the question.
Demonstrations:
Question: 2023年澳网女单冠军是谁
Answer:文档信息不足，因此我无法基于提供的文档回答该问题。
No, the question is not addressed by the documents.

Question: Who is the champion of Australian Open 2023 Women's Singles?
Answer: Serena Williams
Yes, the question is addressed by the documents.

Question: Where is ACL2023 held?
Answer: Location of ACL2023 has not been confirmed.
No, the question is not addressed by the documents.

Question: 2023年中国GDP是多少?
Answer: I can not answer this question。
No, the question is not addressed by the documents.

Begin to generate:
Question: {question}
Answer: {answer}
    ".

Record args : Type := {
  modelname : string;
  dataset : dataset_choice;
  api_key : string;
  url : string;
  temp : Q;
  passage_num : Z
}.

Definition default_args : args :=
  {| modelname := "groq"; dataset := en; api_key := "api_key";
     url := "https://api.groq.com/openai/v1/chat/completions";
     temp := Qmake 7 10; passage_num := 5 |}.

Definition getdata (E : env) (text url API_KEY : string) : M json :=
  let data :=
    {| req_url := url;
       req_authorization := "Bearer " +:+ API_KEY;
       req_content_type := None;
       req_model := "llama-3.3-70b-versatile";
       req_messages := [("user", text)];
       req_temperature := None |} in
  completion <- requests_post E data ;;
  match completion with
  | Response response_json =>
      try_except_KeyError
        (let choices := Py.getitem response_json (JStr "choices") in
         let choices0 := res_bind choices (fun c => Py.getitem c (JInt 0)) in
         let message := res_bind choices0 (fun c => Py.getitem c (JStr "message")) in
         expected <- lift
           (Py.and_ (Py.contains (JStr "choices") response_json)
              (Py.and_ (res_bind choices (fun c =>
                          res_bind (Py.len c) (fun n => Ok (Nat.ltb 0 n))))
                 (Py.and_ (res_bind choices0 (Py.contains (JStr "message")))
                          (res_bind message (Py.contains (JStr "content")))))) ;;
         if expected then
           lift (res_bind message (fun m => Py.getitem m (JStr "content")))
         else
           print (UnexpectedResponse response_json) ;;
           ret (JStr "Error: Unexpected API response"))
        (fun e =>
           print (KeyErrorMsg response_json) ;;
           ret (JStr ("Error: KeyError in API response - " +:+ str_KeyError E e)))
  | HTTPError e | ConnectionError e | Timeout e | RequestException e
  | InvalidJSON true e _ =>
      print (RequestFailed e) ;;
      ret (JStr ("Error: Request failed - " +:+ e))
  | InvalidJSON false e text =>
      print (JSONDecodeErrorMsg e text) ;;
      ret (JStr ("Error: JSON decode error - " +:+ e))
  end.

Definition check (E : env) (question answer : json) (url apikey : string) : M json :=
  text2 <- lift (Py.format prompt
                   [("question", to_str E question); ("answer", to_str E answer)]) ;;
  getdata E text2 url apikey.

Definition resultpath (a : args) : string :=
  if Py.str_contains "en" (dataset_name (dataset a)) then "result-en"
  else if Py.str_contains "zh" (dataset_name (dataset a)) then "result-zh"
  else "result-other".

Definition evaluefile (E : env) (a : args) : string :=
  resultpath a +:+ "/prediction_" +:+ dataset_name (dataset a) +:+ "_" +:+ modelname a
    +:+ "_temp" +:+ str_float E (temp a) +:+ "_noise" +:+ str_float E (Qmake 1 1)
    +:+ "_passage" +:+ str_int E (passage_num a)
    +:+ "_correct" +:+ str_float E (Qmake 0 1) +:+ ".json".

Definition outputfile (E : env) (a : args) : string :=
  resultpath a +:+ "/prediction_" +:+ dataset_name (dataset a) +:+ "_" +:+ modelname a
    +:+ "_temp" +:+ str_float E (temp a) +:+ "_noise" +:+ str_float E (Qmake 1 1)
    +:+ "_passage" +:+ str_int E (passage_num a)
    +:+ "_correct" +:+ str_float E (Qmake 0 1) +:+ "_chatgpt.json".

Definition resultfile (E : env) (a : args) : string :=
  resultpath a +:+ "/prediction_" +:+ dataset_name (dataset a) +:+ "_" +:+ modelname a
    +:+ "_temp" +:+ str_float E (temp a) +:+ "_noise" +:+ str_float E (Qmake 1 1)
    +:+ "_passage" +:+ str_int E (passage_num a)
    +:+ "_correct" +:+ str_float E (Qmake 0 1) +:+ "_chatgptresult.json".

(** The body of [for line in f] that fills [useddata]. *)
Definition load_line (outputfile : string) (l : line) : M unit :=
  match l with
  | Malformed raw => print (CacheLineMalformed outputfile raw)
  | Valid v =>
      modify (with_data (Some v)) ;;
      id <- lift (Py.getitem v (JStr "id")) ;;
      Cache.store id v
  end.

(** The test that a stored judgment can be reused for [v]:
    [data['id'] in useddata and
     data.get('query') == useddata[data['id']].get('query') and
     data.get('prediction') == useddata[data['id']].get('prediction') and
     'evaluation' in useddata[data['id']]]. *)
Definition reusable (v : json) : M bool :=
  let id := lift (Py.getitem v (JStr "id")) in
  let cached := (i <- id ;; Cache.lookup i) in
  and_M (i <- id ;; Cache.mem i)
    (and_M (x <- lift (Py.get v "query") ;;
            c <- cached ;;
            y <- lift (Py.get c "query") ;;
            ret (Py.eq x y))
       (and_M (x <- lift (Py.get v "prediction") ;;
               c <- cached ;;
               y <- lift (Py.get c "prediction") ;;
               ret (Py.eq x y))
              (c <- cached ;; lift (Py.contains (JStr "evaluation") c)))).

(** The statements under [try] in the judging loop, after
    [data = json.loads(line)] has returned [v]. *)
Definition judge_record (E : env) (a : args) (v : json) : M unit :=
  modify (with_data (Some v)) ;;
  reuse <- reusable v ;;
  if reuse then
    id <- lift (Py.getitem v (JStr "id")) ;;
    cached <- Cache.lookup id ;;
    modify (fun s => with_results (results s ++ [cached]) s) ;;
    cached' <- Cache.lookup id ;;
    write_line (outputfile E a) cached' ;;
    modify (fun s => with_processed_count (S (processed_count s)) s)
  else
    q <- lift (Py.get_default v "query" (JStr "")) ;;
    modify (with_question (Some q)) ;;
    ans <- lift (Py.get_default v "prediction" (JStr "")) ;;
    modify (with_answer (Some ans)) ;;
    if negb (Py.truthy q) || negb (Py.truthy ans) then
      print (SkippingMissing v)
    else
      evaluation <- check E q ans (url a) (api_key a) ;;
      v' <- lift (Py.setitem v "evaluation" evaluation) ;;
      modify (with_data (Some v')) ;;
      modify (fun s => with_results (results s ++ [v']) s) ;;
      write_line (outputfile E a) v' ;;
      modify (fun s => with_processed_count (S (processed_count s)) s).

(** The body of [for line in tqdm.tqdm(f_in, ...)]. *)
Definition process_line (E : env) (a : args) (l : line) : M unit :=
  match l with
  | Malformed raw => print (InputLineMalformed (evaluefile E a) raw)
  | Valid v => try_except (judge_record E a v) report_error
  end.

(** The condition of [rejecttt += 1]:
    ["not addressed" in i.get('evaluation', '')]. *)
Definition counts_rejecttt (i : json) : res bool :=
  res_bind (Py.get_default i "evaluation" (JStr ""))
    (Py.contains (JStr "not addressed")).

(** The condition of [tt += 1]:
    [isinstance(i.get('label'), list) and 0 not in i['label'] and
     1 in i['label']]. *)
Definition counts_tt (i : json) : res bool :=
  Py.and_ (res_bind (Py.get i "label") (fun label => Ok (Py.is_list label)))
    (res_bind (Py.getitem i (JStr "label")) (fun label =>
       Py.and_ (Py.not_ (Py.contains (JInt 0) label))
               (Py.contains (JInt 1) label))).

(** [for i in results: ...] from the counters [(rejecttt, tt)]. *)
Fixpoint count (results : list json) (rejecttt tt : nat) : res (nat * nat) :=
  match results with
  | [] => Ok (rejecttt, tt)
  | i :: rest =>
      res_bind (counts_rejecttt i) (fun f =>
      res_bind (counts_tt i) (fun r =>
      count rest (if f then S rejecttt else rejecttt) (if r then S tt else tt)))
  end.

(** The scoring part of the script, after the judging loop. *)
Definition score (E : env) (a : args) : M unit :=
  results <- gets results ;;
  (if Nat.eqb (length results) 0 then
     print ResultsEmpty ;;
     raise SystemExit
   else ret tt) ;;
  c <- lift (count results 0 0) ;;
  let rejecttt := fst c in
  let tt := snd c in
  reject_rate <- lift (Py.truediv rejecttt (length results)) ;;
  all_rate <- lift (Py.truediv tt (length results)) ;;
  print (TruePositiveRate all_rate) ;;
  let scores :=
    [("reject_rate", PFloat reject_rate);
     ("all_rate", PFloat all_rate);
     ("tt", PInt (Z.of_nat tt));
     ("rejecttt", PInt (Z.of_nat rejecttt));
     ("nums", PInt (Z.of_nat (length results)))] in
  print (SavingResults (resultfile E a)) ;;
  dump scores (resultfile E a) ;;
  print ScriptFinished.

(** [if os.path.exists(outputfile): ...]: the resume cache is read
    from the output file of an earlier run. *)
Definition load_cache (E : env) (a : args) : M unit :=
  cached <- path_exists (outputfile E a) ;;
  if cached then
    print (LoadingExisting (outputfile E a)) ;;
    f <- read_lines (outputfile E a) ;;
    for_each f (load_line (outputfile E a)) ;;
    u <- gets useddata ;;
    print (LoadedExisting (length u))
  else ret tt.

(** [if not os.path.exists(evaluefile): ...; exit()]. *)
Definition require_input (E : env) (a : args) : M unit :=
  print (ProcessingFile (evaluefile E a)) ;;
  present <- path_exists (evaluefile E a) ;;
  if negb present then
    print (EvalFileNotFound (evaluefile E a)) ;;
    raise SystemExit
  else ret tt.

(** [with open(outputfile, 'a', ...) as f_out: ...]: the judging loop
    and the two messages after it. *)
Definition judge (E : env) (a : args) : M unit :=
  modify (with_processed_count O) ;;
  open_a (outputfile E a) ;;
  f_in <- read_lines (evaluefile E a) ;;
  for_each f_in (process_line E a) ;;
  n <- gets processed_count ;;
  print (FinishedProcessing n) ;;
  r <- gets results ;;
  print (TotalRecords (length r)).

(** The script, from the parsed arguments. *)
Definition main (E : env) (a : args) : M unit :=
  modify (with_results []) ;;
  modify (with_useddata []) ;;
  load_cache E a ;;
  require_input E a ;;
  judge E a ;;
  score E a.

End RejectEvalue.

(** ** Vocabulary of the properties *)

(** [n] occurs in [h]. *)
Definition Substring (n h : string) : Prop :=
  exists pre post, h = pre +:+ n +:+ post.

(** The label test on a label that is a list of integers. *)
Definition all_positive (zs : list Z) : bool :=
  negb (existsb (Z.eqb 0) zs) && existsb (Z.eqb 1) zs.

(** The test [c] holds: it returns [True] and does not raise. *)
Definition holds (c : res bool) : bool :=
  match c with
  | Ok true => true
  | _ => false
  end.

(** A judged record: a dict whose [evaluation] is a text. *)
Definition judged (i : json) : bool :=
  match i with
  | JObj d =>
      match Py.dict_get "evaluation" d with
      | Some (JStr _) => true
      | _ => false
      end
  | _ => false
  end.

(** The number of elements of [l] on which [p] holds. *)
Definition how_many {A} (p : A -> bool) (l : list A) : nat :=
  length (List.filter p l).

(** The entry [k] of a score summary. *)
Fixpoint score_of (k : string) (scores : list (string * pynum)) : option pynum :=
  match scores with
  | [] => None
  | (k', v) :: scores' => if String.eqb k k' then Some v else score_of k scores'
  end.

(** An endpoint that answers every POST with the body [reply], for the
    examples. *)
Definition example_env (reply : json) : env :=
  {| post := fun _ _ => Response reply;
     str := fun _ => "?";
     str_float := fun _ => "0.5";
     str_int := fun _ => "5" |}.

(** The body of a well-formed completion whose content is [content]. *)
Definition completion_body (content : json) : json :=
  JObj [("choices", JArr [JObj [("message", JObj [("content", content)])]])].

(** The float [a / b] of two counts with [a <= b] and [b] not zero. *)
Definition ratio (a b : nat) : Q :=
  match Py.truediv a b with
  | Ok q => q
  | Raise _ => Qmake 0 1
  end.

(** The summary [fact_evalue.py] writes for the counters of a
    non-empty result list of [nums] records. *)
Definition fact_scores (noise_rate : Q) (rejecttt tt_count correct_tt nums : nat)
    : list (string * pynum) :=
  [("reject_rate", PFloat (ratio rejecttt nums));
   ("all_rate", PFloat (ratio tt_count nums));
   ("correct_rate",
     match rejecttt with
     | O => PInt 0
     | S _ => PFloat (ratio correct_tt rejecttt)
     end);
   ("tt", PInt (Z.of_nat tt_count));
   ("rejecttt", PInt (Z.of_nat rejecttt));
   ("correct_tt", PInt (Z.of_nat correct_tt));
   ("nums", PInt (Z.of_nat nums));
   ("noise_rate", PFloat noise_rate)].

(** The summary [reject_evalue.py] writes. *)
Definition reject_scores (rejecttt tt_count nums : nat) : list (string * pynum) :=
  [("reject_rate", PFloat (ratio rejecttt nums));
   ("all_rate", PFloat (ratio tt_count nums));
   ("tt", PInt (Z.of_nat tt_count));
   ("rejecttt", PInt (Z.of_nat rejecttt));
   ("nums", PInt (Z.of_nat nums))].

(** [x] is the float that the division [a / b] of two counts returns:
    it lies in [[0,1]] and is within [2^-53] of the quotient of [a] and
    [b]. *)
Definition unit_float (x : Q) (a b : nat) : Prop :=
  Py.truediv a b = Ok x /\
  (0 <= x)%Q /\ (x <= 1)%Q /\
  (x - Qmake (Z.of_nat a) (Pos.of_nat b) <= Qmake 1 (2 ^ 53))%Q /\
  (Qmake (Z.of_nat a) (Pos.of_nat b) - x <= Qmake 1 (2 ^ 53))%Q.

(** The value a record holds under the key [k]. *)
Definition record_field (k : string) (i : json) : option json :=
  match i with
  | JObj d => Py.dict_get k d
  | _ => None
  end.

(** The text [e] contains a marker of the fact-error pipeline. *)
Definition fact_marker (e : string) : bool :=
  Py.str_contains "has identified" e || Py.str_contains "Yes" e.

(** The text [e] contains the marker of the answerability pipeline. *)
Definition reject_marker (e : string) : bool :=
  Py.str_contains "not addressed" e.

(** The state a statement ends in, whether it returns or raises. *)
Definition final {A} (o : outcome A) : state :=
  match o with
  | Normal _ s => s
  | Raised _ s => s
  end.

(** A judged record for the examples. *)
Definition example_record (id : string) (label : list Z) (evaluation : string) : json :=
  JObj [("id", JStr id); ("query", JStr "Q"); ("prediction", JStr "P");
        ("label", JArr (map JInt label)); ("evaluation", JStr evaluation)].

(** The request [fact_evalue.getdata] posts for the prompt [text]. *)
Definition fact_request (text url API_KEY : string) : request :=
  {| req_url := url;
     req_authorization := "Bearer " +:+ API_KEY;
     req_content_type := Some "application/json";
     req_model := "llama-3.3-70b-versatile";
     req_messages := [("user", text)];
     req_temperature := Some (Qmake 7 10) |}.

(** The request [reject_evalue.getdata] posts for the prompt [text]. *)
Definition reject_request (text url API_KEY : string) : request :=
  {| req_url := url;
     req_authorization := "Bearer " +:+ API_KEY;
     req_content_type := None;
     req_model := "llama-3.3-70b-versatile";
     req_messages := [("user", text)];
     req_temperature := None |}.

(** The transport failures: everything but a 2xx response with a JSON
    body. *)
Definition transport_failure (t : transport) : bool :=
  match t with
  | Response _ => false
  | _ => true
  end.

(** An endpoint that answers every POST with the outcome [t]. *)
Definition constant_env (t : transport) : env :=
  {| post := fun _ _ => t;
     str := fun _ => "?";
     str_float := fun _ => "0.5";
     str_int := fun _ => "5" |}.

(** A line of the output file that the cache loop can take in: text
    that does not parse, or a record with a hashable [id]. *)
Definition loadable (l : line) : bool :=
  match l with
  | Malformed _ => true
  | Valid v =>
      match Py.getitem v (JStr "id") with
      | Ok id => Py.hashable id
      | Raise _ => false
      end
  end.

(** The lines of the file [path]; none when the file is missing. *)
Definition lines_of (s : state) (path : string) : list line :=
  match files s !! path with
  | Some ls => ls
  | None => []
  end.

(** [s'] differs from [s] at most in what was printed, in the cache
    and in the variable [data]. *)
Definition same_world (s s' : state) : Prop :=
  files s' = files s /\ summaries s' = summaries s /\ calls s' = calls s /\
  results s' = results s /\ question s' = question s /\ answer s' = answer s /\
  processed_count s' = processed_count s.


(** File systems for the examples: the output file of an earlier run
    holds a record without [id], and there is no input file. *)
Definition example_fact_output_no_id : gmap string (list line) :=
  {[ FactEvalue.outputfile (example_env JNull) FactEvalue.default_args :=
       [Valid (JObj [("query", JStr "q"); ("evaluation", JStr "Yes")])] ]}.

Definition example_reject_output_no_id : gmap string (list line) :=
  {[ RejectEvalue.outputfile (example_env JNull) RejectEvalue.default_args :=
       [Valid (JObj [("query", JStr "q"); ("evaluation", JStr "Yes")])] ]}.

(** The text of a template before its first field. *)
Fixpoint before_field (template : string) : string :=
  match template with
  | EmptyString => EmptyString
  | String c rest =>
      if Ascii.eqb c "{" then EmptyString else String c (before_field rest)
  end.

(** The text of a template after its first field. *)
Fixpoint after_field (template : string) : string :=
  match template with
  | EmptyString => EmptyString
  | String c rest => if Ascii.eqb c "}" then rest else after_field rest
  end.

(** The prompt of [fact_evalue.py] with the text [answer] in the place
    of its field. *)
Definition fact_prompt (answer : string) : string :=
  before_field FactEvalue.prompt +:+ answer +:+ after_field FactEvalue.prompt.

(** The prompt of [reject_evalue.py] with the texts [question] and
    [answer] in the place of its two fields. *)
Definition reject_prompt (question answer : string) : string :=
  before_field RejectEvalue.prompt +:+ question
    +:+ before_field (after_field RejectEvalue.prompt) +:+ answer
    +:+ after_field (after_field RejectEvalue.prompt).

(** [v.get(k)] on a dict [d], as a value. *)
Definition field (k : string) (d : dict) : json :=
  match Py.dict_get k d with
  | Some x => x
  | None => JNull
  end.

(** The condition under which [reject_evalue.py] reuses a stored
    judgment for the record [d], as the code tests it: the [id] of the
    record is in the cache, the stored record has an equal [query] and
    an equal [prediction], and it has a key [evaluation]. *)
Definition reuse_condition (u : list (json * json)) (d : dict) : bool :=
  match Py.dict_get "id" d with
  | Some id =>
      match Cache.get id u with
      | Some (JObj c) =>
          Py.eq (field "query" d) (field "query" c) &&
          Py.eq (field "prediction" d) (field "prediction" c) &&
          match Py.dict_get "evaluation" c with Some _ => true | None => false end
      | _ => false
      end
  | None => false
  end.

(** The cache holds dicts under hashable keys, each under a key equal
    to its own [id]: what the loading loop builds. *)
Definition cache_ok (u : list (json * json)) : Prop :=
  Forall (fun kv =>
            Py.hashable (fst kv) = true /\
            exists c id, snd kv = JObj c /\ Py.dict_get "id" c = Some id /\
                         Py.hashable id = true /\ Py.eq id (fst kv) = true) u.

(** The query and the prediction the loop of [reject_evalue.py] reads
    from a record: [data.get('query', '')] and
    [data.get('prediction', '')]. *)
Definition query_of (d : dict) : json :=
  match Py.dict_get "query" d with Some x => x | None => JStr "" end.

Definition prediction_of (d : dict) : json :=
  match Py.dict_get "prediction" d with Some x => x | None => JStr "" end.

(** An endpoint for the examples whose judgment is always that the
    question is not addressed. *)
Definition not_addressed_env : env :=
  example_env (completion_body (JStr "No, the question is not addressed by the documents.")).

(** A file system for the examples of [reject_evalue.py]: the output
    file of an earlier run stores, for the record "1", a judgment that
    is the empty text; the input file holds the record "1" again and a
    record "2" whose prediction is empty. *)
Definition example_reject_files : gmap string (list line) :=
  {[ RejectEvalue.outputfile not_addressed_env RejectEvalue.default_args :=
       [Valid (JObj [("id", JStr "1"); ("query", JStr "Q1"); ("prediction", JStr "P1");
                     ("evaluation", JStr "")])];
     RejectEvalue.evaluefile not_addressed_env RejectEvalue.default_args :=
       [Valid (JObj [("id", JStr "1"); ("query", JStr "Q1"); ("prediction", JStr "P1")]);
        Valid (JObj [("id", JStr "2"); ("query", JStr "Q2"); ("prediction", JStr "")])] ]}.

(** A file system for the examples of [reject_evalue.py]: no output
    file yet, and an input file whose only record has an empty
    prediction. *)
Definition example_empty_prediction : gmap string (list line) :=
  {[ RejectEvalue.evaluefile not_addressed_env RejectEvalue.default_args :=
       [Valid (JObj [("id", JStr "1"); ("query", JStr "Q1"); ("prediction", JStr "")])] ]}.

(** The three file names of a run. *)
Record naming : Type := {
  name_evalue : string;
  name_output : string;
  name_result : string
}.

Definition fact_naming (E : env) (a : FactEvalue.args) : naming :=
  {| name_evalue := FactEvalue.evaluefile E a;
     name_output := FactEvalue.outputfile E a;
     name_result := FactEvalue.resultfile E a |}.

(** Two summaries that agree on every score but [noise_rate]. *)
Definition same_scores (x y : option (list (string * pynum))) : Prop :=
  match x, y with
  | None, None => True
  | Some p, Some q => forall k, k <> "noise_rate" -> score_of k p = score_of k q
  | _, _ => False
  end.

(** Two states of two runs that differ in the names of their files
    only: the files hold the same lines under the respective names,
    the same POSTs were issued and the variables hold the same values.
    What was printed, which shows the file names, is left out. *)
Definition alike (n1 n2 : naming) (s1 s2 : state) : Prop :=
  files s1 !! name_evalue n1 = files s2 !! name_evalue n2 /\
  files s1 !! name_output n1 = files s2 !! name_output n2 /\
  same_scores (summaries s1 !! name_result n1) (summaries s2 !! name_result n2) /\
  calls s1 = calls s2 /\ results s1 = results s2 /\ useddata s1 = useddata s2 /\
  data s1 = data s2 /\ question s1 = question s2 /\ answer s1 = answer s2 /\
  processed_count s1 = processed_count s2.

(** Two outcomes of the same kind, with the same value or exception,
    in states that are alike. *)
Definition alike_outcome {A} (n1 n2 : naming) (o1 o2 : outcome A) : Prop :=
  match o1, o2 with
  | Normal x s1, Normal y s2 => x = y /\ alike n1 n2 s1 s2
  | Raised e s1, Raised e' s2 => e = e' /\ alike n1 n2 s1 s2
  | _, _ => False
  end.

(** Two statements that take states that are alike to outcomes that
    are alike. *)
Definition simulates {A} (n1 n2 : naming) (m1 m2 : M A) : Prop :=
  forall s1 s2, alike n1 n2 s1 s2 -> alike_outcome n1 n2 (m1 s1) (m2 s2).

(** Arguments for the examples that differ from the defaults in the
    model name, the temperature and the noise rate. *)
Definition other_args : FactEvalue.args :=
  {| FactEvalue.modelname := "other";
     FactEvalue.dataset := en;
     FactEvalue.api_key := "YOUR_API_KEY_HERE";
     FactEvalue.url := "https://api.groq.com/openai/v1/chat/completions";
     FactEvalue.temp := Qmake 9 10;
     FactEvalue.passage_num := 5;
     FactEvalue.noise_rate := Qmake 1 10;
     FactEvalue.correct_rate := Qmake 0 1 |}.

(** An input file of one record under the name the arguments [a]
    give it, and no output file. *)
Definition example_fact_input (a : FactEvalue.args) : gmap string (list line) :=
  {[ FactEvalue.evaluefile not_addressed_env a :=
       [Valid (JObj [("id", JStr "1"); ("query", JStr "Q1"); ("prediction", JStr "P1");
                     ("label", JArr [JInt 1; JInt 1])])] ]}.

(** The [id] of a record, when it has one that can be a key of the
    cache. *)
Definition rec_id (v : json) : option json :=
  match Py.getitem v (JStr "id") with
  | Ok id => if Py.hashable id then Some id else None
  | Raise _ => None
  end.

(** The last record of [ls] whose [id] equals [k], or [acc] when
    there is none: what the cache holds under [k] once [ls] is loaded. *)
Fixpoint find_last_from (k : json) (acc : option json) (ls : list line) : option json :=
  match ls with
  | [] => acc
  | Malformed _ :: ls' => find_last_from k acc ls'
  | Valid v :: ls' =>
      match rec_id v with
      | Some id => find_last_from k (if Py.eq k id then Some v else acc) ls'
      | None => find_last_from k acc ls'
      end
  end.


(** No object of [v] has two entries under one key, as in every value
    that [json.loads] returns. *)
Fixpoint wf (v : json) : bool :=
  match v with
  | JArr l => forallb wf l
  | JObj d =>
      (fix go (d : dict) : bool :=
         match d with
         | [] => true
         | (k, x) :: d' =>
             match Py.dict_get k d' with Some _ => false | None => true end
             && wf x && go d'
         end) d
  | _ => true
  end.

Definition wf_line (l : line) : bool :=
  match l with
  | Valid v => wf v
  | Malformed _ => true
  end.

(** Induction on values, with the hypothesis on the elements of a
    list and on the values of an object. *)
Fixpoint json_induction (P : json -> Prop)
    (Hnull : P JNull) (Hbool : forall b, P (JBool b)) (Hint : forall z, P (JInt z))
    (Hstr : forall s, P (JStr s))
    (Harr : forall l, Forall P l -> P (JArr l))
    (Hobj : forall d, Forall (fun kv => P (snd kv)) d -> P (JObj d))
    (v : json) {struct v} : P v :=
  match v with
  | JNull => Hnull
  | JBool b => Hbool b
  | JInt z => Hint z
  | JStr s => Hstr s
  | JArr l =>
      Harr l
        ((fix go (l : list json) : Forall P l :=
            match l return Forall P l with
            | [] => @List.Forall_nil json P
            | x :: l' =>
                @List.Forall_cons json P x l'
                  (json_induction P Hnull Hbool Hint Hstr Harr Hobj x) (go l')
            end) l)
  | JObj d =>
      Hobj d
        ((fix go (d : dict) : Forall (fun kv => P (snd kv)) d :=
            match d return Forall (fun kv => P (snd kv)) d with
            | [] => @List.Forall_nil (string * json) (fun kv => P (snd kv))
            | kv :: d' =>
                @List.Forall_cons (string * json) (fun kv => P (snd kv)) kv d'
                  (json_induction P Hnull Hbool Hint Hstr Harr Hobj (snd kv)) (go d')
            end) d)
  end.

(** Two records with equal ids. *)
Definition same_id (v w : json) : bool :=
  match rec_id v, rec_id w with
  | Some a, Some b => Py.eq a b
  | _, _ => false
  end.


(** The stored record [c] passes for the record [d] in the reuse test
    of [reject_evalue.py]. *)
Definition accepts (d c : dict) : bool :=
  Py.eq (field "query" d) (field "query" c) &&
  Py.eq (field "prediction" d) (field "prediction" c) &&
  match Py.dict_get "evaluation" c with Some _ => true | None => false end.

(** The line [w] is what [reject_evalue.py] writes for the input line
    [l]: a record with the [id] of [l] that passes for it in the reuse
    test. *)
Definition written_for (l : line) (w : json) : Prop :=
  exists d c,
    l = Valid (JObj d) /\ w = JObj c /\
    same_id (JObj d) (JObj c) = true /\ accepts d c = true.

(** A POST of [reject_evalue.py] for a record of [ls] that fails the
    reuse test against the cache [u]. *)
Definition rejudged (u : list (json * json)) (ls : list line)
    (c : option json * request) : Prop :=
  exists d id,
    fst c = Some (JObj d) /\ In (Valid (JObj d)) ls /\
    Py.dict_get "id" d = Some id /\ Py.hashable id = true /\
    reuse_condition u d = false.

(** A file system for the examples of [reject_evalue.py]: an input
    file with two records and no output file yet. *)
Definition example_reject_input : gmap string (list line) :=
  {[ RejectEvalue.evaluefile not_addressed_env RejectEvalue.default_args :=
       [Valid (JObj [("id", JStr "1"); ("query", JStr "Q1"); ("prediction", JStr "P1")]);
        Valid (JObj [("id", JStr "2"); ("query", JStr "Q2"); ("prediction", JStr "P2")])] ]}.

(** The dataset choices whose name contains [en]. *)
Definition english (d : dataset_choice) : bool :=
  match d with
  | en | en_int | en_fact => true
  | zh | zh_int | zh_fact => false
  end.

(** [response_json['choices'][0]['message']['content']], the value
    both clients return for a body of the expected shape. *)
Definition completion_content (response_json : json) : res json :=
  res_bind (Py.getitem response_json (JStr "choices")) (fun choices =>
  res_bind (Py.getitem choices (JInt 0)) (fun choices0 =>
  res_bind (Py.getitem choices0 (JStr "message")) (fun message =>
  Py.getitem message (JStr "content")))).

(** The text of the exception that the error string of
    [fact_evalue.getdata] shows after a transport failure: [errh],
    [errc], [errt] or [err]; none for a body that is not JSON. *)
Definition fact_exception_text (t : transport) : string :=
  match t with
  | HTTPError e | ConnectionError e | Timeout e | RequestException e
  | InvalidJSON true e _ => e
  | InvalidJSON false _ _ | Response _ => ""
  end.

(** The same for [reject_evalue.getdata]: the text of [e]. *)
Definition reject_exception_text (t : transport) : string :=
  match t with
  | HTTPError e | ConnectionError e | Timeout e | RequestException e
  | InvalidJSON _ e _ => e
  | Response _ => ""
  end.

(** A judgment that is none of text, list and dict: [None], a boolean
    or a number, on which the [in] of the aggregators raises. *)
Definition scalar_judgment (x : json) : bool :=
  match x with
  | JNull | JBool _ | JInt _ => true
  | _ => false
  end.

(** A line on which [json.loads] returns. *)
Definition is_valid (l : line) : bool :=
  match l with
  | Valid _ => true
  | Malformed _ => false
  end.

(** The names [question] and [answer] are bound: an earlier record
    got as far as [answer = ...]. *)
Definition names_bound (s : state) : bool :=
  match question s, answer s with
  | Some _, Some _ => true
  | _, _ => false
  end.

(** The reads of [fact_evalue.py] on a record return: [data['id']]
    is there and can be a key, and so are [data['query']] and
    [data['prediction']]. *)
Definition fact_readable (v : json) : bool :=
  match rec_id v, Py.getitem v (JStr "query"), Py.getitem v (JStr "prediction") with
  | Some _, Ok _, Ok _ => true
  | _, _, _ => false
  end.

(** The record [w] is stored for a record of [ls] with an equal id. *)
Definition stored_for (ls : list line) (w : json) : Prop :=
  exists v, In (Valid v) ls /\ same_id v w = true.

(** What a judging loop has done once it has gone through the lines
    [ls] from the state [s] and ended as [o]: the cache is untouched,
    the records [W] were appended to [results] and, in this order, to
    the output file [out], each stored for a record of [ls] with an
    equal id and no more of them than [ls] has records; [counted]
    tells whether the loop counts them in [processed_count].  The loop
    returns, or stops on a [NameError]; it returns when the names
    [question] and [answer] were bound before. *)
Definition loop_post (counted : bool) (out : string) (ls : list line) (s : state)
    (o : outcome unit) : Prop :=
  useddata (final o) = useddata s /\ summaries (final o) = summaries s /\
  (forall p, p <> out -> files (final o) !! p = files s !! p) /\
  (exists W,
     results (final o) = results s ++ W /\
     lines_of (final o) out = lines_of s out ++ map Valid W /\
     processed_count (final o) =
       (processed_count s + if counted then length W else 0)%nat /\
     Forall (stored_for ls) W /\
     (length W <= how_many is_valid ls)%nat) /\
  (names_bound s = true -> o = Normal tt (final o) /\ names_bound (final o) = true) /\
  (o = Normal tt (final o) \/ o = Raised NameError (final o)).

(** Text that [json.loads] rejects. *)
Definition is_malformed (l : line) : bool := negb (is_valid l).

(** The three file names of a run of [reject_evalue.py]. *)
Definition reject_naming (E : env) (a : RejectEvalue.args) : naming :=
  {| name_evalue := RejectEvalue.evaluefile E a;
     name_output := RejectEvalue.outputfile E a;
     name_result := RejectEvalue.resultfile E a |}.

(** Arguments of [reject_evalue.py] for the examples that differ from
    the defaults in the model name, the dataset, the temperature and
    the number of passages. *)
Definition other_reject_args : RejectEvalue.args :=
  {| RejectEvalue.modelname := "other";
     RejectEvalue.dataset := zh_int;
     RejectEvalue.api_key := "api_key";
     RejectEvalue.url := "https://api.groq.com/openai/v1/chat/completions";
     RejectEvalue.temp := Qmake 2 10;
     RejectEvalue.passage_num := 3 |}.

(** An input file of two records, the second with an empty
    prediction, under the name the arguments [a] give it, and no output
    file. *)
Definition example_reject_input_for (a : RejectEvalue.args) : gmap string (list line) :=
  {[ RejectEvalue.evaluefile not_addressed_env a :=
       [Valid (JObj [("id", JStr "1"); ("query", JStr "Q1"); ("prediction", JStr "P1")]);
        Valid (JObj [("id", JStr "2"); ("query", JStr "Q2"); ("prediction", JStr "")])] ]}.

(** The [except] clause of [fact_evalue.getdata] that handles a
    failure, counted from the first; none for a 2xx response with a
    JSON body. *)
Definition fact_except_clause (t : transport) : nat :=
  match t with
  | HTTPError _ => 1
  | ConnectionError _ => 2
  | Timeout _ => 3
  | RequestException _ | InvalidJSON true _ _ => 4
  | InvalidJSON false _ _ => 5
  | Response _ => 0
  end.

(** The stored record [c] is a judgment of the record [d]: equal
    [query], equal [prediction] and a key [evaluation]. *)
Definition judgment_of (ls : list line) (w : json) : Prop :=
  exists d c,
    In (Valid (JObj d)) ls /\ w = JObj c /\
    same_id (JObj d) (JObj c) = true /\
    Py.eq (field "query" d) (field "query" c) = true /\
    Py.eq (field "prediction" d) (field "prediction" c) = true /\
    Py.dict_get "evaluation" c <> None.

(** *** Text that UTF-8 can encode *)

(** What a well-formed UTF-8 text can go on with: any sequence, or the
    rest of a sequence begun, which is [n] continuation bytes, the
    first of them within [lo..hi]. *)
Inductive utf8_expect : Type :=
| AnySequence
| Continuation (n : nat) (lo hi : N).

(** The bytes a sequence goes on with after its first byte [b]: none
    after an ASCII byte; one to three continuation bytes after a lead
    byte, with the bounds that exclude overlong forms, the surrogates
    [U+D800..U+DFFF] (lead byte [ED], second byte above [9F]) and the
    code points above [U+10FFFF]. *)
Definition utf8_lead (b : N) : option utf8_expect :=
  if (b <=? 127)%N then Some AnySequence
  else if (b <? 194)%N then None
  else if (b <=? 223)%N then Some (Continuation 1 128 191)
  else if (b =? 224)%N then Some (Continuation 2 160 191)
  else if (b =? 237)%N then Some (Continuation 2 128 159)
  else if (b <=? 239)%N then Some (Continuation 2 128 191)
  else if (b =? 240)%N then Some (Continuation 3 144 191)
  else if (b <=? 243)%N then Some (Continuation 3 128 191)
  else if (b =? 244)%N then Some (Continuation 3 128 143)
  else None.

Fixpoint utf8_from (e : utf8_expect) (s : string) : bool :=
  match s with
  | EmptyString =>
      match e with
      | AnySequence => true
      | Continuation _ _ _ => false
      end
  | String c s' =>
      let b := N_of_ascii c in
      match e with
      | AnySequence =>
          match utf8_lead b with
          | Some e' => utf8_from e' s'
          | None => false
          end
      | Continuation n lo hi =>
          if ((lo <=? b) && (b <=? hi))%N then
            match n with
            | S (S m) => utf8_from (Continuation (S m) 128 191) s'
            | _ => utf8_from AnySequence s'
            end
          else false
      end
  end.

(** The text [s] is well-formed UTF-8: the Python [str] it stands for
    can be written to a file or a terminal opened with the encoding
    UTF-8.  The one kind of [str] that cannot is a text with a lone
    surrogate, which [json.loads] returns for an escape such as
    ["\ud800"]; its three bytes (ED A0 80 and the like) are not
    well-formed. *)
Definition utf8 (s : string) : bool := utf8_from AnySequence s.








(** A file system for the examples of [reject_evalue.py]: an input
    file in which two records carry the id "1", with different
    queries, and no output file yet. *)
Definition example_reject_repeated_id : gmap string (list line) :=
  {[ RejectEvalue.evaluefile not_addressed_env RejectEvalue.default_args :=
       [Valid (JObj [("id", JStr "1"); ("query", JStr "Q1"); ("prediction", JStr "P1")]);
        Valid (JObj [("id", JStr "1"); ("query", JStr "Q2"); ("prediction", JStr "P2")])] ]}.

(** * Properties *)

(** ** Strings and values *)

(** ASCII text, two-, three- and four-byte sequences are well-formed;
    a surrogate, an overlong form, a cut sequence and a stray
    continuation byte are not. *)
Example utf8_examples :
  utf8 "Yes, the model has identified the factual errors." = true /\
  utf8 (String (ascii_of_N 195) (String (ascii_of_N 169) EmptyString)) = true /\
  utf8 (String (ascii_of_N 228) (String (ascii_of_N 184) (String (ascii_of_N 173) EmptyString))) = true /\
  utf8 (String (ascii_of_N 240) (String (ascii_of_N 159) (String (ascii_of_N 152) (String (ascii_of_N 128) EmptyString)))) = true /\
  utf8 (String (ascii_of_N 237) (String (ascii_of_N 160) (String (ascii_of_N 128) EmptyString))) = false /\
  utf8 (String (ascii_of_N 237) (String (ascii_of_N 159) (String (ascii_of_N 191) EmptyString))) = true /\
  utf8 (String (ascii_of_N 192) (String (ascii_of_N 128) EmptyString)) = false /\
  utf8 (String (ascii_of_N 195) EmptyString) = false /\
  utf8 (String (ascii_of_N 128) EmptyString) = false.
Proof. repeat split; reflexivity. Qed.

Lemma starts_with_spec (p s : string) :
  Py.starts_with p s = true <-> exists post, s = p +:+ post.
Proof.
  revert s. induction p as [|a p IH]; intros s; simpl.
  - split; [intros _; exists s; reflexivity | reflexivity].
  - destruct s as [|b s].
    + split; [discriminate | intros [post H]; discriminate].
    + rewrite andb_true_iff, IH. split.
      * intros [Hab [post ->]]. apply Ascii.eqb_eq in Hab. subst b.
        exists post. reflexivity.
      * intros [post H]. injection H as -> ->. split.
        -- apply Ascii.eqb_refl.
        -- exists post. reflexivity.
Qed.

Lemma str_contains_spec (n h : string) :
  Py.str_contains n h = true <-> Substring n h.
Proof.
  split.
  - induction h as [|c h IH]; simpl; rewrite orb_true_iff.
    + intros [H | H]; [| discriminate].
      apply starts_with_spec in H as [post ->]. exists EmptyString, post. reflexivity.
    + intros [H | H].
      * apply starts_with_spec in H as [post ->]. exists EmptyString, post. reflexivity.
      * destruct (IH H) as (pre & post & ->). exists (String c pre), post. reflexivity.
  - intros (pre & post & ->). induction pre as [|c pre IH].
    + assert (Py.starts_with n (n +:+ post) = true) as H
        by (apply starts_with_spec; exists post; reflexivity).
      simpl. destruct (n +:+ post); simpl in *; rewrite H; reflexivity.
    + simpl. rewrite IH. apply orb_true_r.
Qed.

Lemma str_contains_false (n h : string) :
  Py.str_contains n h = false <-> ~ Substring n h.
Proof.
  rewrite <- str_contains_spec. destruct (Py.str_contains n h); split; intros H;
    try reflexivity; try discriminate; try (intros ?; discriminate).
  exfalso. apply H. reflexivity.
Qed.

Lemma contains_int_list (x : Z) (zs : list Z) :
  Py.contains (JInt x) (JArr (map JInt zs)) = Ok (existsb (Z.eqb x) zs).
Proof.
  simpl. f_equal. induction zs as [|z zs IH]; simpl; [reflexivity |].
  rewrite IH. reflexivity.
Qed.

Lemma existsb_Zeqb_In (x : Z) (zs : list Z) :
  existsb (Z.eqb x) zs = true <-> In x zs.
Proof.
  rewrite existsb_exists. split.
  - intros (y & Hy & Heq). apply Z.eqb_eq in Heq. subst. exact Hy.
  - intros H. exists x. split; [exact H | apply Z.eqb_refl].
Qed.

Lemma all_positive_spec (zs : list Z) :
  all_positive zs = true <-> In 1 zs /\ ~ In 0 zs.
Proof.
  unfold all_positive. rewrite andb_true_iff, negb_true_iff, existsb_Zeqb_In.
  rewrite <- (existsb_Zeqb_In 0). split.
  - intros [H0 H1]. split; [exact H1 | rewrite H0; discriminate].
  - intros [H1 H0]. split; [| exact H1].
    destruct (existsb (Z.eqb 0) zs); [exfalso; apply H0; reflexivity | reflexivity].
Qed.

Lemma fact_counts_tt_ints (d : dict) (zs : list Z) :
  Py.dict_get "label" d = Some (JArr (map JInt zs)) ->
  FactEvalue.counts_tt (JObj d) = Ok (all_positive zs).
Proof.
  intros H. unfold FactEvalue.counts_tt.
  cbn [Py.contains Py.getitem]. rewrite H. cbn [Py.and_ res_bind Py.is_list].
  rewrite !contains_int_list. unfold all_positive.
  destruct (existsb (Z.eqb 0) zs); reflexivity.
Qed.

Lemma reject_counts_tt_ints (d : dict) (zs : list Z) :
  Py.dict_get "label" d = Some (JArr (map JInt zs)) ->
  RejectEvalue.counts_tt (JObj d) = Ok (all_positive zs).
Proof.
  intros H. unfold RejectEvalue.counts_tt.
  cbn [Py.get Py.getitem]. rewrite H. cbn [Py.and_ res_bind Py.is_list].
  rewrite !contains_int_list. unfold all_positive.
  destruct (existsb (Z.eqb 0) zs); reflexivity.
Qed.

(** A record without a list under [label] is never counted in [tt]. *)
Lemma fact_counts_tt_no_label (d : dict) :
  Py.dict_get "label" d = None -> FactEvalue.counts_tt (JObj d) = Ok false.
Proof. intros H. unfold FactEvalue.counts_tt. cbn. rewrite H. reflexivity. Qed.

Lemma reject_counts_tt_no_label (d : dict) :
  Py.dict_get "label" d = None -> RejectEvalue.counts_tt (JObj d) = Ok false.
Proof. intros H. unfold RejectEvalue.counts_tt. cbn. rewrite H. reflexivity. Qed.

Lemma fact_counts_rejecttt_text (d : dict) (e : string) :
  Py.dict_get "evaluation" d = Some (JStr e) ->
  FactEvalue.counts_rejecttt (JObj d) =
    Ok (Py.str_contains "has identified" e || Py.str_contains "Yes" e).
Proof.
  intros H. unfold FactEvalue.counts_rejecttt. cbn [Py.contains Py.getitem].
  rewrite H. cbn. destruct (Py.str_contains "has identified" e); reflexivity.
Qed.

Lemma fact_counts_rejecttt_absent (d : dict) :
  Py.dict_get "evaluation" d = None -> FactEvalue.counts_rejecttt (JObj d) = Ok false.
Proof. intros H. unfold FactEvalue.counts_rejecttt. cbn. rewrite H. reflexivity. Qed.

Lemma reject_counts_rejecttt_text (d : dict) (e : string) :
  Py.dict_get "evaluation" d = Some (JStr e) ->
  RejectEvalue.counts_rejecttt (JObj d) = Ok (Py.str_contains "not addressed" e).
Proof.
  intros H. unfold RejectEvalue.counts_rejecttt. cbn [Py.get_default]. rewrite H.
  reflexivity.
Qed.

Lemma reject_counts_rejecttt_absent (d : dict) :
  Py.dict_get "evaluation" d = None -> RejectEvalue.counts_rejecttt (JObj d) = Ok false.
Proof. intros H. unfold RejectEvalue.counts_rejecttt. cbn. rewrite H. reflexivity. Qed.

(** On a dict the label test never raises. *)
Lemma fact_counts_tt_total (d : dict) : exists g, FactEvalue.counts_tt (JObj d) = Ok g.
Proof.
  unfold FactEvalue.counts_tt. cbn [Py.contains Py.getitem].
  destruct (Py.dict_get "label" d) as [label|]; [| eexists; reflexivity].
  cbn [Py.and_ res_bind]. destruct label; cbn; try (eexists; reflexivity).
  destruct (negb _); eexists; reflexivity.
Qed.

Lemma reject_counts_tt_total (d : dict) : exists g, RejectEvalue.counts_tt (JObj d) = Ok g.
Proof.
  unfold RejectEvalue.counts_tt. cbn [Py.get Py.getitem].
  destruct (Py.dict_get "label" d) as [label|]; [| eexists; reflexivity].
  cbn [Py.and_ res_bind]. destruct label; cbn; try (eexists; reflexivity).
  destruct (negb _); eexists; reflexivity.
Qed.

(** One turn of the counting loops. *)
Lemma fact_count_cons (i : json) (rest : list json) (f g : bool) (r t c : nat) :
  FactEvalue.counts_rejecttt i = Ok f ->
  FactEvalue.counts_tt i = Ok g ->
  FactEvalue.count (i :: rest) r t c =
    FactEvalue.count rest (if f then S r else r) (if g then S t else t)
      (if f && g then S c else c).
Proof.
  intros Hf Hg. cbn [FactEvalue.count]. rewrite Hf, Hg. cbn [res_bind].
  destruct f, g; reflexivity.
Qed.

Lemma reject_count_cons (i : json) (rest : list json) (f g : bool) (r t : nat) :
  RejectEvalue.counts_rejecttt i = Ok f ->
  RejectEvalue.counts_tt i = Ok g ->
  RejectEvalue.count (i :: rest) r t =
    RejectEvalue.count rest (if f then S r else r) (if g then S t else t).
Proof.
  intros Hf Hg. cbn [RejectEvalue.count]. rewrite Hf, Hg. reflexivity.
Qed.

(** ** The aggregators *)

Lemma judged_fact_counts (i : json) :
  judged i = true ->
  FactEvalue.counts_rejecttt i = Ok (holds (FactEvalue.counts_rejecttt i)) /\
  FactEvalue.counts_tt i = Ok (holds (FactEvalue.counts_tt i)).
Proof.
  destruct i as [| | | | |d]; try discriminate. cbn [judged].
  destruct (Py.dict_get "evaluation" d) as [[| | |e| |]|] eqn:He; try discriminate.
  intros _. rewrite (fact_counts_rejecttt_text d e He).
  destruct (fact_counts_tt_total d) as [g ->]. split.
  - cbn [holds]. destruct (_ || _); reflexivity.
  - destruct g; reflexivity.
Qed.

Lemma judged_reject_counts (i : json) :
  judged i = true ->
  RejectEvalue.counts_rejecttt i = Ok (holds (RejectEvalue.counts_rejecttt i)) /\
  RejectEvalue.counts_tt i = Ok (holds (RejectEvalue.counts_tt i)).
Proof.
  destruct i as [| | | | |d]; try discriminate. cbn [judged].
  destruct (Py.dict_get "evaluation" d) as [[| | |e| |]|] eqn:He; try discriminate.
  intros _. rewrite (reject_counts_rejecttt_text d e He).
  destruct (reject_counts_tt_total d) as [g ->]. split.
  - cbn [holds]. destruct (Py.str_contains _ _); reflexivity.
  - destruct g; reflexivity.
Qed.

Lemma fact_count_judged (results : list json) :
  Forall (fun i => judged i = true) results ->
  forall r t c,
    FactEvalue.count results r t c =
      Ok (r + how_many (fun i => holds (FactEvalue.counts_rejecttt i)) results,
          t + how_many (fun i => holds (FactEvalue.counts_tt i)) results,
          c + how_many (fun i => holds (FactEvalue.counts_rejecttt i) &&
                                 holds (FactEvalue.counts_tt i)) results)%nat.
Proof.
  unfold how_many. induction 1 as [|i rest Hi _ IH]; intros r t c.
  - cbn. apply f_equal. apply f_equal2; [apply f_equal2 |]; lia.
  - destruct (judged_fact_counts i Hi) as [Hf Hg].
    rewrite (fact_count_cons i rest _ _ r t c Hf Hg), IH. cbn [List.filter].
    destruct (holds (FactEvalue.counts_rejecttt i)),
             (holds (FactEvalue.counts_tt i)); cbn [andb length];
      apply f_equal; (apply f_equal2; [apply f_equal2 |]); lia.
Qed.

Lemma reject_count_judged (results : list json) :
  Forall (fun i => judged i = true) results ->
  forall r t,
    RejectEvalue.count results r t =
      Ok (r + how_many (fun i => holds (RejectEvalue.counts_rejecttt i)) results,
          t + how_many (fun i => holds (RejectEvalue.counts_tt i)) results)%nat.
Proof.
  unfold how_many. induction 1 as [|i rest Hi _ IH]; intros r t.
  - cbn. apply f_equal. apply f_equal2; lia.
  - destruct (judged_reject_counts i Hi) as [Hf Hg].
    rewrite (reject_count_cons i rest _ _ r t Hf Hg), IH. cbn [List.filter].
    destruct (holds (RejectEvalue.counts_rejecttt i)),
             (holds (RejectEvalue.counts_tt i)); cbn [length];
      apply f_equal; apply f_equal2; lia.
Qed.

Lemma how_many_le {A} (p : A -> bool) (l : list A) : (how_many p l <= length l)%nat.
Proof. unfold how_many. apply List.filter_length_le. Qed.

Lemma how_many_and_le {A} (p q : A -> bool) (l : list A) :
  (how_many (fun x => p x && q x) l <= how_many p l)%nat.
Proof.
  unfold how_many. induction l as [|x l IH]; cbn; [lia |].
  destruct (p x), (q x); cbn; lia.
Qed.


(** When the loop of the aggregator ends, every test has returned and
    the counters are the numbers of records on which the tests hold. *)
Lemma fact_count_ok (results : list json) :
  forall r t c x,
    FactEvalue.count results r t c = Ok x ->
    x = (r + how_many (fun i => holds (FactEvalue.counts_rejecttt i)) results,
         t + how_many (fun i => holds (FactEvalue.counts_tt i)) results,
         c + how_many (fun i => holds (FactEvalue.counts_rejecttt i) &&
                                holds (FactEvalue.counts_tt i)) results)%nat.
Proof.
  unfold how_many. induction results as [|i rest IH]; intros r t c x.
  - cbn. intros H. injection H as <-. apply f_equal2; [apply f_equal2 |]; lia.
  - destruct (FactEvalue.counts_rejecttt i) as [f|e] eqn:Hf.
    2: { cbn [FactEvalue.count]. rewrite Hf. discriminate. }
    destruct (FactEvalue.counts_tt i) as [g|e] eqn:Hg.
    2: { cbn [FactEvalue.count]. rewrite Hf, Hg. destruct f; discriminate. }
    rewrite (fact_count_cons i rest f g r t c Hf Hg). intros H.
    apply IH in H. subst x. cbn [List.filter]. rewrite Hf, Hg. cbn [holds].
    destruct f, g; cbn [andb length holds];
      (apply f_equal2; [apply f_equal2 |]); lia.
Qed.

Lemma reject_count_ok (results : list json) :
  forall r t x,
    RejectEvalue.count results r t = Ok x ->
    x = (r + how_many (fun i => holds (RejectEvalue.counts_rejecttt i)) results,
         t + how_many (fun i => holds (RejectEvalue.counts_tt i)) results)%nat.
Proof.
  unfold how_many. induction results as [|i rest IH]; intros r t x.
  - cbn. intros H. injection H as <-. apply f_equal2; lia.
  - destruct (RejectEvalue.counts_rejecttt i) as [f|e] eqn:Hf.
    2: { cbn [RejectEvalue.count]. rewrite Hf. discriminate. }
    destruct (RejectEvalue.counts_tt i) as [g|e] eqn:Hg.
    2: { cbn [RejectEvalue.count]. rewrite Hf, Hg. discriminate. }
    rewrite (reject_count_cons i rest f g r t Hf Hg). intros H.
    apply IH in H. subst x. cbn [List.filter]. rewrite Hf, Hg. cbn [holds].
    destruct f, g; cbn [length holds]; apply f_equal2; lia.
Qed.

(** Two lists whose elements pass the tests [p] and [q] pairwise alike
    have as many elements passing. *)
Lemma how_many_Forall2 {A B} (p : A -> bool) (q : B -> bool) (l : list A) (l' : list B) :
  Forall2 (fun x y => p x = q y) l l' -> how_many p l = how_many q l'.
Proof.
  unfold how_many. induction 1 as [|x y l l' Hxy _ IH]; [reflexivity |].
  cbn [List.filter]. rewrite Hxy. destruct (q y); cbn [length]; rewrite IH; reflexivity.
Qed.

Lemma Forall2_judged (results : list json) (texts : list string) :
  Forall2 (fun i e => record_field "evaluation" i = Some (JStr e)) results texts ->
  Forall (fun i => judged i = true) results.
Proof.
  induction 1 as [|i e l l' Hie _ IH]; constructor; [| exact IH].
  destruct i; try discriminate. cbn [record_field] in Hie. cbn [judged].
  rewrite Hie. reflexivity.
Qed.

Lemma fact_marker_counts (results : list json) (texts : list string) :
  Forall2 (fun i e => record_field "evaluation" i = Some (JStr e)) results texts ->
  how_many (fun i => holds (FactEvalue.counts_rejecttt i)) results =
  how_many fact_marker texts.
Proof.
  intros H. apply how_many_Forall2. eapply Forall2_impl; [exact H |].
  intros i e Hie. destruct i; try discriminate. cbn [record_field] in Hie.
  rewrite (fact_counts_rejecttt_text _ e Hie). unfold fact_marker, holds.
  destruct (_ || _); reflexivity.
Qed.

Lemma reject_marker_counts (results : list json) (texts : list string) :
  Forall2 (fun i e => record_field "evaluation" i = Some (JStr e)) results texts ->
  how_many (fun i => holds (RejectEvalue.counts_rejecttt i)) results =
  how_many reject_marker texts.
Proof.
  intros H. apply how_many_Forall2. eapply Forall2_impl; [exact H |].
  intros i e Hie. destruct i; try discriminate. cbn [record_field] in Hie.
  rewrite (reject_counts_rejecttt_text _ e Hie). unfold reject_marker, holds.
  destruct (Py.str_contains _ _); reflexivity.
Qed.

Lemma label_counts (results : list json) (labels : list (list Z)) :
  Forall2 (fun i zs => record_field "label" i = Some (JArr (map JInt zs))) results labels ->
  how_many (fun i => holds (FactEvalue.counts_tt i)) results = how_many all_positive labels /\
  how_many (fun i => holds (RejectEvalue.counts_tt i)) results = how_many all_positive labels.
Proof.
  intros H. split; apply how_many_Forall2; (eapply Forall2_impl; [exact H |]);
    intros i zs Hi; (destruct i; try discriminate); cbn [record_field] in Hi.
  - rewrite (fact_counts_tt_ints _ zs Hi). unfold holds. destruct (all_positive zs); reflexivity.
  - rewrite (reject_counts_tt_ints _ zs Hi). unfold holds. destruct (all_positive zs); reflexivity.
Qed.

(** ** The float division of two counts *)

(** ** Floats *)

Lemma round_half_even_near (n d : Z) :
  0 < d ->
  2 * (Py.round_half_even n d * d - n) <= d /\
  2 * (n - Py.round_half_even n d * d) <= d.
Proof.
  intros Hd. unfold Py.round_half_even.
  pose proof (Z.div_mod n d ltac:(lia)) as Hdm.
  pose proof (Z.mod_pos_bound n d Hd) as Hr.
  destruct (Z.compare_spec (2 * (n mod d)) d) as [H | H | H];
    [destruct (Z.even (n / d)) | |]; nia.
Qed.

Lemma round_half_even_bounds (n d k : Z) :
  0 < d -> 0 <= n -> n <= k * d ->
  0 <= Py.round_half_even n d <= k.
Proof.
  intros Hd Hn Hk. unfold Py.round_half_even.
  pose proof (Z.div_mod n d ltac:(lia)) as Hdm.
  pose proof (Z.mod_pos_bound n d Hd) as Hr.
  assert (0 <= n / d) as Hq by (apply Z.div_pos; lia).
  assert (n / d <= k) as Hqk by (apply Z.div_le_upper_bound; lia).
  destruct (Z.compare_spec (2 * (n mod d)) d) as [H | H | H];
    [destruct (Z.even (n / d)) | |]; nia.
Qed.

Lemma floor_log2_counts (a b : Z) : 0 < a -> a <= b -> Py.floor_log2 a b <= 0.
Proof.
  intros Ha Hab. unfold Py.floor_log2.
  pose proof (Z.log2_le_mono a b Hab) as Hl.
  destruct (0 <=? Z.log2 a - Z.log2 b); [destruct (_ <=? _) | destruct (_ <=? _)]; lia.
Qed.

(** The quotient of two counts [a <= b] is rounded at an exponent
    [- k] with [k] at least 52. *)
Lemma truediv_counts (a b : nat) :
  (0 < a)%nat -> (a <= b)%nat ->
  exists k,
    52 <= k /\
    Py.truediv a b =
      Ok (Qred (Qmake (Py.round_half_even (Z.of_nat a * 2 ^ k) (Z.of_nat b))
                  (Z.to_pos (2 ^ k)))).
Proof.
  intros Ha Hab. unfold Py.truediv.
  destruct b as [|b]; [lia |]. destruct a as [|a]; [lia |].
  pose proof (floor_log2_counts (Z.of_nat (S a)) (Z.of_nat (S b)) ltac:(lia) ltac:(lia))
    as He.
  set (e := Py.floor_log2 _ _) in *. cbv zeta.
  set (ex := Z.max (e - 52) (-1074)).
  assert (ex <= -52) as Hex by (unfold ex; lia).
  destruct (0 <=? ex) eqn:H0; [apply Z.leb_le in H0; lia |].
  exists (- ex). split; [lia | reflexivity].
Qed.

Lemma ratio_truediv (a b : nat) :
  (a <= b)%nat -> b <> O -> Py.truediv a b = Ok (ratio a b).
Proof.
  intros Hab Hb. unfold ratio. destruct a as [|a].
  - destruct b; [contradiction | reflexivity].
  - destruct (truediv_counts (S a) b ltac:(lia) Hab) as (k & _ & ->). reflexivity.
Qed.

(** The float quotient of two counts [a <= b] lies in [[0,1]], within
    [2^-53] of the quotient. *)
Lemma ratio_unit_float (a b : nat) :
  (a <= b)%nat -> b <> O -> unit_float (ratio a b) a b.
Proof.
  intros Hab Hb. split; [apply ratio_truediv; assumption |].
  assert (Z.pos (Pos.of_nat b) = Z.of_nat b) as Hp.
  { rewrite <- positive_nat_Z, Nat2Pos.id by lia. reflexivity. }
  unfold ratio. destruct a as [|a].
  { destruct b; [contradiction |]. cbn [Py.truediv].
    unfold Qle, Qminus, Qplus, Qopp. cbn [Qnum Qden]. repeat split; try lia. }
  destruct (truediv_counts (S a) b ltac:(lia) Hab) as (k & Hk & ->).
  set (m := Py.round_half_even _ _).
  assert (0 < 2 ^ k) as H2 by (apply Z.pow_pos_nonneg; lia).
  assert (2 ^ 52 <= 2 ^ k) as H52 by (apply Z.pow_le_mono_r; lia).
  assert (Z.pos (Z.to_pos (2 ^ k)) = 2 ^ k) as Hpk by (apply Z2Pos.id, H2).
  destruct (round_half_even_bounds (Z.of_nat (S a) * 2 ^ k) (Z.of_nat b) (2 ^ k))
    as [Hm0 Hm1]; [lia | nia | nia |].
  destruct (round_half_even_near (Z.of_nat (S a) * 2 ^ k) (Z.of_nat b)) as [Hn1 Hn2];
    [lia |].
  fold m in Hm0, Hm1, Hn1, Hn2.
  assert (2 ^ 53 = 2 * 2 ^ 52) as H53 by reflexivity.
  repeat split.
  - rewrite Qred_correct. unfold Qle. cbn [Qnum Qden]. lia.
  - rewrite Qred_correct. unfold Qle. cbn [Qnum Qden]. rewrite Hpk. lia.
  - rewrite Qred_correct. unfold Qle, Qminus, Qplus, Qopp. cbn [Qnum Qden].
    rewrite Pos2Z.inj_mul, Hpk, Hp.
    change (Z.pos (2 ^ 53)) with (2 ^ 53). nia.
  - rewrite Qred_correct. unfold Qle, Qminus, Qplus, Qopp. cbn [Qnum Qden].
    rewrite Pos2Z.inj_mul, Hpk, Hp.
    change (Z.pos (2 ^ 53)) with (2 ^ 53). nia.
Qed.

(** ** Scoring *)

Lemma fact_score_empty (E : env) (a : FactEvalue.args) (s : state) :
  results s = [] ->
  FactEvalue.score E a s = Normal tt (with_stdout (stdout s ++ [NoResultsProcessed]) s).
Proof. intros H. unfold FactEvalue.score, bind, gets. rewrite H. reflexivity. Qed.

Lemma reject_score_empty (E : env) (a : RejectEvalue.args) (s : state) :
  results s = [] ->
  RejectEvalue.score E a s = Raised SystemExit (with_stdout (stdout s ++ [ResultsEmpty]) s).
Proof. intros H. unfold RejectEvalue.score, bind, gets. rewrite H. reflexivity. Qed.

(** Whenever the scoring of a non-empty result list returns, it has
    written the summary of the counters, and nothing else. *)
Lemma fact_score_summary (E : env) (a : FactEvalue.args) (s s' : state) :
  results s <> [] ->
  FactEvalue.score E a s = Normal tt s' ->
  let rejecttt := how_many (fun i => holds (FactEvalue.counts_rejecttt i)) (results s) in
  let tt_count := how_many (fun i => holds (FactEvalue.counts_tt i)) (results s) in
  let correct_tt :=
    how_many (fun i => holds (FactEvalue.counts_rejecttt i) &&
                       holds (FactEvalue.counts_tt i)) (results s) in
  summaries s' =
    <[FactEvalue.resultfile E a :=
        fact_scores (FactEvalue.noise_rate a) rejecttt tt_count correct_tt
          (length (results s))]> (summaries s) /\
  (correct_tt <= rejecttt)%nat /\ (rejecttt <= length (results s))%nat /\
  (tt_count <= length (results s))%nat /\ files s' = files s.
Proof.
  intros Hne. cbv zeta. unfold FactEvalue.score, bind, gets.
  destruct (results s) as [|i rest] eqn:Hr; [contradiction |].
  cbn [Py.truthy].
  destruct (FactEvalue.count (i :: rest) 0 0 0) as [x|e] eqn:Hc; [| discriminate].
  apply fact_count_ok in Hc. subst x. cbn [lift ret fst snd].
  rewrite !Nat.add_0_l.
  pose proof (how_many_le (fun i0 => holds (FactEvalue.counts_rejecttt i0)) (i :: rest))
    as H1.
  pose proof (how_many_le (fun i0 => holds (FactEvalue.counts_tt i0)) (i :: rest)) as H2.
  pose proof (how_many_and_le (fun i0 => holds (FactEvalue.counts_rejecttt i0))
                (fun i0 => holds (FactEvalue.counts_tt i0)) (i :: rest)) as H3.
  set (n := length (i :: rest)) in *.
  assert (n <> O) as Hn by (subst n; discriminate).
  replace (Nat.ltb 0 n) with true by (symmetry; apply Nat.ltb_lt; lia).
  unfold print, dump, div_if.
  rewrite !(ratio_truediv _ n) by assumption. cbn [lift res_bind ret].
  destruct (how_many (fun i0 => holds (FactEvalue.counts_rejecttt i0)) (i :: rest))
    as [|k] eqn:Hk.
  - cbn [Nat.ltb Nat.leb lift res_bind ret].
    intros H; injection H as <-; repeat split; assumption.
  - replace (Nat.ltb 0 (S k)) with true by reflexivity.
    rewrite (ratio_truediv _ (S k)) by (assumption || discriminate).
    cbn [lift res_bind ret].
    intros H; injection H as <-; repeat split; assumption.
Qed.

Lemma reject_score_summary (E : env) (a : RejectEvalue.args) (s s' : state) :
  results s <> [] ->
  RejectEvalue.score E a s = Normal tt s' ->
  let rejecttt := how_many (fun i => holds (RejectEvalue.counts_rejecttt i)) (results s) in
  let tt_count := how_many (fun i => holds (RejectEvalue.counts_tt i)) (results s) in
  summaries s' =
    <[RejectEvalue.resultfile E a :=
        reject_scores rejecttt tt_count (length (results s))]> (summaries s) /\
  (rejecttt <= length (results s))%nat /\
  (tt_count <= length (results s))%nat /\ files s' = files s.
Proof.
  intros Hne. cbv zeta. unfold RejectEvalue.score, bind, gets.
  destruct (results s) as [|i rest] eqn:Hr; [contradiction |].
  cbn [length Nat.eqb ret].
  destruct (RejectEvalue.count (i :: rest) 0 0) as [x|e] eqn:Hc; [| discriminate].
  apply reject_count_ok in Hc. subst x. cbn [lift ret fst snd].
  rewrite !Nat.add_0_l.
  pose proof (how_many_le (fun i0 => holds (RejectEvalue.counts_rejecttt i0)) (i :: rest))
    as H1.
  pose proof (how_many_le (fun i0 => holds (RejectEvalue.counts_tt i0)) (i :: rest)) as H2.
  cbn [length] in H1, H2.
  unfold print, dump.
  rewrite !(ratio_truediv _ (S (length rest))) by (assumption || discriminate).
  cbn [lift res_bind ret].
  intros H; injection H as <-; repeat split; assumption.
Qed.

(** A scoring that raises writes nothing. *)
Lemma fact_score_raised (E : env) (a : FactEvalue.args) (s s' : state) (e : exn) :
  FactEvalue.score E a s = Raised e s' ->
  summaries s' = summaries s /\ files s' = files s.
Proof.
  destruct (results s) as [|i rest] eqn:Hr.
  { rewrite (fact_score_empty E a s Hr). discriminate. }
  unfold FactEvalue.score, bind, gets. rewrite Hr. cbn [Py.truthy].
  destruct (FactEvalue.count (i :: rest) 0 0 0) as [x|e'] eqn:Hc.
  2: { cbn [lift]. intros H; injection H as <- <-. split; reflexivity. }
  apply fact_count_ok in Hc. subst x. cbn [lift ret fst snd].
  rewrite !Nat.add_0_l.
  pose proof (how_many_le (fun i0 => holds (FactEvalue.counts_rejecttt i0)) (i :: rest))
    as H1.
  pose proof (how_many_le (fun i0 => holds (FactEvalue.counts_tt i0)) (i :: rest)) as H2.
  pose proof (how_many_and_le (fun i0 => holds (FactEvalue.counts_rejecttt i0))
                (fun i0 => holds (FactEvalue.counts_tt i0)) (i :: rest)) as H3.
  set (n := length (i :: rest)) in *.
  assert (n <> O) as Hn by (subst n; discriminate).
  replace (Nat.ltb 0 n) with true by (symmetry; apply Nat.ltb_lt; lia).
  unfold print, dump, div_if.
  rewrite !(ratio_truediv _ n) by assumption. cbn [lift res_bind ret].
  destruct (how_many (fun i0 => holds (FactEvalue.counts_rejecttt i0)) (i :: rest))
    as [|k] eqn:Hk.
  - cbn [Nat.ltb Nat.leb lift res_bind ret]. discriminate.
  - replace (Nat.ltb 0 (S k)) with true by reflexivity.
    rewrite (ratio_truediv _ (S k)) by (assumption || discriminate).
    cbn [lift res_bind ret]. discriminate.
Qed.

Lemma reject_score_raised (E : env) (a : RejectEvalue.args) (s s' : state) (e : exn) :
  RejectEvalue.score E a s = Raised e s' ->
  summaries s' = summaries s /\ files s' = files s.
Proof.
  destruct (results s) as [|i rest] eqn:Hr.
  { rewrite (reject_score_empty E a s Hr). intros H; injection H as _ <-.
    split; reflexivity. }
  unfold RejectEvalue.score, bind, gets. rewrite Hr.
  cbn [length Nat.eqb ret].
  destruct (RejectEvalue.count (i :: rest) 0 0) as [x|e'] eqn:Hc.
  2: { cbn [lift]. intros H; injection H as <- <-. split; reflexivity. }
  apply reject_count_ok in Hc. subst x. cbn [lift ret fst snd].
  rewrite !Nat.add_0_l.
  pose proof (how_many_le (fun i0 => holds (RejectEvalue.counts_rejecttt i0)) (i :: rest))
    as H1.
  pose proof (how_many_le (fun i0 => holds (RejectEvalue.counts_tt i0)) (i :: rest)) as H2.
  cbn [length] in H1, H2.
  unfold print, dump.
  rewrite !(ratio_truediv _ (S (length rest))) by (assumption || discriminate).
  cbn [lift res_bind ret]. discriminate.
Qed.

(** On judged records the aggregators do not raise, and the scoring of
    a non-empty list returns. *)
Lemma fact_score_judged (E : env) (a : FactEvalue.args) (s : state) :
  results s <> [] ->
  Forall (fun i => judged i = true) (results s) ->
  exists s', FactEvalue.score E a s = Normal tt s'.
Proof.
  intros Hne Hj. unfold FactEvalue.score, bind, gets.
  destruct (results s) as [|i rest] eqn:Hr; [contradiction |].
  cbn [Py.truthy]. rewrite (fact_count_judged _ Hj). cbn [lift ret fst snd].
  rewrite !Nat.add_0_l.
  pose proof (how_many_le (fun i0 => holds (FactEvalue.counts_rejecttt i0)) (i :: rest))
    as H1.
  pose proof (how_many_le (fun i0 => holds (FactEvalue.counts_tt i0)) (i :: rest)) as H2.
  pose proof (how_many_and_le (fun i0 => holds (FactEvalue.counts_rejecttt i0))
                (fun i0 => holds (FactEvalue.counts_tt i0)) (i :: rest)) as H3.
  set (n := length (i :: rest)) in *.
  assert (n <> O) as Hn by (subst n; discriminate).
  replace (Nat.ltb 0 n) with true by (symmetry; apply Nat.ltb_lt; lia).
  unfold print, dump, div_if.
  rewrite !(ratio_truediv _ n) by assumption. cbn [lift res_bind ret].
  destruct (how_many (fun i0 => holds (FactEvalue.counts_rejecttt i0)) (i :: rest))
    as [|k] eqn:Hk.
  - cbn [Nat.ltb Nat.leb lift res_bind ret]. eexists. reflexivity.
  - replace (Nat.ltb 0 (S k)) with true by reflexivity.
    rewrite (ratio_truediv _ (S k)) by (assumption || discriminate).
    cbn [lift res_bind ret]. eexists. reflexivity.
Qed.

Lemma reject_score_judged (E : env) (a : RejectEvalue.args) (s : state) :
  results s <> [] ->
  Forall (fun i => judged i = true) (results s) ->
  exists s', RejectEvalue.score E a s = Normal tt s'.
Proof.
  intros Hne Hj. unfold RejectEvalue.score, bind, gets.
  destruct (results s) as [|i rest] eqn:Hr; [contradiction |].
  cbn [length Nat.eqb ret]. rewrite (reject_count_judged _ Hj). cbn [lift ret fst snd].
  rewrite !Nat.add_0_l.
  pose proof (how_many_le (fun i0 => holds (RejectEvalue.counts_rejecttt i0)) (i :: rest))
    as H1.
  pose proof (how_many_le (fun i0 => holds (RejectEvalue.counts_tt i0)) (i :: rest)) as H2.
  cbn [length] in H1, H2.
  unfold print, dump.
  rewrite !(ratio_truediv _ (S (length rest))) by (assumption || discriminate).
  cbn [lift res_bind ret]. eexists. reflexivity.
Qed.

(** C1.  Let the result list hold judged records, whose [evaluation]s
    are the texts [texts].  The counting loop of the fact-error
    aggregator ends with [rejecttt] raised by the number of these texts
    that contain "has identified" or "Yes", the loop of the
    answerability aggregator with [rejecttt] raised by the number of
    those that contain "not addressed", and these numbers are the
    [rejecttt] of the summaries the two scripts write.  A text is
    counted if and only if the marker occurs in it; the text
    "Yes, the model has identified the factual errors." is counted by
    the fact-error aggregator. *)
Theorem C1_rejecttt_marker (E : env) (af : FactEvalue.args) (ar : RejectEvalue.args)
    (s : state) (texts : list string) :
  Forall2 (fun i e => record_field "evaluation" i = Some (JStr e)) (results s) texts ->
  (forall r t c, exists t' c',
      FactEvalue.count (results s) r t c =
        Ok (r + how_many fact_marker texts, t', c')%nat) /\
  (forall r t, exists t',
      RejectEvalue.count (results s) r t =
        Ok (r + how_many reject_marker texts, t')%nat) /\
  (results s <> [] ->
   (exists s' scores,
       FactEvalue.score E af s = Normal tt s' /\
       summaries s' !! FactEvalue.resultfile E af = Some scores /\
       score_of "rejecttt" scores =
         Some (PInt (Z.of_nat (how_many fact_marker texts)))) /\
   (exists s' scores,
       RejectEvalue.score E ar s = Normal tt s' /\
       summaries s' !! RejectEvalue.resultfile E ar = Some scores /\
       score_of "rejecttt" scores =
         Some (PInt (Z.of_nat (how_many reject_marker texts))))) /\
  (forall e, fact_marker e = true <->
             Substring "has identified" e \/ Substring "Yes" e) /\
  (forall e, reject_marker e = true <-> Substring "not addressed" e) /\
  fact_marker "Yes, the model has identified the factual errors." = true.
Proof.
  intros Hev. pose proof (Forall2_judged _ _ Hev) as Hj.
  pose proof (fact_marker_counts _ _ Hev) as Hf.
  pose proof (reject_marker_counts _ _ Hev) as Hr.
  split; [| split; [| split; [| split; [| split]]]].
  - intros r t c. rewrite (fact_count_judged _ Hj), Hf. eexists _, _. reflexivity.
  - intros r t. rewrite (reject_count_judged _ Hj), Hr. eexists. reflexivity.
  - intros Hne. split.
    + destruct (fact_score_judged E af s Hne Hj) as [s' Hrun].
      destruct (fact_score_summary E af s s' Hne Hrun) as (Hsum & _).
      exists s'. eexists. split; [exact Hrun |]. split.
      * rewrite Hsum. apply lookup_insert_eq.
      * rewrite Hf. reflexivity.
    + destruct (reject_score_judged E ar s Hne Hj) as [s' Hrun].
      destruct (reject_score_summary E ar s s' Hne Hrun) as (Hsum & _).
      exists s'. eexists. split; [exact Hrun |]. split.
      * rewrite Hsum. apply lookup_insert_eq.
      * rewrite Hr. reflexivity.
  - intros e. unfold fact_marker. rewrite <- !str_contains_spec. apply orb_true_iff.
  - intros e. unfold reject_marker. apply str_contains_spec.
  - reflexivity.
Qed.

Lemma C1_rejecttt_marker_witness :
  exists t' c',
    FactEvalue.count
      [example_record "1" [1; 1] "Yes, the model has identified the factual errors.";
       example_record "2" [0; 1] "NO, the model fail to identify the factual errors."]
      0 0 0 = Ok (1, t', c')%nat.
Proof.
  destruct (C1_rejecttt_marker (example_env JNull) FactEvalue.default_args
              RejectEvalue.default_args
              (with_results
                 [example_record "1" [1; 1]
                    "Yes, the model has identified the factual errors.";
                  example_record "2" [0; 1]
                    "NO, the model fail to identify the factual errors."] (start ∅))
              ["Yes, the model has identified the factual errors.";
               "NO, the model fail to identify the factual errors."]) as [H _].
  - repeat constructor.
  - exact (H 0 0 0)%nat.
Defined.

(** C2.  Let the result list hold judged records, whose [label]s are
    the lists of integers [labels].  In both pipelines the counting
    loop ends with [tt] raised by the number of these labels that
    contain a 1 and no 0, and this number is the [tt] of the summary
    written.  A label is counted if and only if it contains a 1 and no
    0: the label [1,1] is counted and the label [0,1] is not. *)
Theorem C2_tt_label (E : env) (af : FactEvalue.args) (ar : RejectEvalue.args)
    (s : state) (labels : list (list Z)) :
  Forall (fun i => judged i = true) (results s) ->
  Forall2 (fun i zs => record_field "label" i = Some (JArr (map JInt zs)))
    (results s) labels ->
  (forall r t c, exists r' c',
      FactEvalue.count (results s) r t c =
        Ok (r', t + how_many all_positive labels, c')%nat) /\
  (forall r t, exists r',
      RejectEvalue.count (results s) r t =
        Ok (r', t + how_many all_positive labels)%nat) /\
  (results s <> [] ->
   (exists s' scores,
       FactEvalue.score E af s = Normal tt s' /\
       summaries s' !! FactEvalue.resultfile E af = Some scores /\
       score_of "tt" scores = Some (PInt (Z.of_nat (how_many all_positive labels)))) /\
   (exists s' scores,
       RejectEvalue.score E ar s = Normal tt s' /\
       summaries s' !! RejectEvalue.resultfile E ar = Some scores /\
       score_of "tt" scores = Some (PInt (Z.of_nat (how_many all_positive labels))))) /\
  (forall zs, all_positive zs = true <-> In 1 zs /\ ~ In 0 zs) /\
  all_positive [1; 1] = true /\
  all_positive [0; 1] = false.
Proof.
  intros Hj Hl. destruct (label_counts _ _ Hl) as [Hf Hr].
  split; [| split; [| split; [| split; [| split]]]].
  - intros r t c. rewrite (fact_count_judged _ Hj), Hf. eexists _, _. reflexivity.
  - intros r t. rewrite (reject_count_judged _ Hj), Hr. eexists. reflexivity.
  - intros Hne. split.
    + destruct (fact_score_judged E af s Hne Hj) as [s' Hrun].
      destruct (fact_score_summary E af s s' Hne Hrun) as (Hsum & _).
      exists s'. eexists. split; [exact Hrun |]. split.
      * rewrite Hsum. apply lookup_insert_eq.
      * rewrite Hf. reflexivity.
    + destruct (reject_score_judged E ar s Hne Hj) as [s' Hrun].
      destruct (reject_score_summary E ar s s' Hne Hrun) as (Hsum & _).
      exists s'. eexists. split; [exact Hrun |]. split.
      * rewrite Hsum. apply lookup_insert_eq.
      * rewrite Hr. reflexivity.
  - apply all_positive_spec.
  - reflexivity.
  - reflexivity.
Qed.

Lemma C2_tt_label_witness :
  (exists r' c',
     FactEvalue.count
       [example_record "1" [1; 1] "NO, the model fail to identify the factual errors.";
        example_record "2" [0; 1] "Yes, the model has identified the factual errors."]
       0 0 0 = Ok (r', 1, c')%nat) /\
  (exists r',
     RejectEvalue.count
       [example_record "1" [1; 1] "NO, the model fail to identify the factual errors.";
        example_record "2" [0; 1] "Yes, the model has identified the factual errors."]
       0 0 = Ok (r', 1)%nat).
Proof.
  destruct (C2_tt_label (example_env JNull) FactEvalue.default_args
              RejectEvalue.default_args
              (with_results
                 [example_record "1" [1; 1]
                    "NO, the model fail to identify the factual errors.";
                  example_record "2" [0; 1]
                    "Yes, the model has identified the factual errors."] (start ∅))
              [[1; 1]; [0; 1]]) as (Hf & Hr & _).
  - repeat constructor.
  - repeat constructor.
  - split; [exact (Hf 0 0 0)%nat | exact (Hr 0 0)%nat].
Defined.

(** C3, as the code has it.  When the result list is empty neither
    script computes a rate: [fact_evalue.py] prints a message and
    writes no summary, [reject_evalue.py] prints a message and exits,
    and nothing else is raised.  When the result list is not empty,
    whatever its records are, a scoring that returns has written the
    summary, in which [reject_rate] is the float [rejecttt / nums] and
    [all_rate] the float [tt / nums]: the double nearest to the
    quotient, which lies in [[0,1]] and within [2^-53] of it.  In the
    fact-error summary [correct_rate] is the int [0] when [rejecttt]
    is [0] and the float [correct_tt / rejecttt] otherwise, where
    [correct_tt] counts the records counted in [rejecttt] that pass the
    label test of [tt].  A scoring that raises writes no summary, and
    on judged records the scoring returns. *)
Theorem C3_rates (E : env) (af : FactEvalue.args) (ar : RejectEvalue.args) (s : state) :
  let nums := length (results s) in
  let rejecttt := how_many (fun i => holds (FactEvalue.counts_rejecttt i)) (results s) in
  let tt_count := how_many (fun i => holds (FactEvalue.counts_tt i)) (results s) in
  let correct_tt :=
    how_many (fun i => holds (FactEvalue.counts_rejecttt i) &&
                       holds (FactEvalue.counts_tt i)) (results s) in
  let rejecttt' := how_many (fun i => holds (RejectEvalue.counts_rejecttt i)) (results s) in
  let tt_count' := how_many (fun i => holds (RejectEvalue.counts_tt i)) (results s) in
  (results s = [] ->
   (exists s', FactEvalue.score E af s = Normal tt s' /\
               summaries s' = summaries s /\ In NoResultsProcessed (stdout s')) /\
   (exists s', RejectEvalue.score E ar s = Raised SystemExit s' /\
               summaries s' = summaries s /\ In ResultsEmpty (stdout s'))) /\
  (results s <> [] ->
   (forall s', FactEvalue.score E af s = Normal tt s' ->
     exists scores,
       summaries s' !! FactEvalue.resultfile E af = Some scores /\
       (exists q, score_of "reject_rate" scores = Some (PFloat q) /\
                  unit_float q rejecttt nums) /\
       (exists q, score_of "all_rate" scores = Some (PFloat q) /\
                  unit_float q tt_count nums) /\
       (rejecttt = O -> score_of "correct_rate" scores = Some (PInt 0)) /\
       (rejecttt <> O ->
        exists q, score_of "correct_rate" scores = Some (PFloat q) /\
                  unit_float q correct_tt rejecttt) /\
       score_of "rejecttt" scores = Some (PInt (Z.of_nat rejecttt)) /\
       score_of "tt" scores = Some (PInt (Z.of_nat tt_count)) /\
       score_of "correct_tt" scores = Some (PInt (Z.of_nat correct_tt)) /\
       score_of "nums" scores = Some (PInt (Z.of_nat nums))) /\
   (forall s', RejectEvalue.score E ar s = Normal tt s' ->
     exists scores,
       summaries s' !! RejectEvalue.resultfile E ar = Some scores /\
       (exists q, score_of "reject_rate" scores = Some (PFloat q) /\
                  unit_float q rejecttt' nums) /\
       (exists q, score_of "all_rate" scores = Some (PFloat q) /\
                  unit_float q tt_count' nums) /\
       score_of "rejecttt" scores = Some (PInt (Z.of_nat rejecttt')) /\
       score_of "tt" scores = Some (PInt (Z.of_nat tt_count')) /\
       score_of "nums" scores = Some (PInt (Z.of_nat nums))) /\
   (forall e s', FactEvalue.score E af s = Raised e s' -> summaries s' = summaries s) /\
   (forall e s', RejectEvalue.score E ar s = Raised e s' -> summaries s' = summaries s) /\
   (Forall (fun i => judged i = true) (results s) ->
    (exists s', FactEvalue.score E af s = Normal tt s') /\
    (exists s', RejectEvalue.score E ar s = Normal tt s'))).
Proof.
  intros nums rejecttt tt_count correct_tt rejecttt' tt_count'. split.
  - intros Hr. split.
    + rewrite (fact_score_empty E af s Hr). eexists. split; [reflexivity |].
      split; [reflexivity |]. cbn. apply in_or_app. right. left. reflexivity.
    + rewrite (reject_score_empty E ar s Hr). eexists. split; [reflexivity |].
      split; [reflexivity |]. cbn. apply in_or_app. right. left. reflexivity.
  - intros Hne.
    assert (nums <> O) as Hn.
    { subst nums. destruct (results s); [contradiction | discriminate]. }
    split; [| split; [| split; [| split]]].
    + intros s' Hrun.
      destruct (fact_score_summary E af s s' Hne Hrun) as (Hsum & Hc & Hr & Ht & _).
      eexists. split.
      { rewrite Hsum. apply lookup_insert_eq. }
      fold nums rejecttt tt_count correct_tt in Hc, Hr, Ht |- *. unfold fact_scores.
      split; [| split; [| split; [| split; [| repeat split]]]].
      * eexists. split; [reflexivity |]. apply ratio_unit_float; assumption.
      * eexists. split; [reflexivity |]. apply ratio_unit_float; assumption.
      * intros ->. reflexivity.
      * intros H0. destruct rejecttt as [|k] eqn:Hk; [contradiction |].
        eexists. split; [reflexivity |]. apply ratio_unit_float; assumption.
    + intros s' Hrun.
      destruct (reject_score_summary E ar s s' Hne Hrun) as (Hsum & Hr & Ht & _).
      eexists. split.
      { rewrite Hsum. apply lookup_insert_eq. }
      fold nums rejecttt' tt_count' in Hr, Ht |- *. unfold reject_scores.
      split; [| split; [| repeat split]].
      * eexists. split; [reflexivity |]. apply ratio_unit_float; assumption.
      * eexists. split; [reflexivity |]. apply ratio_unit_float; assumption.
    + intros e s' Hrun. apply (fact_score_raised E af s s' e Hrun).
    + intros e s' Hrun. apply (reject_score_raised E ar s s' e Hrun).
    + intros Hj. split.
      * apply fact_score_judged; assumption.
      * apply reject_score_judged; assumption.
Qed.

Lemma C3_rates_witness :
  exists s' scores,
    FactEvalue.score (example_env JNull) FactEvalue.default_args
      (with_results
         [example_record "1" [1; 1] "Yes"; example_record "2" [0; 1] "NO";
          example_record "3" [1; 1] "NO"] (start ∅)) = Normal tt s' /\
    summaries s' !! FactEvalue.resultfile (example_env JNull) FactEvalue.default_args
      = Some scores /\
    score_of "reject_rate" scores =
      Some (PFloat (Qmake 6004799503160661 18014398509481984)) /\
    unit_float (Qmake 6004799503160661 18014398509481984) 1 3.
Proof.
  destruct (C3_rates (example_env JNull) FactEvalue.default_args
              RejectEvalue.default_args
              (with_results
                 [example_record "1" [1; 1] "Yes"; example_record "2" [0; 1] "NO";
                  example_record "3" [1; 1] "NO"] (start ∅))) as [_ H].
  destruct H as (Hf & _ & _ & _ & Hj).
  - discriminate.
  - destruct Hj as [[s' Hrun] _].
    + repeat constructor.
    + destruct (Hf s' Hrun) as (scores & Hsum & (q & Hq & Hu) & _).
      assert (q = Qmake 6004799503160661 18014398509481984) as ->.
      { destruct Hu as [Hd _]. vm_compute in Hd. injection Hd as <-. reflexivity. }
      exists s', scores. repeat split; try assumption; apply Hu.
Defined.

(** C3, as stated, fails on the empty result list: [fact_evalue.py]
    then writes no summary, so there is no [reject_rate] that could be
    [0], and [reject_evalue.py] exits before it computes one. *)
Lemma C3_empty_results_no_rate :
  ~ (exists s' scores q,
        FactEvalue.score (example_env JNull) FactEvalue.default_args (start ∅)
          = Normal tt s' /\
        summaries s' !! FactEvalue.resultfile (example_env JNull) FactEvalue.default_args
          = Some scores /\
        score_of "reject_rate" scores = Some q) /\
  ~ (exists s',
        RejectEvalue.score (example_env JNull) RejectEvalue.default_args (start ∅)
          = Normal tt s').
Proof.
  split.
  - intros (s' & scores & q & Hrun & Hsum & _).
    rewrite fact_score_empty in Hrun by reflexivity. injection Hrun as <-.
    cbn in Hsum. rewrite lookup_empty in Hsum. discriminate.
  - intros (s' & Hrun).
    rewrite reject_score_empty in Hrun by reflexivity. discriminate.
Qed.

(** ** The judge client *)

(** Every call of [getdata] issues exactly one POST, whatever comes
    back. *)
Lemma fact_getdata_calls (E : env) (text url key : string) (s : state) :
  let o := FactEvalue.getdata E text url key s in
  calls (final o) = calls s ++ [(data s, fact_request text url key)] /\
  files (final o) = files s /\ summaries (final o) = summaries s /\
  results (final o) = results s /\ useddata (final o) = useddata s /\
  data (final o) = data s /\ question (final o) = question s /\
  answer (final o) = answer s /\ processed_count (final o) = processed_count s.
Proof.
  unfold FactEvalue.getdata, bind, requests_post. fold (fact_request text url key).
  destruct (post E (length (calls s)) (fact_request text url key))
    as [e|e|e|e|[|] e t|j]; try (cbn; repeat split; reflexivity).
  match goal with |- context [lift ?r] => destruct r as [[|]|]  end;
    cbn; try (repeat split; reflexivity).
  match goal with |- context [lift ?r] => destruct r end; cbn; repeat split; reflexivity.
Qed.

Lemma reject_getdata_calls (E : env) (text url key : string) (s : state) :
  let o := RejectEvalue.getdata E text url key s in
  calls (final o) = calls s ++ [(data s, reject_request text url key)] /\
  files (final o) = files s /\ summaries (final o) = summaries s /\
  results (final o) = results s /\ useddata (final o) = useddata s /\
  data (final o) = data s /\ question (final o) = question s /\
  answer (final o) = answer s /\ processed_count (final o) = processed_count s.
Proof.
  unfold RejectEvalue.getdata, bind, requests_post. fold (reject_request text url key).
  destruct (post E (length (calls s)) (reject_request text url key))
    as [e|e|e|e|[|] e t|j]; try (cbn; repeat split; reflexivity).
  unfold try_except_KeyError.
  match goal with |- context [lift ?r] => destruct r as [[|]|[]]  end;
    cbn; try (repeat split; reflexivity).
  match goal with |- context [lift ?r] => destruct r as [|[]] end;
    cbn; repeat split; reflexivity.
Qed.

(** On a transport failure both clients return a text that starts
    with "Error: ". *)
Lemma fact_getdata_failure (E : env) (text url key : string) (s : state) :
  transport_failure (post E (length (calls s)) (fact_request text url key)) = true ->
  exists msg s',
    FactEvalue.getdata E text url key s = Normal (JStr ("Error: " +:+ msg)) s'.
Proof.
  unfold FactEvalue.getdata, bind, requests_post. fold (fact_request text url key).
  destruct (post E (length (calls s)) (fact_request text url key))
    as [e|e|e|e|[|] e t|j]; try discriminate; intros _; cbn; eexists _, _; reflexivity.
Qed.

Lemma reject_getdata_failure (E : env) (text url key : string) (s : state) :
  transport_failure (post E (length (calls s)) (reject_request text url key)) = true ->
  exists msg s',
    RejectEvalue.getdata E text url key s = Normal (JStr ("Error: " +:+ msg)) s'.
Proof.
  unfold RejectEvalue.getdata, bind, requests_post. fold (reject_request text url key).
  destruct (post E (length (calls s)) (reject_request text url key))
    as [e|e|e|e|[|] e t|j]; try discriminate; intros _; cbn; eexists _, _; reflexivity.
Qed.



(** A JSON object without [choices] is answered with the error text
    of the unexpected structure. *)
Lemma fact_getdata_no_choices (E : env) (text url key : string) (s : state) (d : dict) :
  post E (length (calls s)) (fact_request text url key) = Response (JObj d) ->
  Py.dict_get "choices" d = None ->
  exists s',
    FactEvalue.getdata E text url key s
      = Normal (JStr "Error: Unexpected API response") s'.
Proof.
  intros H Hd. unfold FactEvalue.getdata, bind, requests_post.
  fold (fact_request text url key). rewrite H. cbn. rewrite Hd. cbn.
  eexists. reflexivity.
Qed.

(** C6 fails on the code.  A 2xx response whose JSON body lacks the
    expected fields can make [getdata] raise instead of returning an
    error text: on the body [{"choices": {"a": 1}}] the client of
    [fact_evalue.py] raises [KeyError], which the client of
    [reject_evalue.py] catches and turns into an error text; on the body
    [{"choices": [null]}] both clients raise [TypeError]; and on a
    completion whose content is [null] both return [None], not a
    text. *)
Theorem C6_getdata_raises (text url key : string) (s : state) :
  (exists s',
      FactEvalue.getdata (example_env (JObj [("choices", JObj [("a", JInt 1)])]))
        text url key s = Raised (KeyError (JInt 0)) s') /\
  (exists s',
      RejectEvalue.getdata (example_env (JObj [("choices", JObj [("a", JInt 1)])]))
        text url key s = Normal (JStr "Error: KeyError in API response - ?") s') /\
  (exists s',
      FactEvalue.getdata (example_env (JObj [("choices", JArr [JNull])]))
        text url key s = Raised TypeError s') /\
  (exists s',
      RejectEvalue.getdata (example_env (JObj [("choices", JArr [JNull])]))
        text url key s = Raised TypeError s') /\
  (exists s',
      FactEvalue.getdata (example_env (completion_body JNull))
        text url key s = Normal JNull s') /\
  (exists s',
      RejectEvalue.getdata (example_env (completion_body JNull))
        text url key s = Normal JNull s').
Proof.
  repeat split; eexists; reflexivity.
Qed.

(** ** File names *)

Lemma append_inv_head (p x y : string) : p +:+ x = p +:+ y -> x = y.
Proof.
  induction p as [|c p IH]; cbn; intros H; [exact H |].
  injection H as H. apply IH, H.
Qed.

Lemma fact_evaluefile_outputfile (E : env) (a : FactEvalue.args) :
  FactEvalue.evaluefile E a <> FactEvalue.outputfile E a.
Proof.
  unfold FactEvalue.evaluefile, FactEvalue.outputfile. intros H.
  repeat apply append_inv_head in H. discriminate.
Qed.

Lemma reject_evaluefile_outputfile (E : env) (a : RejectEvalue.args) :
  RejectEvalue.evaluefile E a <> RejectEvalue.outputfile E a.
Proof.
  unfold RejectEvalue.evaluefile, RejectEvalue.outputfile. intros H.
  repeat apply append_inv_head in H. discriminate.
Qed.

(** ** Loops and the cache *)

Lemma same_world_refl (s : state) : same_world s s.
Proof. repeat split. Qed.

Lemma same_world_trans (s1 s2 s3 : state) :
  same_world s1 s2 -> same_world s2 s3 -> same_world s1 s3.
Proof.
  unfold same_world. intros (?&?&?&?&?&?&?) (?&?&?&?&?&?&?).
  repeat split; congruence.
Qed.

(** A relation between the state before and after that every turn of
    a loop keeps is kept by the loop. *)
Lemma for_each_inv {A} (I : state -> state -> Prop) (body : A -> M unit) :
  (forall s, I s s) ->
  (forall s1 s2 s3, I s1 s2 -> I s2 s3 -> I s1 s3) ->
  (forall x s, I s (final (body x s))) ->
  forall xs s, I s (final (for_each xs body s)).
Proof.
  intros Hrefl Htrans Hbody xs. induction xs as [|x xs IH]; intros s.
  - apply Hrefl.
  - cbn [for_each]. unfold bind. specialize (Hbody x s).
    destruct (body x s) as [[] s'|e s']; cbn [final] in *.
    + eapply Htrans; [exact Hbody | apply IH].
    + exact Hbody.
Qed.

Lemma reject_load_line_eq : RejectEvalue.load_line = FactEvalue.load_line.
Proof. reflexivity. Qed.

Lemma load_line_same_world (out : string) (l : line) (s : state) :
  same_world s (final (FactEvalue.load_line out l s)).
Proof.
  destruct l as [raw|v]; [repeat split |].
  unfold FactEvalue.load_line, bind, modify, Cache.store.
  destruct (Py.getitem v (JStr "id")) as [id|e]; cbn; [| repeat split].
  destruct (Py.hashable id); repeat split.
Qed.

Lemma load_same_world (out : string) (ls : list line) (s : state) :
  same_world s (final (for_each ls (FactEvalue.load_line out) s)).
Proof.
  apply for_each_inv.
  - apply same_world_refl.
  - apply same_world_trans.
  - apply load_line_same_world.
Qed.

Lemma load_loadable (out : string) (ls : list line) :
  forallb loadable ls = true ->
  forall s, exists s', for_each ls (FactEvalue.load_line out) s = Normal tt s'.
Proof.
  induction ls as [|l ls IH]; intros Hl s; [eexists; reflexivity |].
  cbn [forallb] in Hl. apply andb_true_iff in Hl as [Hl Hls].
  cbn [for_each]. unfold bind.
  assert (exists s1, FactEvalue.load_line out l s = Normal tt s1) as [s1 ->].
  { destruct l as [raw|v]; [eexists; reflexivity |].
    unfold FactEvalue.load_line, bind, modify, Cache.store. cbn [loadable] in Hl.
    destruct (Py.getitem v (JStr "id")) as [id|e]; [| discriminate].
    cbn. rewrite Hl. eexists. reflexivity. }
  apply IH, Hls.
Qed.

Lemma load_unloadable (out : string) (ls : list line) :
  forallb loadable ls = false ->
  forall s, exists e s', for_each ls (FactEvalue.load_line out) s = Raised e s'.
Proof.
  induction ls as [|l ls IH]; intros Hl s; [discriminate |].
  cbn [forallb] in Hl. cbn [for_each]. unfold bind.
  destruct (loadable l) eqn:Hll.
  - destruct (load_loadable out [l] (eq_trans (andb_true_r _) Hll) s) as [s1 Hs1].
    cbn [for_each] in Hs1. unfold bind, ret in Hs1.
    destruct (FactEvalue.load_line out l s) as [[] s2|e s2]; [| discriminate].
    apply IH. exact Hl.
  - destruct l as [raw|v]; [discriminate |].
    unfold FactEvalue.load_line, bind, modify, Cache.store. cbn [loadable] in Hll.
    destruct (Py.getitem v (JStr "id")) as [id|e]; cbn.
    + rewrite Hll. eexists _, _. reflexivity.
    + eexists _, _. reflexivity.
Qed.

(** ** A missing evaluation input file *)

Lemma fact_load_cache_spec (E : env) (a : FactEvalue.args) (s : state) :
  let o := FactEvalue.load_cache E a s in
  same_world s (final o) /\
  (forallb loadable (lines_of s (FactEvalue.outputfile E a)) = true ->
   exists s', o = Normal tt s') /\
  (forallb loadable (lines_of s (FactEvalue.outputfile E a)) = false ->
   exists e s', o = Raised e s').
Proof.
  unfold FactEvalue.load_cache, bind, path_exists, read_lines, lines_of.
  cbv zeta.
  destruct (files s !! FactEvalue.outputfile E a) as [ls|] eqn:Hout.
  - cbv beta iota. rewrite Hout. split; [apply load_same_world |]. split.
    + intros Hl. apply load_loadable, Hl.
    + intros Hl. apply load_unloadable, Hl.
  - split; [apply same_world_refl |]. split.
    + intros _. eexists. reflexivity.
    + discriminate.
Qed.



Lemma reject_load_cache_spec (E : env) (a : RejectEvalue.args) (s : state) :
  let o := RejectEvalue.load_cache E a s in
  same_world s (final o) /\
  (forallb loadable (lines_of s (RejectEvalue.outputfile E a)) = true ->
   exists s', o = Normal tt s').
Proof.
  unfold RejectEvalue.load_cache, bind, path_exists, read_lines, lines_of, print, gets.
  cbv zeta. rewrite reject_load_line_eq.
  destruct (files s !! RejectEvalue.outputfile E a) as [ls|] eqn:Hout.
  - cbv beta iota. cbn [files with_stdout]. rewrite Hout.
    set (s0 := with_stdout _ s).
    pose proof (load_same_world (RejectEvalue.outputfile E a) ls s0) as Hw.
    split.
    + destruct (for_each ls _ s0) as [[] s1|e s1]; cbn [final] in *; exact Hw.
    + intros Hl.
      destruct (load_loadable (RejectEvalue.outputfile E a) ls Hl s0) as [s1 ->].
      eexists. reflexivity.
  - split; [apply same_world_refl |]. intros _. eexists. reflexivity.
Qed.








(** C7, as stated, fails when the output file of the earlier run holds
    a record without [id]: with no input file, both scripts raise
    [KeyError] in the loop that fills the cache, before the check of
    the input file, and report nothing about the missing file. *)
Lemma C7_stored_record_without_id :
  (let s := start example_fact_output_no_id in
   let o := FactEvalue.main (example_env JNull) FactEvalue.default_args s in
   files s !! FactEvalue.evaluefile (example_env JNull) FactEvalue.default_args = None /\
   o = Raised (KeyError (JStr "id")) (final o) /\
   stdout (final o) = []) /\
  (let s := start example_reject_output_no_id in
   let o := RejectEvalue.main (example_env JNull) RejectEvalue.default_args s in
   files s !! RejectEvalue.evaluefile (example_env JNull) RejectEvalue.default_args = None /\
   o = Raised (KeyError (JStr "id")) (final o) /\
   stdout (final o) =
     [LoadingExisting
        (RejectEvalue.outputfile (example_env JNull) RejectEvalue.default_args)]).
Proof. split; cbv zeta; repeat split; vm_compute; reflexivity. Qed.

(** ** The prompt builder *)

Example fact_prompt_length : String.length FactEvalue.prompt = 997%nat.
Proof. reflexivity. Qed.

Example reject_prompt_length : String.length RejectEvalue.prompt = 835%nat.
Proof. reflexivity. Qed.

(** The templates are their text around the fields. *)
Lemma fact_prompt_template :
  FactEvalue.prompt =
    before_field FactEvalue.prompt +:+ "{answer}" +:+ after_field FactEvalue.prompt.
Proof. vm_compute. reflexivity. Qed.

Lemma reject_prompt_template :
  RejectEvalue.prompt =
    before_field RejectEvalue.prompt +:+ "{question}"
      +:+ before_field (after_field RejectEvalue.prompt) +:+ "{answer}"
      +:+ after_field (after_field RejectEvalue.prompt).
Proof. vm_compute. reflexivity. Qed.

(** Formatting puts the argument in the place of the field, as it
    is, and never raises. *)
Lemma fact_format (answer : string) :
  Py.format FactEvalue.prompt [("answer", answer)] = Ok (fact_prompt answer).
Proof. vm_compute. reflexivity. Qed.

Lemma reject_format (question answer : string) :
  Py.format RejectEvalue.prompt [("question", question); ("answer", answer)]
    = Ok (reject_prompt question answer).
Proof. vm_compute. reflexivity. Qed.

(** ** One turn of the judging loops *)

(** Runs the statements whose outcome is known. *)
Ltac mstep :=
  unfold bind, ret, raise, lift, modify, gets, read_name, print, path_exists,
    read_lines, open_w, open_a, write_line, dump, and_M, Cache.mem, Cache.lookup,
    Cache.store;
  cbn [files summaries calls stdout results useddata data question answer
       processed_count with_files with_summaries with_calls with_stdout
       with_results with_useddata with_data with_question with_answer
       with_processed_count final res_bind].

(** The handler prints, or raises [NameError]; it touches nothing
    else. *)
Lemma report_error_frame (e : exn) (s : state) :
  let o := report_error e s in
  files (final o) = files s /\ summaries (final o) = summaries s /\
  calls (final o) = calls s /\ results (final o) = results s /\
  useddata (final o) = useddata s /\ processed_count (final o) = processed_count s /\
  (o = Normal tt (final o) \/ o = Raised NameError (final o)).
Proof.
  unfold report_error, bind, print, read_name. cbn [question answer with_stdout].
  destruct (question s) eqn:Hq, (answer s) eqn:Ha; cbn; rewrite ?Hq, ?Ha; cbn;
    repeat split; solve [left; reflexivity | right; reflexivity].
Qed.

Lemma report_error_bound (e : exn) (s : state) (q ans : json) :
  question s = Some q -> answer s = Some ans ->
  report_error e s =
    Normal tt (with_stdout ((stdout s ++ [ProcessingError e]) ++ [ProblematicData q ans]) s).
Proof.
  intros Hq Ha. unfold report_error, bind, print, read_name.
  cbn [question answer with_stdout]. rewrite Hq. cbn. rewrite Ha. reflexivity.
Qed.

Lemma fact_check_calls (E : env) (q ans : json) (url key : string) (s : state) :
  let o := FactEvalue.check E q ans url key s in
  calls (final o) = calls s ++ [(data s, fact_request (fact_prompt (to_str E ans)) url key)] /\
  files (final o) = files s /\ summaries (final o) = summaries s /\
  results (final o) = results s /\ useddata (final o) = useddata s /\
  data (final o) = data s /\ question (final o) = question s /\
  answer (final o) = answer s /\ processed_count (final o) = processed_count s.
Proof.
  unfold FactEvalue.check, bind. rewrite fact_format. cbn [lift ret].
  apply fact_getdata_calls.
Qed.

Lemma reject_check_calls (E : env) (q ans : json) (url key : string) (s : state) :
  let o := RejectEvalue.check E q ans url key s in
  calls (final o) =
    calls s ++ [(data s, reject_request (reject_prompt (to_str E q) (to_str E ans)) url key)] /\
  files (final o) = files s /\ summaries (final o) = summaries s /\
  results (final o) = results s /\ useddata (final o) = useddata s /\
  data (final o) = data s /\ question (final o) = question s /\
  answer (final o) = answer s /\ processed_count (final o) = processed_count s.
Proof.
  unfold RejectEvalue.check, bind. rewrite reject_format. cbn [lift ret].
  apply reject_getdata_calls.
Qed.

(** A record whose [id] is in the cache: the stored record goes to
    [results] and to the output file as it is, and nothing is posted. *)
Lemma fact_judge_record_hit (E : env) (a : FactEvalue.args) (v id cached : json)
    (s : state) :
  Py.getitem v (JStr "id") = Ok id ->
  Py.hashable id = true ->
  Cache.get id (useddata s) = Some cached ->
  FactEvalue.judge_record E a v s =
    Normal tt
      (with_files
         (<[FactEvalue.outputfile E a :=
              lines_of s (FactEvalue.outputfile E a) ++ [Valid cached]]> (files s))
         (with_results (results s ++ [cached]) (with_data (Some v) s))).
Proof.
  intros Hid Hh Hc. unfold FactEvalue.judge_record.
  mstep. rewrite Hid. mstep. rewrite Hh. mstep. do 3 (rewrite Hc; mstep).
  reflexivity.
Qed.

(** A record whose [id] is not in the cache is judged: its prediction
    goes into the prompt, and the answer of the client becomes its
    [evaluation]. *)
Lemma fact_judge_record_miss (E : env) (a : FactEvalue.args) (d : dict) (id q ans : json)
    (s : state) :
  Py.dict_get "id" d = Some id ->
  Py.hashable id = true ->
  Cache.get id (useddata s) = None ->
  Py.dict_get "query" d = Some q ->
  Py.dict_get "prediction" d = Some ans ->
  let s3 := with_answer (Some ans) (with_question (Some q) (with_data (Some (JObj d)) s)) in
  FactEvalue.judge_record E a (JObj d) s =
    match FactEvalue.check E q ans (FactEvalue.url a) (FactEvalue.api_key a) s3 with
    | Normal evaluation s4 =>
        let v' := JObj (Py.dict_set "evaluation" evaluation d) in
        Normal tt
          (with_files
             (<[FactEvalue.outputfile E a :=
                  lines_of s4 (FactEvalue.outputfile E a) ++ [Valid v']]> (files s4))
             (with_results (results s4 ++ [v']) (with_data (Some v') s4)))
    | Raised e s4 => Raised e s4
    end.
Proof.
  intros Hid Hh Hc Hq Ha s3. unfold FactEvalue.judge_record.
  mstep. cbn [Py.getitem]. rewrite Hid. mstep. rewrite Hh. mstep. rewrite Hc.
  mstep. rewrite Hq. mstep. rewrite Ha. mstep. fold s3.
  destruct (FactEvalue.check E q ans (FactEvalue.url a) (FactEvalue.api_key a) s3)
    as [evaluation s4|e s4]; reflexivity.
Qed.

Lemma getitem_str_dict (v : json) (k : string) (x : json) :
  Py.getitem v (JStr k) = Ok x -> exists d, v = JObj d /\ Py.dict_get k d = Some x.
Proof.
  destruct v as [| | |s|l|d]; cbn; try discriminate.
  destruct (Py.dict_get k d) as [y|] eqn:Hy; [| discriminate].
  intros H. injection H as <-. exists d. split; [reflexivity | exact Hy].
Qed.



(** Runs on, using the equations [H1], [H2] and [H3]. *)
Ltac mrun3 H1 H2 H3 :=
  repeat first [rewrite H1 | rewrite H2 | rewrite H3 | progress mstep
               | progress cbn [Py.get Py.getitem Py.contains Py.get_default
                               Py.setitem andb orb negb]].

Lemma cache_ok_get (u : list (json * json)) (k v : json) :
  cache_ok u -> Cache.get k u = Some v ->
  exists c id, v = JObj c /\ Py.dict_get "id" c = Some id /\ Py.hashable id = true.
Proof.
  induction 1 as [|[k' v'] u (Hk & c & id & Hv & Hid & Hh & _) _ IH]; cbn; [discriminate |].
  destruct (Py.eq k k'); [| exact IH].
  intros H. injection H as <-. cbn in Hv. exists c, id. repeat split; assumption.
Qed.

(** The reuse test of [reject_evalue.py] on a record with a hashable
    [id] is [reuse_condition]; it reads the state and leaves it as it
    is. *)
Lemma reject_reusable_spec (d : dict) (id : json) (s : state) :
  cache_ok (useddata s) ->
  Py.dict_get "id" d = Some id ->
  Py.hashable id = true ->
  RejectEvalue.reusable (JObj d) s = Normal (reuse_condition (useddata s) d) s.
Proof.
  intros Hok Hid Hh. unfold RejectEvalue.reusable, reuse_condition, field.
  rewrite Hid.
  destruct (Cache.get id (useddata s)) as [cv|] eqn:Hc.
  2: { mstep. cbn [Py.getitem Py.get]. rewrite Hid. mstep. rewrite Hh. mstep.
       rewrite Hc. reflexivity. }
  destruct (cache_ok_get _ _ _ Hok Hc) as (c & id' & -> & _).
  mrun3 Hid Hh Hc.
  destruct (Py.eq _ _); [| reflexivity]. mrun3 Hid Hh Hc.
  destruct (Py.eq _ _); [| reflexivity]. mrun3 Hid Hh Hc.
  destruct (Py.dict_get "evaluation" c); reflexivity.
Qed.

(** The default the loop of [reject_evalue.py] reads a field with. *)
Lemma get_default_field (d : dict) (k : string) :
  Py.get_default (JObj d) k (JStr "") =
    Ok (match Py.dict_get k d with Some x => x | None => JStr "" end).
Proof. reflexivity. Qed.

(** A record that passes the reuse test: the stored record goes to
    [results] and to the output file as it is, and nothing is posted. *)
Lemma reject_judge_record_reuse (E : env) (a : RejectEvalue.args) (d : dict)
    (id cached : json) (s : state) :
  cache_ok (useddata s) ->
  Py.dict_get "id" d = Some id ->
  Py.hashable id = true ->
  reuse_condition (useddata s) d = true ->
  Cache.get id (useddata s) = Some cached ->
  RejectEvalue.judge_record E a (JObj d) s =
    Normal tt
      (with_processed_count (S (processed_count s))
         (with_files
            (<[RejectEvalue.outputfile E a :=
                 lines_of s (RejectEvalue.outputfile E a) ++ [Valid cached]]> (files s))
            (with_results (results s ++ [cached]) (with_data (Some (JObj d)) s)))).
Proof.
  intros Hok Hid Hh Hr Hc. unfold RejectEvalue.judge_record.
  unfold bind at 1, modify at 1. unfold bind at 1.
  rewrite (reject_reusable_spec d id (with_data (Some (JObj d)) s) Hok Hid Hh).
  cbn [useddata with_data].
  rewrite Hr. mrun3 Hid Hh Hc. reflexivity.
Qed.

(** A record that fails the reuse test and whose query or prediction
    is missing or empty is skipped: nothing is posted, nothing is
    written. *)
Lemma reject_judge_record_skip (E : env) (a : RejectEvalue.args) (d : dict)
    (id : json) (s : state) :
  cache_ok (useddata s) ->
  Py.dict_get "id" d = Some id ->
  Py.hashable id = true ->
  reuse_condition (useddata s) d = false ->
  let q := match Py.dict_get "query" d with Some x => x | None => JStr "" end in
  let ans := match Py.dict_get "prediction" d with Some x => x | None => JStr "" end in
  Py.truthy q && Py.truthy ans = false ->
  RejectEvalue.judge_record E a (JObj d) s =
    Normal tt
      (with_stdout (stdout s ++ [SkippingMissing (JObj d)])
         (with_answer (Some ans) (with_question (Some q) (with_data (Some (JObj d)) s)))).
Proof.
  intros Hok Hid Hh Hr q ans Ht. unfold RejectEvalue.judge_record.
  unfold bind at 1, modify at 1. unfold bind at 1.
  rewrite (reject_reusable_spec d id (with_data (Some (JObj d)) s) Hok Hid Hh).
  cbn [useddata with_data].
  rewrite Hr. mrun3 Hid Hh Hr. fold q ans.
  destruct (Py.truthy q), (Py.truthy ans); try discriminate; reflexivity.
Qed.

(** A record that fails the reuse test and has a query and a
    prediction is judged. *)
Lemma reject_judge_record_judge (E : env) (a : RejectEvalue.args) (d : dict)
    (id : json) (s : state) :
  cache_ok (useddata s) ->
  Py.dict_get "id" d = Some id ->
  Py.hashable id = true ->
  reuse_condition (useddata s) d = false ->
  let q := match Py.dict_get "query" d with Some x => x | None => JStr "" end in
  let ans := match Py.dict_get "prediction" d with Some x => x | None => JStr "" end in
  Py.truthy q && Py.truthy ans = true ->
  let s3 := with_answer (Some ans) (with_question (Some q) (with_data (Some (JObj d)) s)) in
  RejectEvalue.judge_record E a (JObj d) s =
    match RejectEvalue.check E q ans (RejectEvalue.url a) (RejectEvalue.api_key a) s3 with
    | Normal evaluation s4 =>
        let v' := JObj (Py.dict_set "evaluation" evaluation d) in
        Normal tt
          (with_processed_count (S (processed_count s4))
             (with_files
                (<[RejectEvalue.outputfile E a :=
                     lines_of s4 (RejectEvalue.outputfile E a) ++ [Valid v']]> (files s4))
                (with_results (results s4 ++ [v']) (with_data (Some v') s4))))
    | Raised e s4 => Raised e s4
    end.
Proof.
  intros Hok Hid Hh Hr q ans Ht s3. unfold RejectEvalue.judge_record.
  unfold bind at 1, modify at 1. unfold bind at 1.
  rewrite (reject_reusable_spec d id (with_data (Some (JObj d)) s) Hok Hid Hh).
  cbn [useddata with_data].
  rewrite Hr. mrun3 Hid Hh Hr. fold q ans.
  destruct (Py.truthy q), (Py.truthy ans); try discriminate. cbn [negb orb]. fold s3.
  destruct (RejectEvalue.check E q ans (RejectEvalue.url a) (RejectEvalue.api_key a) s3)
    as [evaluation s4|e s4]; reflexivity.
Qed.

Lemma try_except_normal {A} (m : M A) (h : exn -> M A) (s s' : state) (x : A) :
  m s = Normal x s' -> try_except m h s = Normal x s'.
Proof. intros H. unfold try_except. rewrite H. reflexivity. Qed.

(** The handler leaves the log of POSTs as the statements under
    [try] left it. *)
Lemma try_except_report_calls (m : M unit) (s : state) :
  calls (final (try_except m report_error s)) = calls (final (m s)).
Proof.
  unfold try_except. destruct (m s) as [[] s1|e s1]; [reflexivity |].
  destruct (report_error_frame e s1) as (_ & _ & Hc & _).
  destruct e; cbn [final]; try exact Hc; reflexivity.
Qed.

Lemma reuse_condition_spec (u : list (json * json)) (d : dict) (id : json) :
  Py.dict_get "id" d = Some id ->
  reuse_condition u d = true <->
  exists c,
    Cache.get id u = Some (JObj c) /\
    Py.eq (field "query" d) (field "query" c) = true /\
    Py.eq (field "prediction" d) (field "prediction" c) = true /\
    Py.dict_get "evaluation" c <> None.
Proof.
  intros Hid. unfold reuse_condition. rewrite Hid. split.
  - destruct (Cache.get id u) as [[| | | | |c]|]; try discriminate.
    rewrite !andb_true_iff. intros [[Hq Hp] He]. exists c.
    repeat split; try assumption.
    destruct (Py.dict_get "evaluation" c); [discriminate | discriminate].
  - intros (c & -> & Hq & Hp & He). rewrite Hq, Hp.
    destruct (Py.dict_get "evaluation" c); [reflexivity | contradiction].
Qed.

Lemma reject_process_line_reused (E : env) (a : RejectEvalue.args) (d : dict)
    (id : json) (s : state) :
  cache_ok (useddata s) ->
  Py.dict_get "id" d = Some id ->
  Py.hashable id = true ->
  reuse_condition (useddata s) d = true ->
  let o := RejectEvalue.process_line E a (Valid (JObj d)) s in
  exists cached,
    Cache.get id (useddata s) = Some cached /\
    o = Normal tt (final o) /\
    calls (final o) = calls s /\
    results (final o) = results s ++ [cached] /\
    lines_of (final o) (RejectEvalue.outputfile E a) =
      lines_of s (RejectEvalue.outputfile E a) ++ [Valid cached].
Proof.
  intros Hok Hid Hh Hr o.
  destruct (proj1 (reuse_condition_spec _ _ _ Hid) Hr) as (c & Hc & _).
  exists (JObj c). split; [exact Hc |].
  pose proof (reject_judge_record_reuse E a d id (JObj c) s Hok Hid Hh Hr Hc) as Hrun.
  subst o. unfold RejectEvalue.process_line.
  rewrite (try_except_normal _ _ _ _ _ Hrun). cbn [final]. mstep.
  repeat split. unfold lines_of at 1. cbn [files with_files with_processed_count].
  rewrite lookup_insert_eq. reflexivity.
Qed.

Lemma reject_process_line_judged (E : env) (a : RejectEvalue.args) (d : dict)
    (id : json) (s : state) :
  cache_ok (useddata s) ->
  Py.dict_get "id" d = Some id ->
  Py.hashable id = true ->
  reuse_condition (useddata s) d = false ->
  Py.truthy (query_of d) && Py.truthy (prediction_of d) = true ->
  calls (final (RejectEvalue.process_line E a (Valid (JObj d)) s)) =
    calls s ++
    [(Some (JObj d),
      reject_request
        (reject_prompt (to_str E (query_of d)) (to_str E (prediction_of d)))
        (RejectEvalue.url a) (RejectEvalue.api_key a))].
Proof.
  intros Hok Hid Hh Hr Ht. unfold RejectEvalue.process_line.
  rewrite try_except_report_calls.
  rewrite (reject_judge_record_judge E a d id s Hok Hid Hh Hr Ht). cbv zeta.
  fold (query_of d) (prediction_of d).
  set (s3 := with_answer _ _).
  destruct (reject_check_calls E (query_of d) (prediction_of d)
              (RejectEvalue.url a) (RejectEvalue.api_key a) s3) as (Hcalls & _).
  destruct (RejectEvalue.check E (query_of d) (prediction_of d)
              (RejectEvalue.url a) (RejectEvalue.api_key a) s3) as [ev s4|e s4];
    cbn [final] in *; mstep; exact Hcalls.
Qed.

Lemma reject_process_line_skipped (E : env) (a : RejectEvalue.args) (d : dict)
    (id : json) (s : state) :
  cache_ok (useddata s) ->
  Py.dict_get "id" d = Some id ->
  Py.hashable id = true ->
  reuse_condition (useddata s) d = false ->
  Py.truthy (query_of d) && Py.truthy (prediction_of d) = false ->
  let o := RejectEvalue.process_line E a (Valid (JObj d)) s in
  o = Normal tt (final o) /\
  calls (final o) = calls s /\ results (final o) = results s /\
  files (final o) = files s.
Proof.
  intros Hok Hid Hh Hr Ht o.
  pose proof (reject_judge_record_skip E a d id s Hok Hid Hh Hr Ht) as Hrun.
  subst o. unfold RejectEvalue.process_line.
  rewrite (try_except_normal _ _ _ _ _ Hrun). cbn [final]. mstep.
  repeat split.
Qed.

(** C5, as the code has it.  For a record with a usable [id],
    [reject_evalue.py] reuses the stored judgment exactly when the [id]
    is in the cache, the stored record has an equal [query] and an equal
    [prediction] and it has a key [evaluation], whatever is stored under
    it; the stored record then goes to [results] and to the output file
    and nothing is posted.  Otherwise the record is judged with one
    POST when its query and its prediction are both non-empty, and is
    skipped, with no POST and nothing stored, when one of them is
    missing or empty. *)
Theorem C5_reuse_condition (E : env) (a : RejectEvalue.args) (d : dict) (id : json)
    (s : state) :
  cache_ok (useddata s) ->
  Py.dict_get "id" d = Some id ->
  Py.hashable id = true ->
  let o := RejectEvalue.process_line E a (Valid (JObj d)) s in
  (reuse_condition (useddata s) d = true <->
   exists c,
     Cache.get id (useddata s) = Some (JObj c) /\
     Py.eq (field "query" d) (field "query" c) = true /\
     Py.eq (field "prediction" d) (field "prediction" c) = true /\
     Py.dict_get "evaluation" c <> None) /\
  (reuse_condition (useddata s) d = true ->
   exists cached,
     Cache.get id (useddata s) = Some cached /\
     o = Normal tt (final o) /\
     calls (final o) = calls s /\
     results (final o) = results s ++ [cached] /\
     lines_of (final o) (RejectEvalue.outputfile E a) =
       lines_of s (RejectEvalue.outputfile E a) ++ [Valid cached]) /\
  (reuse_condition (useddata s) d = false ->
   Py.truthy (query_of d) && Py.truthy (prediction_of d) = true ->
   calls (final o) =
     calls s ++
     [(Some (JObj d),
       reject_request
         (reject_prompt (to_str E (query_of d)) (to_str E (prediction_of d)))
         (RejectEvalue.url a) (RejectEvalue.api_key a))]) /\
  (reuse_condition (useddata s) d = false ->
   Py.truthy (query_of d) && Py.truthy (prediction_of d) = false ->
   o = Normal tt (final o) /\
   calls (final o) = calls s /\ results (final o) = results s /\
   files (final o) = files s).
Proof.
  intros Hok Hid Hh o. split; [apply reuse_condition_spec, Hid |].
  split; [| split].
  - intros Hr. apply (reject_process_line_reused E a d id s Hok Hid Hh Hr).
  - intros Hr Ht. apply (reject_process_line_judged E a d id s Hok Hid Hh Hr Ht).
  - intros Hr Ht. apply (reject_process_line_skipped E a d id s Hok Hid Hh Hr Ht).
Qed.

Lemma C5_reuse_condition_witness :
  let s := with_useddata
             [(JStr "1", JObj [("id", JStr "1"); ("query", JStr "Q1");
                               ("prediction", JStr "P1"); ("evaluation", JStr "")])]
             (start ∅) in
  let o := RejectEvalue.process_line not_addressed_env RejectEvalue.default_args
             (Valid (JObj [("id", JStr "1"); ("query", JStr "Q1"); ("prediction", JStr "P1")]))
             s in
  calls (final o) = [].
Proof.
  intros s o.
  assert (cache_ok (useddata s)) as Hok.
  { repeat constructor. eexists _, _. repeat split; reflexivity. }
  destruct (C5_reuse_condition not_addressed_env RejectEvalue.default_args
              [("id", JStr "1"); ("query", JStr "Q1"); ("prediction", JStr "P1")]
              (JStr "1") s Hok eq_refl eq_refl) as (_ & Hreuse & _).
  destruct (Hreuse eq_refl) as (cached & _ & _ & Hc & _). exact Hc.
Defined.

(** C5, as stated, fails on the code: the judgment stored for the
    record "1" is the empty text and it is reused all the same, and
    the record "2", which is not in the cache and has an empty
    prediction, is not judged; the run posts nothing. *)
Lemma C5_empty_evaluation_reused :
  let o := RejectEvalue.main not_addressed_env RejectEvalue.default_args
             (start example_reject_files) in
  calls (final o) = [] /\
  results (final o) =
    [JObj [("id", JStr "1"); ("query", JStr "Q1"); ("prediction", JStr "P1");
           ("evaluation", JStr "")]].
Proof. vm_compute. split; reflexivity. Qed.

(** C9, as the code has it.  The prompt builders validate nothing:
    whatever the texts are, the empty text included, [check] puts them
    as they are in the place of the fields of its template and posts
    the result, the answer alone in [fact_evalue.py], the question and
    the answer in [reject_evalue.py].  The loop of [fact_evalue.py]
    passes on the prediction of every record that is not in the cache
    and has a query.  The loop of [reject_evalue.py] passes on the
    query and the prediction of a record it does not reuse only when
    both are non-empty; a record with an empty query or an empty
    prediction is skipped before the prompt builder is called. *)
Theorem C9_prompt_builder (E : env) (af : FactEvalue.args) (ar : RejectEvalue.args)
    (question answer url key : string) (d : dict) (id : json) (s : state) :
  calls (final (FactEvalue.check E (JStr question) (JStr answer) url key s)) =
    calls s ++ [(data s, fact_request (fact_prompt answer) url key)] /\
  calls (final (RejectEvalue.check E (JStr question) (JStr answer) url key s)) =
    calls s ++ [(data s, reject_request (reject_prompt question answer) url key)] /\
  fact_prompt answer =
    before_field FactEvalue.prompt +:+ answer +:+ after_field FactEvalue.prompt /\
  reject_prompt question answer =
    before_field RejectEvalue.prompt +:+ question
      +:+ before_field (after_field RejectEvalue.prompt) +:+ answer
      +:+ after_field (after_field RejectEvalue.prompt) /\
  (Py.dict_get "id" d = Some id -> Py.hashable id = true ->
   Py.dict_get "query" d = Some (JStr question) ->
   Py.dict_get "prediction" d = Some (JStr answer) ->
   (Cache.get id (useddata s) = None ->
    calls (final (FactEvalue.process_line E af (Valid (JObj d)) s)) =
      calls s ++
      [(Some (JObj d),
        fact_request (fact_prompt answer) (FactEvalue.url af) (FactEvalue.api_key af))]) /\
   (cache_ok (useddata s) -> reuse_condition (useddata s) d = false ->
    let o := RejectEvalue.process_line E ar (Valid (JObj d)) s in
    (question <> "" /\ answer <> "" ->
     calls (final o) =
       calls s ++
       [(Some (JObj d),
         reject_request (reject_prompt question answer)
           (RejectEvalue.url ar) (RejectEvalue.api_key ar))]) /\
    (question = "" \/ answer = "" ->
     o = Normal tt (final o) /\ calls (final o) = calls s /\
     results (final o) = results s /\ files (final o) = files s))).
Proof.
  split; [apply (fact_check_calls E (JStr question) (JStr answer) url key s) |].
  split; [apply (reject_check_calls E (JStr question) (JStr answer) url key s) |].
  split; [reflexivity |]. split; [reflexivity |].
  intros Hid Hh Hq Ha. split.
  - intros Hc. unfold FactEvalue.process_line. rewrite try_except_report_calls.
    rewrite (fact_judge_record_miss E af d id _ _ s Hid Hh Hc Hq Ha). cbv zeta.
    set (s3 := with_answer _ _).
    destruct (fact_check_calls E (JStr question) (JStr answer)
                (FactEvalue.url af) (FactEvalue.api_key af) s3) as (Hcalls & _).
    destruct (FactEvalue.check E (JStr question) (JStr answer)
                (FactEvalue.url af) (FactEvalue.api_key af) s3) as [ev s4|e s4];
      cbn [final] in *; mstep; exact Hcalls.
  - intros Hok Hr o. split.
    + intros [Hq' Ha'].
      assert (Py.truthy (query_of d) && Py.truthy (prediction_of d) = true) as Ht.
      { unfold query_of, prediction_of. rewrite Hq, Ha. cbn [Py.truthy].
        apply String.eqb_neq in Hq', Ha'. rewrite Hq', Ha'. reflexivity. }
      pose proof (reject_process_line_judged E ar d id s Hok Hid Hh Hr Ht) as Hc.
      unfold query_of, prediction_of in Hc. rewrite Hq, Ha in Hc. exact Hc.
    + intros Hempty.
      assert (Py.truthy (query_of d) && Py.truthy (prediction_of d) = false) as Ht.
      { unfold query_of, prediction_of. rewrite Hq, Ha. cbn [Py.truthy].
        destruct Hempty as [-> | ->]; cbn; [reflexivity | apply andb_false_r]. }
      apply (reject_process_line_skipped E ar d id s Hok Hid Hh Hr Ht).
Qed.

Lemma C9_prompt_builder_witness :
  calls (final (FactEvalue.process_line not_addressed_env FactEvalue.default_args
                  (Valid (JObj [("id", JStr "1"); ("query", JStr "Q1");
                                ("prediction", JStr "")])) (start ∅))) =
    [(Some (JObj [("id", JStr "1"); ("query", JStr "Q1"); ("prediction", JStr "")]),
      fact_request (fact_prompt "")
        (FactEvalue.url FactEvalue.default_args)
        (FactEvalue.api_key FactEvalue.default_args))].
Proof.
  destruct (C9_prompt_builder not_addressed_env FactEvalue.default_args
              RejectEvalue.default_args "Q1" "" "" ""
              [("id", JStr "1"); ("query", JStr "Q1"); ("prediction", JStr "")]
              (JStr "1") (start ∅)) as (_ & _ & _ & _ & H).
  destruct (H eq_refl eq_refl eq_refl eq_refl) as [Hfact _].
  exact (Hfact eq_refl).
Defined.

(** C9, as stated, fails on the code: [reject_evalue.py] does not
    send a record with an empty prediction to the judge.  The run on an
    input file whose only record has the prediction "" posts nothing
    and stores nothing. *)
Lemma C9_empty_prediction_not_sent :
  let o := RejectEvalue.main not_addressed_env RejectEvalue.default_args
             (start example_empty_prediction) in
  calls (final o) = [] /\ results (final o) = [] /\
  lines_of (final o)
    (RejectEvalue.outputfile not_addressed_env RejectEvalue.default_args) = [].
Proof. vm_compute. repeat split; reflexivity. Qed.

(** ** Runs that differ in their file names only *)

Section Simulation.

Variables n1 n2 : naming.
Hypothesis Hn1 : name_evalue n1 <> name_output n1.
Hypothesis Hn2 : name_evalue n2 <> name_output n2.

Lemma sim_ret {A} (x : A) : simulates n1 n2 (ret x) (ret x).
Proof. intros s1 s2 H. split; [reflexivity | exact H]. Qed.

Lemma sim_raise {A} (e : exn) : simulates n1 n2 (@raise A e) (raise e).
Proof. intros s1 s2 H. split; [reflexivity | exact H]. Qed.

Lemma sim_lift {A} (r : res A) : simulates n1 n2 (lift r) (lift r).
Proof. destruct r; [apply sim_ret | apply sim_raise]. Qed.

Lemma sim_bind {A B} (m1 m2 : M A) (k1 k2 : A -> M B) :
  simulates n1 n2 m1 m2 ->
  (forall x, simulates n1 n2 (k1 x) (k2 x)) ->
  simulates n1 n2 (bind m1 k1) (bind m2 k2).
Proof.
  intros Hm Hk s1 s2 H. unfold bind. specialize (Hm s1 s2 H).
  destruct (m1 s1) as [x s1'|e s1'], (m2 s2) as [y s2'|e' s2']; cbn in Hm;
    try contradiction.
  - destruct Hm as [-> Hs]. apply Hk, Hs.
  - exact Hm.
Qed.

Lemma sim_try_except {A} (m1 m2 : M A) (h1 h2 : exn -> M A) :
  simulates n1 n2 m1 m2 ->
  (forall e, simulates n1 n2 (h1 e) (h2 e)) ->
  simulates n1 n2 (try_except m1 h1) (try_except m2 h2).
Proof.
  intros Hm Hh s1 s2 H. unfold try_except. specialize (Hm s1 s2 H).
  destruct (m1 s1) as [x s1'|e s1'], (m2 s2) as [y s2'|e' s2']; cbn in Hm;
    try contradiction.
  - exact Hm.
  - destruct Hm as [<- Hs]. destruct e; try (apply Hh, Hs).
    split; [reflexivity | exact Hs].
Qed.

Lemma sim_for_each {A} (xs : list A) (b1 b2 : A -> M unit) :
  (forall x, simulates n1 n2 (b1 x) (b2 x)) ->
  simulates n1 n2 (for_each xs b1) (for_each xs b2).
Proof.
  intros Hb. induction xs as [|x xs IH]; cbn [for_each].
  - apply sim_ret.
  - apply sim_bind; [apply Hb | intros _; exact IH].
Qed.

Lemma sim_modify (f : state -> state) :
  (forall s1 s2, alike n1 n2 s1 s2 -> alike n1 n2 (f s1) (f s2)) ->
  simulates n1 n2 (modify f) (modify f).
Proof. intros Hf s1 s2 H. split; [reflexivity | apply Hf, H]. Qed.

Lemma sim_gets {A} (f : state -> A) :
  (forall s1 s2, alike n1 n2 s1 s2 -> f s1 = f s2) ->
  simulates n1 n2 (gets f) (gets f).
Proof. intros Hf s1 s2 H. split; [apply Hf, H | exact H]. Qed.

Lemma sim_print (d1 d2 : diag) : simulates n1 n2 (print d1) (print d2).
Proof. intros s1 s2 H. split; [reflexivity | exact H]. Qed.

Lemma sim_read_name_question :
  simulates n1 n2 (read_name question) (read_name question).
Proof.
  intros s1 s2 H. unfold read_name.
  pose proof H as (_ & _ & _ & _ & _ & _ & _ & H8 & _).
  pattern (question s1) at 1. rewrite H8.
  destruct (question s2); (split; [reflexivity | exact H]).
Qed.

Lemma sim_read_name_answer :
  simulates n1 n2 (read_name answer) (read_name answer).
Proof.
  intros s1 s2 H. unfold read_name.
  pose proof H as (_ & _ & _ & _ & _ & _ & _ & _ & H9 & _).
  pattern (answer s1) at 1. rewrite H9.
  destruct (answer s2); (split; [reflexivity | exact H]).
Qed.

Lemma sim_report_error (e : exn) :
  simulates n1 n2 (report_error e) (report_error e).
Proof.
  unfold report_error.
  apply sim_bind; [apply sim_print | intros _].
  apply sim_bind; [apply sim_read_name_question | intros q].
  apply sim_bind; [apply sim_read_name_answer | intros ans].
  apply sim_print.
Qed.

Lemma sim_exists_output :
  simulates n1 n2 (path_exists (name_output n1)) (path_exists (name_output n2)).
Proof.
  intros s1 s2 H. unfold path_exists. pose proof H as (_ & H2 & _).
  rewrite H2. split; [reflexivity | exact H].
Qed.

Lemma sim_exists_evalue :
  simulates n1 n2 (path_exists (name_evalue n1)) (path_exists (name_evalue n2)).
Proof.
  intros s1 s2 H. unfold path_exists. pose proof H as (H1 & _).
  rewrite H1. split; [reflexivity | exact H].
Qed.

Lemma sim_read_output :
  simulates n1 n2 (read_lines (name_output n1)) (read_lines (name_output n2)).
Proof.
  intros s1 s2 H. unfold read_lines. pose proof H as (_ & H2 & _).
  rewrite H2. split; [reflexivity | exact H].
Qed.

Lemma sim_read_evalue :
  simulates n1 n2 (read_lines (name_evalue n1)) (read_lines (name_evalue n2)).
Proof.
  intros s1 s2 H. unfold read_lines. pose proof H as (H1 & _).
  rewrite H1. split; [reflexivity | exact H].
Qed.

Lemma sim_open_w :
  simulates n1 n2 (open_w (name_output n1)) (open_w (name_output n2)).
Proof.
  intros s1 s2 (H1 & H2 & H3 & H4). split; [reflexivity |]. unfold alike. mstep.
  rewrite !lookup_insert_eq, !lookup_insert_ne by (apply not_eq_sym; assumption).
  repeat split; try assumption; apply H4.
Qed.

Lemma sim_write_line (v : json) :
  simulates n1 n2 (write_line (name_output n1) v) (write_line (name_output n2) v).
Proof.
  intros s1 s2 (H1 & H2 & H3 & H4). split; [reflexivity |]. unfold alike. mstep.
  rewrite !lookup_insert_eq, !lookup_insert_ne by (apply not_eq_sym; assumption).
  rewrite H2. repeat split; try assumption; apply H4.
Qed.

Lemma sim_requests_post (E : env) (r : request) :
  simulates n1 n2 (requests_post E r) (requests_post E r).
Proof.
  intros s1 s2 (H1 & H2 & H3 & H4 & H5 & H6 & H7 & H8). unfold requests_post.
  rewrite H4, H7. split; [reflexivity |]. unfold alike. mstep.
  repeat split; try assumption; apply H8.
Qed.

Lemma sim_dump (p q : list (string * pynum)) :
  (forall k, k <> "noise_rate" -> score_of k p = score_of k q) ->
  simulates n1 n2 (dump p (name_result n1)) (dump q (name_result n2)).
Proof.
  intros Hpq s1 s2 (H1 & H2 & H3 & H4). split; [reflexivity |]. unfold alike. mstep.
  rewrite !lookup_insert_eq. repeat split; try assumption; apply H4.
Qed.

Lemma sim_cache_mem (k : json) : simulates n1 n2 (Cache.mem k) (Cache.mem k).
Proof.
  unfold Cache.mem. destruct (Py.hashable k); [| apply sim_raise].
  apply sim_gets. intros s1 s2 H. destruct H as (_&_&_&_&_&->&_). reflexivity.
Qed.

Lemma sim_cache_lookup (k : json) : simulates n1 n2 (Cache.lookup k) (Cache.lookup k).
Proof.
  unfold Cache.lookup. destruct (Py.hashable k); [| apply sim_raise].
  apply sim_bind.
  - apply sim_gets. intros s1 s2 H. destruct H as (_&_&_&_&_&->&_). reflexivity.
  - intros u. destruct (Cache.get k u); [apply sim_ret | apply sim_raise].
Qed.

(** The assignments to the variables keep two states alike. *)
Ltac alike_assign :=
  let H := fresh "H" in
  intros ? ? H; destruct H as (?&?&?&?&?&?&?&?&?&?); unfold alike; mstep;
  repeat split; try assumption; try congruence.

Lemma sim_cache_store (k v : json) : simulates n1 n2 (Cache.store k v) (Cache.store k v).
Proof.
  unfold Cache.store. destruct (Py.hashable k); [| apply sim_raise].
  apply sim_modify. alike_assign.
Qed.

(** Steps through two statements of the same shape. *)
Ltac sim_step :=
  repeat match goal with
  | |- simulates _ _ (bind _ _) (bind _ _) => apply sim_bind; [| intros ?]
  | |- simulates _ _ (ret _) (ret _) => apply sim_ret
  | |- simulates _ _ (raise _) (raise _) => apply sim_raise
  | |- simulates _ _ (lift _) (lift _) => apply sim_lift
  | |- simulates _ _ (print _) (print _) => apply sim_print
  | |- simulates _ _ (modify _) (modify _) => apply sim_modify; alike_assign
  | |- simulates _ _ (Cache.mem _) (Cache.mem _) => apply sim_cache_mem
  | |- simulates _ _ (Cache.lookup _) (Cache.lookup _) => apply sim_cache_lookup
  | |- simulates _ _ (Cache.store _ _) (Cache.store _ _) => apply sim_cache_store
  | |- simulates _ _ (requests_post _ _) (requests_post _ _) => apply sim_requests_post
  | |- simulates _ _ (report_error _) (report_error _) => apply sim_report_error
  | |- simulates _ _ (write_line _ _) (write_line _ _) => apply sim_write_line
  | |- simulates _ _ (open_w _) (open_w _) => apply sim_open_w
  | |- simulates _ _ (path_exists (name_output _)) _ => apply sim_exists_output
  | |- simulates _ _ (path_exists (name_evalue _)) _ => apply sim_exists_evalue
  | |- simulates _ _ (read_lines (name_output _)) _ => apply sim_read_output
  | |- simulates _ _ (read_lines (name_evalue _)) _ => apply sim_read_evalue
  | |- simulates _ _ (if ?b then _ else _) (if ?b then _ else _) => destruct b
  | |- simulates _ _ (match ?x with _ => _ end) (match ?x with _ => _ end) =>
      destruct x
  end.

Variable E : env.
Variables a1 a2 : FactEvalue.args.
Hypothesis Hnames1 : n1 = fact_naming E a1.
Hypothesis Hnames2 : n2 = fact_naming E a2.
Hypothesis Hurl : FactEvalue.url a1 = FactEvalue.url a2.
Hypothesis Hkey : FactEvalue.api_key a1 = FactEvalue.api_key a2.

Lemma sim_fact_getdata (text url key : string) :
  simulates n1 n2 (FactEvalue.getdata E text url key) (FactEvalue.getdata E text url key).
Proof. unfold FactEvalue.getdata. sim_step. Qed.

Lemma sim_fact_check (q ans : json) (url key : string) :
  simulates n1 n2 (FactEvalue.check E q ans url key) (FactEvalue.check E q ans url key).
Proof. unfold FactEvalue.check. sim_step. apply sim_fact_getdata. Qed.

Lemma sim_fact_load_line (l : line) :
  simulates n1 n2 (FactEvalue.load_line (FactEvalue.outputfile E a1) l)
    (FactEvalue.load_line (FactEvalue.outputfile E a2) l).
Proof. unfold FactEvalue.load_line. destruct l; sim_step. Qed.

Lemma sim_fact_judge_record (v : json) :
  simulates n1 n2 (FactEvalue.judge_record E a1 v) (FactEvalue.judge_record E a2 v).
Proof.
  unfold FactEvalue.judge_record. rewrite <- Hurl, <- Hkey.
  change (FactEvalue.outputfile E a1) with (name_output (fact_naming E a1)).
  change (FactEvalue.outputfile E a2) with (name_output (fact_naming E a2)).
  rewrite <- Hnames1, <- Hnames2.
  sim_step. apply sim_fact_check.
Qed.

Lemma sim_fact_process_line (l : line) :
  simulates n1 n2 (FactEvalue.process_line E a1 l) (FactEvalue.process_line E a2 l).
Proof.
  unfold FactEvalue.process_line. destruct l; [apply sim_print |].
  apply sim_try_except; [apply sim_fact_judge_record | apply sim_report_error].
Qed.

Lemma sim_fact_load_cache :
  simulates n1 n2 (FactEvalue.load_cache E a1) (FactEvalue.load_cache E a2).
Proof.
  unfold FactEvalue.load_cache.
  change (FactEvalue.outputfile E a1) with (name_output (fact_naming E a1)) at 1 2.
  change (FactEvalue.outputfile E a2) with (name_output (fact_naming E a2)) at 1 2.
  rewrite <- Hnames1, <- Hnames2. sim_step.
  apply sim_for_each. apply sim_fact_load_line.
Qed.

Lemma sim_fact_judge :
  simulates n1 n2 (FactEvalue.judge E a1) (FactEvalue.judge E a2).
Proof.
  unfold FactEvalue.judge.
  change (FactEvalue.outputfile E a1) with (name_output (fact_naming E a1)).
  change (FactEvalue.outputfile E a2) with (name_output (fact_naming E a2)).
  change (FactEvalue.evaluefile E a1) with (name_evalue (fact_naming E a1)) at 1 3.
  change (FactEvalue.evaluefile E a2) with (name_evalue (fact_naming E a2)) at 1 3.
  rewrite <- Hnames1, <- Hnames2. sim_step.
  apply sim_for_each. apply sim_fact_process_line.
Qed.

Lemma sim_fact_score :
  simulates n1 n2 (FactEvalue.score E a1) (FactEvalue.score E a2).
Proof.
  unfold FactEvalue.score.
  apply sim_bind.
  { apply sim_gets. intros s1 s2 H. destruct H as (_&_&_&_&->&_). reflexivity. }
  intros r. sim_step.
  change (FactEvalue.resultfile E a1) with (name_result (fact_naming E a1)).
  change (FactEvalue.resultfile E a2) with (name_result (fact_naming E a2)).
  rewrite <- Hnames1, <- Hnames2. apply sim_dump.
  intros k Hk. cbn [score_of].
  repeat (destruct (String.eqb k _) eqn:?; [reflexivity |]).
  destruct (String.eqb k "noise_rate") eqn:Hn; [| reflexivity].
  apply String.eqb_eq in Hn. contradiction.
Qed.

Lemma sim_fact_main :
  simulates n1 n2 (FactEvalue.main E a1) (FactEvalue.main E a2).
Proof.
  unfold FactEvalue.main. sim_step.
  - apply sim_fact_load_cache.
  - apply sim_fact_judge.
  - apply sim_fact_score.
Qed.

End Simulation.

(** C8, as the code has it.  The request of [fact_evalue.py] carries
    the temperature 0.7, a constant: it also carries the fixed model
    name and the prompt as its only message, and of the command line
    only the URL and the key reach it.  The other options name the
    files and nothing more: two runs whose arguments agree on the URL
    and the key, on files that hold the same lines under the names the
    respective arguments give them, end the same way, issue the same
    POSTs, hold the same results and leave the same lines in their
    output files and the same scores in their result files, the copy of
    [noise_rate] apart. *)
Theorem C8_parameters (E : env) (a1 a2 : FactEvalue.args) (text : string)
    (s1 s2 : state) :
  (exists r,
      calls (final (FactEvalue.getdata E text (FactEvalue.url a1)
                      (FactEvalue.api_key a1) s1))
        = calls s1 ++ [(data s1, r)] /\
      req_temperature r = Some (Qmake 7 10) /\
      req_model r = "llama-3.3-70b-versatile" /\
      req_messages r = [("user", text)] /\
      req_url r = FactEvalue.url a1 /\
      req_authorization r = "Bearer " +:+ FactEvalue.api_key a1) /\
  (FactEvalue.url a1 = FactEvalue.url a2 ->
   FactEvalue.api_key a1 = FactEvalue.api_key a2 ->
   alike (fact_naming E a1) (fact_naming E a2) s1 s2 ->
   alike_outcome (fact_naming E a1) (fact_naming E a2)
     (FactEvalue.main E a1 s1) (FactEvalue.main E a2 s2)).
Proof.
  split.
  - eexists. split; [apply fact_getdata_calls |]. repeat split.
  - intros Hurl Hkey Hs.
    apply (sim_fact_main (fact_naming E a1) (fact_naming E a2)
             (fact_evaluefile_outputfile E a1) (fact_evaluefile_outputfile E a2)
             E a1 a2 eq_refl eq_refl Hurl Hkey s1 s2 Hs).
Qed.

Lemma C8_parameters_witness :
  alike_outcome (fact_naming not_addressed_env FactEvalue.default_args)
    (fact_naming not_addressed_env other_args)
    (FactEvalue.main not_addressed_env FactEvalue.default_args
       (start (example_fact_input FactEvalue.default_args)))
    (FactEvalue.main not_addressed_env other_args
       (start (example_fact_input other_args))).
Proof.
  apply (C8_parameters not_addressed_env FactEvalue.default_args other_args ""
           (start (example_fact_input FactEvalue.default_args))
           (start (example_fact_input other_args))).
  - reflexivity.
  - reflexivity.
  - unfold alike. repeat split; vm_compute; reflexivity.
Defined.

(** C8, as stated, fails on the code: the temperature of the command
    line is not forwarded to the request.  With the default arguments,
    whose temperature is 0.2, the request of the run carries 0.7. *)
Lemma C8_temperature_not_forwarded :
  exists v r,
    calls (final (FactEvalue.main not_addressed_env FactEvalue.default_args
                    (start (example_fact_input FactEvalue.default_args))))
      = [(Some v, r)] /\
    req_temperature r = Some (Qmake 7 10) /\
    ~ (Qmake 7 10 == FactEvalue.temp FactEvalue.default_args)%Q.
Proof.
  eexists _, _. split; [vm_compute; reflexivity |]. split; [reflexivity |].
  intros H. vm_compute in H. discriminate.
Qed.

(** ** Keys of the cache *)

(** On the values that can be keys, [==] is an equivalence. *)
Lemma eq_hashable_refl (k : json) : Py.hashable k = true -> Py.eq k k = true.
Proof.
  destruct k; cbn; try discriminate; intros _.
  - reflexivity.
  - apply Bool.eqb_reflx.
  - apply Z.eqb_refl.
  - apply String.eqb_refl.
Qed.

Lemma eq_hashable_sym (a b : json) :
  Py.hashable a = true -> Py.hashable b = true -> Py.eq a b = Py.eq b a.
Proof.
  destruct a, b; cbn; try discriminate; intros _ _; try reflexivity.
  - destruct b, b0; reflexivity.
  - apply Z.eqb_sym.
  - apply String.eqb_sym.
Qed.

Lemma eq_hashable_trans (a b c : json) :
  Py.hashable a = true -> Py.hashable b = true -> Py.hashable c = true ->
  Py.eq a b = true -> Py.eq b c = true -> Py.eq a c = true.
Proof.
  destruct a, b, c; cbn; try discriminate; intros _ _ _;
    rewrite ?Z.eqb_eq, ?String.eqb_eq, ?Bool.eqb_true_iff;
    intros; subst; try reflexivity; try congruence;
    repeat match goal with b : bool |- _ => destruct b end;
    try reflexivity; try discriminate; try lia.
Qed.

(** Two equal keys find the same entries. *)
Lemma eq_hashable_right (k a b : json) :
  Py.hashable k = true -> Py.hashable a = true -> Py.hashable b = true ->
  Py.eq a b = true -> Py.eq k a = Py.eq k b.
Proof.
  intros Hk Ha Hb Hab.
  destruct (Py.eq k a) eqn:Hka, (Py.eq k b) eqn:Hkb; try reflexivity.
  - rewrite <- Hkb. symmetry. apply (eq_hashable_trans k a b); assumption.
  - rewrite <- Hka. apply (eq_hashable_trans k b a); try assumption.
    rewrite eq_hashable_sym; assumption.
Qed.

Lemma cache_get_set (u : list (json * json)) (k k' v : json) :
  Forall (fun kv => Py.hashable (fst kv) = true) u ->
  Py.hashable k = true -> Py.hashable k' = true ->
  Cache.get k (Cache.set k' v u) = if Py.eq k k' then Some v else Cache.get k u.
Proof.
  intros Hu Hk Hk'. induction Hu as [|[k0 v0] u Hk0 _ IH]; cbn in *.
  - reflexivity.
  - destruct (Py.eq k' k0) eqn:H0; cbn.
    + rewrite (eq_hashable_right k k' k0 Hk Hk' Hk0 H0).
      destruct (Py.eq k k0); reflexivity.
    + rewrite IH. destruct (Py.eq k k0) eqn:Hkk0; [| reflexivity].
      destruct (Py.eq k k') eqn:Hkk'; [| reflexivity].
      assert (Py.eq k' k0 = true) as Habs; [| congruence].
      apply (eq_hashable_trans k' k k0); try assumption.
      rewrite eq_hashable_sym; assumption.
Qed.

Lemma cache_ok_set (u : list (json * json)) (c : dict) (id : json) :
  cache_ok u ->
  Py.dict_get "id" c = Some id -> Py.hashable id = true ->
  cache_ok (Cache.set id (JObj c) u).
Proof.
  intros Hu Hid Hh. induction Hu as [|[k0 v0] u (Hk0 & Hv0) Hu' IH]; cbn in *.
  - repeat constructor; [exact Hh |]. exists c, id. cbn [fst snd].
    split; [reflexivity |]. split; [exact Hid |]. split; [exact Hh |].
    apply eq_hashable_refl, Hh.
  - destruct (Py.eq id k0) eqn:H0.
    + constructor; [| exact Hu']. split; [exact Hk0 |].
      exists c, id. cbn [fst snd]. split; [reflexivity |].
      split; [exact Hid |]. split; [exact Hh | exact H0].
    + constructor; [| exact IH]. split; assumption.
Qed.

Lemma cache_ok_hashable (u : list (json * json)) :
  cache_ok u -> Forall (fun kv => Py.hashable (fst kv) = true) u.
Proof.
  intros Hu. eapply Forall_impl; [exact Hu |]. intros kv [H _]. exact H.
Qed.

Lemma rec_id_getitem (v id : json) :
  rec_id v = Some id <->
  Py.getitem v (JStr "id") = Ok id /\ Py.hashable id = true.
Proof.
  unfold rec_id. destruct (Py.getitem v (JStr "id")) as [x|e].
  - destruct (Py.hashable x) eqn:Hx; split.
    + intros H. injection H as <-. split; [reflexivity | exact Hx].
    + intros [H _]. injection H as <-. reflexivity.
    + discriminate.
    + intros [H Hh]. injection H as <-. congruence.
  - split; [discriminate | intros [H _]; discriminate].
Qed.

(** What one turn of the loading loop does. *)
Lemma load_line_spec (out : string) (l : line) (s s' : state) :
  FactEvalue.load_line out l s = Normal tt s' ->
  cache_ok (useddata s) ->
  cache_ok (useddata s') /\
  forall k, Py.hashable k = true ->
    find_last_from k (Cache.get k (useddata s)) [l] = Cache.get k (useddata s').
Proof.
  destruct l as [raw|v].
  - cbn. intros H Hok. injection H as <-. split; [exact Hok | reflexivity].
  - unfold FactEvalue.load_line. mstep.
    destruct (Py.getitem v (JStr "id")) as [id|e] eqn:Hid; [| discriminate].
    mstep. destruct (Py.hashable id) eqn:Hh; [| discriminate].
    intros H Hok. injection H as <-. mstep.
    destruct (getitem_str_dict v "id" id Hid) as (c & -> & Hc).
    split; [apply cache_ok_set; assumption |].
    intros k Hk. cbn [find_last_from]. unfold rec_id. rewrite Hid, Hh.
    rewrite cache_get_set by (try assumption; apply cache_ok_hashable, Hok).
    reflexivity.
Qed.

Lemma find_last_from_app (k : json) (acc : option json) (ls1 ls2 : list line) :
  find_last_from k acc (ls1 ++ ls2) = find_last_from k (find_last_from k acc ls1) ls2.
Proof.
  revert acc. induction ls1 as [|[raw|v] ls1 IH]; intros acc; cbn; try apply IH.
  - reflexivity.
  - destruct (rec_id v); apply IH.
Qed.

Lemma load_spec (out : string) (ls : list line) (s s' : state) :
  for_each ls (FactEvalue.load_line out) s = Normal tt s' ->
  cache_ok (useddata s) ->
  cache_ok (useddata s') /\
  forall k, Py.hashable k = true ->
    Cache.get k (useddata s') = find_last_from k (Cache.get k (useddata s)) ls.
Proof.
  revert s. induction ls as [|l ls IH]; intros s Hrun Hok.
  - cbn in Hrun. injection Hrun as <-. split; [exact Hok | reflexivity].
  - cbn [for_each] in Hrun. unfold bind in Hrun.
    destruct (FactEvalue.load_line out l s) as [[] s1|e s1] eqn:Hl; [| discriminate].
    destruct (load_line_spec out l s s1 Hl Hok) as [Hok1 Hget1].
    destruct (IH s1 Hrun Hok1) as [Hok' Hget']. split; [exact Hok' |].
    intros k Hk. rewrite (Hget' k Hk), <- (Hget1 k Hk).
    change (l :: ls) with ([l] ++ ls). rewrite find_last_from_app. reflexivity.
Qed.

(** ** The resume cache of fact_evalue.py *)

Lemma find_last_from_Some (k x : json) (ls : list line) :
  find_last_from k (Some x) ls <> None.
Proof.
  revert x. induction ls as [|[raw|v] ls IH]; intros x; cbn.
  - discriminate.
  - apply IH.
  - destruct (rec_id v); [| apply IH]. destruct (Py.eq k j); apply IH.
Qed.







Lemma fact_load_cache_get (E : env) (a : FactEvalue.args) (s s1 : state) :
  FactEvalue.load_cache E a s = Normal tt s1 ->
  useddata s = [] ->
  same_world s s1 /\
  forallb loadable (lines_of s (FactEvalue.outputfile E a)) = true /\
  cache_ok (useddata s1) /\
  forall k, Py.hashable k = true ->
    Cache.get k (useddata s1) =
      find_last_from k None (lines_of s (FactEvalue.outputfile E a)).
Proof.
  intros Hrun Hu.
  destruct (fact_load_cache_spec E a s) as (Hw & _ & Hko).
  rewrite Hrun in Hw, Hko. cbn [final] in Hw. split; [exact Hw |].
  assert (forallb loadable (lines_of s (FactEvalue.outputfile E a)) = true) as Hl.
  { destruct (forallb loadable _) eqn:Hl; [reflexivity |].
    destruct (Hko eq_refl) as (e & s' & Habs). discriminate. }
  split; [exact Hl |].
  revert Hrun. unfold FactEvalue.load_cache, lines_of. mstep.
  destruct (files s !! FactEvalue.outputfile E a) as [ls|] eqn:Hout.
  - intros Hrun. rewrite Hout in Hrun.
    assert (cache_ok (useddata s)) as Hok by (rewrite Hu; constructor).
    destruct (load_spec _ ls s s1 Hrun Hok) as [Hok1 Hget]. split; [exact Hok1 |].
    intros k Hk. rewrite (Hget k Hk), Hu. reflexivity.
  - intros Hrun. injection Hrun as <-. rewrite Hu. split; [constructor | reflexivity].
Qed.



(** ** Equality of parsed values *)

Lemma dict_get_In (d : dict) (k : string) (x : json) :
  Py.dict_get k d = Some x -> In (k, x) d.
Proof.
  induction d as [|[k0 x0] d IH]; cbn; [discriminate |].
  destruct (String.eqb k k0) eqn:Hk.
  - apply String.eqb_eq in Hk. intros H. injection H as <-. left. congruence.
  - intros H. right. apply IH, H.
Qed.

Lemma In_dict_get (d : dict) (k : string) (x : json) :
  In (k, x) d -> Py.dict_get k d <> None.
Proof.
  induction d as [|[k0 x0] d IH]; cbn; [intros [] |].
  intros [H | H].
  - injection H as -> ->. rewrite String.eqb_refl. discriminate.
  - destruct (String.eqb k k0); [discriminate | apply IH, H].
Qed.

(** In an object without repeated keys every entry is the one its
    key finds. *)
Lemma wf_dict_get (d : dict) (k : string) (x : json) :
  wf (JObj d) = true -> In (k, x) d -> Py.dict_get k d = Some x /\ wf x = true.
Proof.
  induction d as [|[k0 x0] d IH]; [intros _ [] |].
  cbn [wf]. rewrite !andb_true_iff. intros [[Hk0 Hx0] Hd] Hin.
  cbn [Py.dict_get]. destruct Hin as [H | H].
  - injection H as -> ->. rewrite String.eqb_refl. split; [reflexivity | exact Hx0].
  - destruct (String.eqb k k0) eqn:Hk.
    + apply String.eqb_eq in Hk. subst k0.
      apply In_dict_get in H. destruct (Py.dict_get k d); [discriminate | contradiction].
    + apply IH; assumption.
Qed.

(** [==] holds between a parsed value and itself. *)
Lemma eq_wf_refl (v : json) : wf v = true -> Py.eq v v = true.
Proof.
  induction v as [|b|z|s|l IH|d IH] using json_induction; intros Hwf.
  - reflexivity.
  - apply Bool.eqb_reflx.
  - apply Z.eqb_refl.
  - apply String.eqb_refl.
  - cbn [Py.eq]. cbn [wf] in Hwf. induction IH as [|x l Hx _ IHl]; [reflexivity |].
    cbn [forallb] in Hwf. apply andb_true_iff in Hwf as [Hwx Hwl].
    rewrite (Hx Hwx). apply IHl, Hwl.
  - cbn [Py.eq]. rewrite Nat.eqb_refl. cbn [andb].
    match goal with |- ?f d = true =>
      assert (forall d', (forall k x, In (k, x) d' -> In (k, x) d) -> f d' = true) as Hgo
    end.
    { induction d' as [|[k x] d' IHd']; intros Hsub; [reflexivity |].
      destruct (wf_dict_get d k x Hwf (Hsub k x (or_introl eq_refl))) as [Hget Hwx].
      rewrite Hget.
      rewrite Forall_forall in IH.
      pose proof (IH (k, x) (proj2 (list_elem_of_In _ _) (Hsub k x (or_introl eq_refl))) Hwx)
        as Hxx.
      cbn [snd] in Hxx. rewrite Hxx. cbn [andb].
      apply IHd'. intros k' x' H. apply Hsub. right. exact H. }
    apply Hgo. intros k x H. exact H.
Qed.

(** ** The resume cache of reject_evalue.py *)

Lemma cache_ok_get_id (u : list (json * json)) (k v : json) :
  cache_ok u -> Py.hashable k = true -> Cache.get k u = Some v ->
  exists c id,
    v = JObj c /\ Py.dict_get "id" c = Some id /\ Py.hashable id = true /\
    Py.eq k id = true.
Proof.
  intros Hu Hk.
  induction Hu as [|[k' v'] u (Hk' & c & id & Hv & Hid & Hh & He) _ IH]; cbn;
    [discriminate |].
  cbn [fst snd] in *. destruct (Py.eq k k') eqn:Hkk'; [| exact IH].
  intros H. injection H as <-. exists c, id. repeat split; try assumption.
  apply (eq_hashable_trans k k' id); try assumption.
  rewrite eq_hashable_sym; assumption.
Qed.

Lemma reject_reusable_no_id (v : json) (e : exn) (s : state) :
  Py.getitem v (JStr "id") = Raise e -> RejectEvalue.reusable v s = Raised e s.
Proof. intros H. unfold RejectEvalue.reusable. mstep. rewrite H. reflexivity. Qed.

Lemma reject_reusable_unhashable (v id : json) (s : state) :
  Py.getitem v (JStr "id") = Ok id -> Py.hashable id = false ->
  RejectEvalue.reusable v s = Raised TypeError s.
Proof.
  intros H Hh. unfold RejectEvalue.reusable. mstep. rewrite H. mstep. rewrite Hh.
  reflexivity.
Qed.

Lemma reuse_condition_accepts (u : list (json * json)) (d : dict) (id : json) :
  Py.dict_get "id" d = Some id ->
  reuse_condition u d = true ->
  exists c, Cache.get id u = Some (JObj c) /\ accepts d c = true.
Proof.
  intros Hid. unfold reuse_condition, accepts. rewrite Hid.
  destruct (Cache.get id u) as [[| | | | |c]|]; try discriminate.
  intros H. exists c. split; [reflexivity | exact H].
Qed.

Lemma dict_get_set_other (d : dict) (k k' : string) (x : json) :
  String.eqb k k' = false ->
  Py.dict_get k (Py.dict_set k' x d) = Py.dict_get k d.
Proof.
  intros Hk. induction d as [|[k0 x0] d IH]; cbn.
  - rewrite Hk. reflexivity.
  - destruct (String.eqb k' k0) eqn:H0; cbn.
    + apply String.eqb_eq in H0. subst k0. rewrite Hk. reflexivity.
    + destruct (String.eqb k k0); [reflexivity | exact IH].
Qed.

Lemma dict_get_set_same (d : dict) (k : string) (x : json) :
  Py.dict_get k (Py.dict_set k x d) = Some x.
Proof.
  induction d as [|[k0 x0] d IH]; cbn.
  - rewrite String.eqb_refl. reflexivity.
  - destruct (String.eqb k k0) eqn:H0; cbn; rewrite H0; [reflexivity | exact IH].
Qed.

(** The record that a fresh judgment is stored in passes for the
    record it was made for. *)
Lemma written_for_judged (d : dict) (id evaluation : json) :
  wf (JObj d) = true ->
  Py.dict_get "id" d = Some id -> Py.hashable id = true ->
  written_for (Valid (JObj d)) (JObj (Py.dict_set "evaluation" evaluation d)).
Proof.
  intros Hwf Hid Hh. exists d, (Py.dict_set "evaluation" evaluation d).
  split; [reflexivity |]. split; [reflexivity |]. split.
  - unfold same_id, rec_id. cbn [Py.getitem].
    rewrite dict_get_set_other by reflexivity. rewrite Hid, Hh.
    apply eq_hashable_refl, Hh.
  - unfold accepts, field. rewrite !dict_get_set_other by reflexivity.
    rewrite dict_get_set_same.
    assert (forall k, Py.eq match Py.dict_get k d with Some x => x | None => JNull end
                            match Py.dict_get k d with Some x => x | None => JNull end
                      = true) as Hrefl.
    { intros k. apply eq_wf_refl. destruct (Py.dict_get k d) as [x|] eqn:Hk; [| reflexivity].
      apply (wf_dict_get d k x Hwf), dict_get_In, Hk. }
    rewrite !Hrefl. reflexivity.
Qed.

Lemma written_for_reused (u : list (json * json)) (d : dict) (id cached : json) :
  cache_ok u ->
  Py.dict_get "id" d = Some id -> Py.hashable id = true ->
  reuse_condition u d = true ->
  Cache.get id u = Some cached ->
  written_for (Valid (JObj d)) cached.
Proof.
  intros Hok Hid Hh Hr Hc.
  destruct (reuse_condition_accepts u d id Hid Hr) as (c & Hc' & Hacc).
  rewrite Hc in Hc'. injection Hc' as ->.
  destruct (cache_ok_get_id u id (JObj c) Hok Hh Hc) as (c' & id' & Heq & Hid' & Hh' & He).
  injection Heq as <-.
  exists d, c. split; [reflexivity |]. split; [reflexivity |]. split; [| exact Hacc].
  unfold same_id, rec_id. cbn [Py.getitem]. rewrite Hid, Hh, Hid', Hh'. exact He.
Qed.

Lemma reject_judge_record_raises (E : env) (a : RejectEvalue.args) (v : json) (e : exn)
    (s : state) :
  RejectEvalue.reusable v (with_data (Some v) s) = Raised e (with_data (Some v) s) ->
  RejectEvalue.judge_record E a v s = Raised e (with_data (Some v) s).
Proof.
  intros H. unfold RejectEvalue.judge_record. unfold bind at 1, modify at 1.
  unfold bind at 1. rewrite H. reflexivity.
Qed.

(** What the statements under [try] do in [reject_evalue.py]: they
    leave the cache as it is, write at most one line to the output
    file, a record that passes for the input record, and post at most
    once, for a record that fails the reuse test. *)
Lemma reject_judge_record_spec (E : env) (a : RejectEvalue.args) (v : json) (s : state) :
  cache_ok (useddata s) -> wf v = true ->
  let o := RejectEvalue.judge_record E a v s in
  useddata (final o) = useddata s /\
  (forall p, p <> RejectEvalue.outputfile E a -> files (final o) !! p = files s !! p) /\
  (exists W,
      lines_of (final o) (RejectEvalue.outputfile E a) =
        lines_of s (RejectEvalue.outputfile E a) ++ map Valid W /\
      Forall (written_for (Valid v)) W) /\
  (calls (final o) = calls s \/
   exists d id r,
     v = JObj d /\ Py.dict_get "id" d = Some id /\ Py.hashable id = true /\
     reuse_condition (useddata s) d = false /\
     calls (final o) = calls s ++ [(Some v, r)]).
Proof.
  intros Hok Hwf.
  assert (forall o : outcome unit,
             useddata (final o) = useddata s -> files (final o) = files s ->
             calls (final o) = calls s ->
             useddata (final o) = useddata s /\
             (forall p, p <> RejectEvalue.outputfile E a ->
                        files (final o) !! p = files s !! p) /\
             (exists W,
                 lines_of (final o) (RejectEvalue.outputfile E a) =
                   lines_of s (RejectEvalue.outputfile E a) ++ map Valid W /\
                 Forall (written_for (Valid v)) W) /\
             (calls (final o) = calls s \/
              exists d id r,
                v = JObj d /\ Py.dict_get "id" d = Some id /\ Py.hashable id = true /\
                reuse_condition (useddata s) d = false /\
                calls (final o) = calls s ++ [(Some v, r)])) as Hnothing.
  { intros o Hu Hf Hc. split; [exact Hu |]. split; [intros p _; rewrite Hf; reflexivity |].
    split; [| left; exact Hc].
    exists []. split; [| constructor]. unfold lines_of. rewrite Hf. cbn [map].
    symmetry. apply app_nil_r. }
  destruct (Py.getitem v (JStr "id")) as [id|e] eqn:Hid.
  2: { cbv zeta.
       rewrite (reject_judge_record_raises E a v e s (reject_reusable_no_id v e _ Hid)).
       apply Hnothing; reflexivity. }
  destruct (Py.hashable id) eqn:Hh.
  2: { cbv zeta.
       rewrite (reject_judge_record_raises E a v TypeError s
                  (reject_reusable_unhashable v id _ Hid Hh)).
       apply Hnothing; reflexivity. }
  destruct (getitem_str_dict v "id" id Hid) as (d & -> & Hd).
  destruct (reuse_condition (useddata s) d) eqn:Hr.
  - destruct (reuse_condition_accepts _ d id Hd Hr) as (c & Hc & _).
    cbv zeta.
    rewrite (reject_judge_record_reuse E a d id (JObj c) s Hok Hd Hh Hr Hc).
    cbn [final]. mstep. split; [reflexivity |]. split.
    { intros p Hp. apply lookup_insert_ne. congruence. }
    split; [| left; reflexivity].
    exists [JObj c]. split.
    + unfold lines_of at 1. mstep. rewrite lookup_insert_eq. reflexivity.
    + repeat constructor. apply (written_for_reused _ d id (JObj c) Hok Hd Hh Hr Hc).
  - destruct (Py.truthy (query_of d) && Py.truthy (prediction_of d)) eqn:Ht.
    + cbv zeta. rewrite (reject_judge_record_judge E a d id s Hok Hd Hh Hr Ht). cbv zeta.
      fold (query_of d) (prediction_of d). set (s3 := with_answer _ _).
      destruct (reject_check_calls E (query_of d) (prediction_of d)
                  (RejectEvalue.url a) (RejectEvalue.api_key a) s3)
        as (Hcalls & Hfiles & _ & _ & Hused & _).
      destruct (RejectEvalue.check E (query_of d) (prediction_of d)
                  (RejectEvalue.url a) (RejectEvalue.api_key a) s3) as [ev s4|e s4];
        cbn [final] in *; mstep.
      * split; [exact Hused |]. split.
        { intros p Hp. rewrite lookup_insert_ne by congruence. rewrite Hfiles.
          reflexivity. }
        split.
        { exists [JObj (Py.dict_set "evaluation" ev d)]. split.
          - unfold lines_of. mstep. rewrite lookup_insert_eq, Hfiles. reflexivity.
          - repeat constructor. apply (written_for_judged d id ev Hwf Hd Hh). }
        right. exists d, id. eexists. repeat split; try assumption. exact Hcalls.
      * split; [exact Hused |]. split; [intros p _; rewrite Hfiles; reflexivity |].
        split.
        { exists []. split; [| constructor]. unfold lines_of. rewrite Hfiles.
          symmetry. apply app_nil_r. }
        right. exists d, id. eexists. repeat split; try assumption. exact Hcalls.
    + cbv zeta. rewrite (reject_judge_record_skip E a d id s Hok Hd Hh Hr Ht).
      apply Hnothing; reflexivity.
Qed.

Lemma reject_process_line_spec (E : env) (a : RejectEvalue.args) (l : line) (s : state) :
  cache_ok (useddata s) -> wf_line l = true ->
  let o := RejectEvalue.process_line E a l s in
  useddata (final o) = useddata s /\
  (forall p, p <> RejectEvalue.outputfile E a -> files (final o) !! p = files s !! p) /\
  (exists W,
      lines_of (final o) (RejectEvalue.outputfile E a) =
        lines_of s (RejectEvalue.outputfile E a) ++ map Valid W /\
      Forall (written_for l) W) /\
  (exists new,
      calls (final o) = calls s ++ new /\ Forall (rejudged (useddata s) [l]) new).
Proof.
  intros Hok Hwf. destruct l as [raw|v].
  { cbn. split; [reflexivity |]. split; [reflexivity |]. split.
    - exists []. split; [symmetry; apply app_nil_r | constructor].
    - exists []. split; [symmetry; apply app_nil_r | constructor]. }
  cbn [wf_line] in Hwf. cbv zeta. unfold RejectEvalue.process_line, try_except.
  destruct (reject_judge_record_spec E a v s Hok Hwf) as (Hu & Hf & HW & Hc).
  assert (exists new,
             calls (final (RejectEvalue.judge_record E a v s)) = calls s ++ new /\
             Forall (rejudged (useddata s) [Valid v]) new) as Hc'.
  { destruct Hc as [Hc | (d & id & r & -> & Hid & Hh & Hr & Hc)].
    - exists []. split; [rewrite Hc; symmetry; apply app_nil_r | constructor].
    - exists [(Some (JObj d), r)]. split; [exact Hc |]. repeat constructor.
      exists d, id. split; [reflexivity |]. split; [left; reflexivity |].
      repeat split; assumption. }
  clear Hc.
  destruct (RejectEvalue.judge_record E a v s) as [[] s1|e s1]; cbn [final] in *.
  - repeat split; assumption.
  - destruct (report_error_frame e s1) as (Hf' & _ & Hc'' & _ & Hu' & _).
    assert (forall o' : outcome unit,
               (o' = report_error e s1 \/ o' = Raised SystemExit s1) ->
               useddata (final o') = useddata s /\
               (forall p, p <> RejectEvalue.outputfile E a ->
                          files (final o') !! p = files s !! p) /\
               (exists W,
                   lines_of (final o') (RejectEvalue.outputfile E a) =
                     lines_of s (RejectEvalue.outputfile E a) ++ map Valid W /\
                   Forall (written_for (Valid v)) W) /\
               (exists new,
                   calls (final o') = calls s ++ new /\
                   Forall (rejudged (useddata s) [Valid v]) new)) as Hgen.
    { intros o' [-> | ->]; cbn [final].
      - unfold lines_of in *. rewrite Hu', Hf', Hc''. repeat split; assumption.
      - repeat split; assumption. }
    destruct e; apply Hgen; auto.
Qed.

Lemma rejudged_weaken (u : list (json * json)) (ls ls' : list line)
    (c : option json * request) :
  (forall l, In l ls -> In l ls') -> rejudged u ls c -> rejudged u ls' c.
Proof.
  intros Hsub (d & id & H1 & H2 & H3). exists d, id. split; [exact H1 |].
  split; [apply Hsub, H2 | exact H3].
Qed.

(** The judging loop of [reject_evalue.py]. *)
Lemma reject_loop_spec (E : env) (a : RejectEvalue.args) (ls : list line) (s : state) :
  cache_ok (useddata s) -> forallb wf_line ls = true ->
  let o := for_each ls (RejectEvalue.process_line E a) s in
  useddata (final o) = useddata s /\
  (forall p, p <> RejectEvalue.outputfile E a -> files (final o) !! p = files s !! p) /\
  (exists W,
      lines_of (final o) (RejectEvalue.outputfile E a) =
        lines_of s (RejectEvalue.outputfile E a) ++ map Valid W /\
      Forall (fun w => exists l, In l ls /\ written_for l w) W) /\
  (exists new,
      calls (final o) = calls s ++ new /\ Forall (rejudged (useddata s) ls) new).
Proof.
  revert s. induction ls as [|l ls IH]; intros s Hok Hwf; cbv zeta.
  - cbn. split; [reflexivity |]. split; [reflexivity |]. split.
    + exists []. split; [symmetry; apply app_nil_r | constructor].
    + exists []. split; [symmetry; apply app_nil_r | constructor].
  - cbn [forallb] in Hwf. apply andb_true_iff in Hwf as [Hwl Hwls].
    cbn [for_each]. unfold bind.
    destruct (reject_process_line_spec E a l s Hok Hwl)
      as (Hu & Hf & (W1 & HW1 & HF1) & (new1 & Hn1 & Hr1)).
    assert (Forall (fun w => exists l0, In l0 (l :: ls) /\ written_for l0 w) W1) as HF1'.
    { eapply Forall_impl; [exact HF1 |]. intros w Hw. exists l.
      split; [left; reflexivity | exact Hw]. }
    assert (Forall (rejudged (useddata s) (l :: ls)) new1) as Hr1'.
    { eapply Forall_impl; [exact Hr1 |]. intros c. apply rejudged_weaken.
      intros l0 [<- | []]. left. reflexivity. }
    destruct (RejectEvalue.process_line E a l s) as [[] s1|e s1]; cbn [final] in *.
    + assert (cache_ok (useddata s1)) as Hok1 by (rewrite Hu; exact Hok).
      destruct (IH s1 Hok1 Hwls) as (Hu' & Hf' & (W2 & HW2 & HF2) & (new2 & Hn2 & Hr2)).
      cbv zeta in *. split; [congruence |]. split.
      { intros p Hp. rewrite (Hf' p Hp). apply Hf, Hp. }
      split.
      * exists (W1 ++ W2). split.
        -- rewrite HW2, HW1, map_app. symmetry. apply app_assoc.
        -- apply Forall_app. split; [exact HF1' |].
           eapply Forall_impl; [exact HF2 |]. intros w (l0 & Hl0 & Hw).
           exists l0. split; [right; exact Hl0 | exact Hw].
      * exists (new1 ++ new2). split.
        -- rewrite Hn2, Hn1. symmetry. apply app_assoc.
        -- apply Forall_app. split; [exact Hr1' |]. rewrite Hu in Hr2.
           eapply Forall_impl; [exact Hr2 |]. intros c. apply rejudged_weaken.
           intros l0 Hl0. right. exact Hl0.
    + split; [exact Hu |]. split; [exact Hf |]. split.
      * exists W1. split; assumption.
      * exists new1. split; assumption.
Qed.

Lemma reject_load_cache_get (E : env) (a : RejectEvalue.args) (s s1 : state) :
  RejectEvalue.load_cache E a s = Normal tt s1 ->
  useddata s = [] ->
  same_world s s1 /\
  cache_ok (useddata s1) /\
  forall k, Py.hashable k = true ->
    Cache.get k (useddata s1) =
      find_last_from k None (lines_of s (RejectEvalue.outputfile E a)).
Proof.
  intros Hrun Hu.
  destruct (reject_load_cache_spec E a s) as (Hw & _).
  rewrite Hrun in Hw. cbn [final] in Hw. split; [exact Hw |].
  revert Hrun. unfold RejectEvalue.load_cache, lines_of. mstep.
  rewrite reject_load_line_eq.
  destruct (files s !! RejectEvalue.outputfile E a) as [ls|] eqn:Hout.
  - rewrite Hout. set (s0 := with_stdout _ s).
    destruct (for_each ls (FactEvalue.load_line (RejectEvalue.outputfile E a)) s0)
      as [[] s2|e s2] eqn:Hload; [| discriminate].
    intros Hrun. injection Hrun as <-. mstep.
    assert (cache_ok (useddata s0)) as Hok by (cbn; rewrite Hu; constructor).
    destruct (load_spec _ ls s0 s2 Hload Hok) as [Hok1 Hget]. split; [exact Hok1 |].
    intros k Hk. rewrite (Hget k Hk). cbn. rewrite Hu. reflexivity.
  - intros Hrun. injection Hrun as <-. rewrite Hu. split; [constructor | reflexivity].
Qed.

(** The scoring part of [reject_evalue.py] posts nothing and touches
    no line-oriented file. *)
Lemma reject_score_frame (E : env) (a : RejectEvalue.args) (s : state) :
  calls (final (RejectEvalue.score E a s)) = calls s /\
  files (final (RejectEvalue.score E a s)) = files s.
Proof.
  unfold RejectEvalue.score. mstep.
  destruct (Nat.eqb (length (results s)) 0); [split; reflexivity |]. mstep.
  destruct (RejectEvalue.count (results s) 0 0) as [[r t]|e]; [| split; reflexivity].
  mstep. cbn [fst snd].
  destruct (Py.truediv r (length (results s))); mstep; [| split; reflexivity].
  destruct (Py.truediv t (length (results s))); mstep; split; reflexivity.
Qed.

Lemma reject_judge_spec (E : env) (a : RejectEvalue.args) (s : state) :
  cache_ok (useddata s) ->
  forallb wf_line (lines_of s (RejectEvalue.evaluefile E a)) = true ->
  let o := RejectEvalue.judge E a s in
  files (final o) !! RejectEvalue.evaluefile E a = files s !! RejectEvalue.evaluefile E a /\
  (exists W,
      lines_of (final o) (RejectEvalue.outputfile E a) =
        lines_of s (RejectEvalue.outputfile E a) ++ map Valid W /\
      Forall (fun w => exists l,
                  In l (lines_of s (RejectEvalue.evaluefile E a)) /\ written_for l w) W) /\
  (exists new,
      calls (final o) = calls s ++ new /\
      Forall (rejudged (useddata s) (lines_of s (RejectEvalue.evaluefile E a))) new).
Proof.
  intros Hok Hwf. cbv zeta. unfold RejectEvalue.judge. unfold bind at 1 2 3, modify, open_a, read_lines.
  mstep.
  rewrite lookup_insert_ne by (apply not_eq_sym, reject_evaluefile_outputfile).
  fold (lines_of s (RejectEvalue.evaluefile E a)).
  set (s1 := with_files _ _).
  assert (cache_ok (useddata s1)) as Hok1 by exact Hok.
  destruct (reject_loop_spec E a (lines_of s (RejectEvalue.evaluefile E a)) s1 Hok1 Hwf)
    as (_ & Hf & (W & HW & HF) & (new & Hn & Hr)). cbv zeta in *.
  assert (lines_of s1 (RejectEvalue.outputfile E a) = lines_of s (RejectEvalue.outputfile E a))
    as Hl1.
  { unfold lines_of, s1. mstep. rewrite lookup_insert_eq. reflexivity. }
  assert (files s1 !! RejectEvalue.evaluefile E a = files s !! RejectEvalue.evaluefile E a)
    as He1.
  { unfold s1. mstep. apply lookup_insert_ne, not_eq_sym, reject_evaluefile_outputfile. }
  rewrite Hl1 in HW.
  destruct (for_each (lines_of s (RejectEvalue.evaluefile E a))
              (RejectEvalue.process_line E a) s1) as [[] s2|e s2]; cbn [final] in *.
  - unfold lines_of in *. mstep. split.
    { rewrite (Hf _ (reject_evaluefile_outputfile E a)). exact He1. }
    split; [exists W; split; assumption | exists new; split; assumption].
  - split.
    { rewrite (Hf _ (reject_evaluefile_outputfile E a)). exact He1. }
    split; [exists W; split; assumption | exists new; split; assumption].
Qed.

(** A run of [reject_evalue.py]: the input file is left as it is, the
    lines added to the output file are records that pass for records of
    the input file, and every POST is for a record of the input file
    that fails the reuse test against the cache read from the output
    file. *)
Lemma reject_main_spec (E : env) (a : RejectEvalue.args) (s : state) :
  forallb wf_line (lines_of s (RejectEvalue.evaluefile E a)) = true ->
  let o := RejectEvalue.main E a s in
  files (final o) !! RejectEvalue.evaluefile E a = files s !! RejectEvalue.evaluefile E a /\
  (exists W,
      lines_of (final o) (RejectEvalue.outputfile E a) =
        lines_of s (RejectEvalue.outputfile E a) ++ map Valid W /\
      Forall (fun w => exists l,
                  In l (lines_of s (RejectEvalue.evaluefile E a)) /\ written_for l w) W) /\
  (exists new,
      calls (final o) = calls s ++ new /\
      (new = [] \/
       exists u,
         cache_ok u /\
         (forall k, Py.hashable k = true ->
            Cache.get k u =
              find_last_from k None (lines_of s (RejectEvalue.outputfile E a))) /\
         Forall (rejudged u (lines_of s (RejectEvalue.evaluefile E a))) new)).
Proof.
  intros Hwf. cbv zeta.
  assert (forall o : outcome unit,
             files (final o) = files s -> calls (final o) = calls s ->
             files (final o) !! RejectEvalue.evaluefile E a
               = files s !! RejectEvalue.evaluefile E a /\
             (exists W,
                 lines_of (final o) (RejectEvalue.outputfile E a) =
                   lines_of s (RejectEvalue.outputfile E a) ++ map Valid W /\
                 Forall (fun w => exists l,
                             In l (lines_of s (RejectEvalue.evaluefile E a)) /\
                             written_for l w) W) /\
             (exists new,
                 calls (final o) = calls s ++ new /\
                 (new = [] \/
                  exists u,
                    cache_ok u /\
                    (forall k, Py.hashable k = true ->
                       Cache.get k u =
                         find_last_from k None (lines_of s (RejectEvalue.outputfile E a))) /\
                    Forall (rejudged u (lines_of s (RejectEvalue.evaluefile E a))) new)))
    as Hnothing.
  { intros o Hf Hc. split; [rewrite Hf; reflexivity |]. split.
    - exists []. split; [| constructor]. unfold lines_of. rewrite Hf.
      symmetry. apply app_nil_r.
    - exists []. split; [rewrite Hc; symmetry; apply app_nil_r | left; reflexivity]. }
  remember (RejectEvalue.main E a s) as o eqn:Ho. revert Ho.
  unfold RejectEvalue.main. unfold bind at 1 2 3, modify.
  set (s0 := with_useddata [] (with_results [] s)).
  destruct (RejectEvalue.load_cache E a s0) as [[] s1|e s1] eqn:Hload.
  2: { destruct (reject_load_cache_spec E a s0) as ((Hf & _ & Hc & _) & _).
       rewrite Hload in Hf, Hc. intros ->. apply Hnothing; assumption. }
  destruct (reject_load_cache_get E a s0 s1 Hload eq_refl)
    as ((Hf1 & _ & Hc1 & _) & Hok1 & Hget1).
  unfold bind at 1. unfold RejectEvalue.require_input. mstep.
  destruct (files s1 !! RejectEvalue.evaluefile E a) as [inp|] eqn:Hev; cbn [negb].
  2: { mstep. intros ->. apply Hnothing; assumption. }
  mstep. set (s2 := with_stdout _ s1).
  assert (lines_of s2 (RejectEvalue.evaluefile E a) = lines_of s (RejectEvalue.evaluefile E a))
    as Hinp.
  { unfold lines_of. cbn. rewrite Hf1. reflexivity. }
  assert (lines_of s2 (RejectEvalue.outputfile E a) = lines_of s (RejectEvalue.outputfile E a))
    as Hout.
  { unfold lines_of. cbn. rewrite Hf1. reflexivity. }
  assert (cache_ok (useddata s2)) as Hok2 by exact Hok1.
  assert (forallb wf_line (lines_of s2 (RejectEvalue.evaluefile E a)) = true) as Hwf2
    by (rewrite Hinp; exact Hwf).
  destruct (reject_judge_spec E a s2 Hok2 Hwf2) as (He & (W & HW & HF) & (new & Hn & Hr)).
  cbv zeta in *. rewrite Hinp in HF, Hr. rewrite Hout in HW.
  assert (files s2 = files s) as Hf2 by exact Hf1.
  assert (calls s2 = calls s) as Hc2 by exact Hc1.
  assert (forall o : outcome unit,
             files (final o) = files (final (RejectEvalue.judge E a s2)) ->
             calls (final o) = calls (final (RejectEvalue.judge E a s2)) ->
             files (final o) !! RejectEvalue.evaluefile E a
               = files s !! RejectEvalue.evaluefile E a /\
             (exists W,
                 lines_of (final o) (RejectEvalue.outputfile E a) =
                   lines_of s (RejectEvalue.outputfile E a) ++ map Valid W /\
                 Forall (fun w => exists l,
                             In l (lines_of s (RejectEvalue.evaluefile E a)) /\
                             written_for l w) W) /\
             (exists new,
                 calls (final o) = calls s ++ new /\
                 (new = [] \/
                  exists u,
                    cache_ok u /\
                    (forall k, Py.hashable k = true ->
                       Cache.get k u =
                         find_last_from k None (lines_of s (RejectEvalue.outputfile E a))) /\
                    Forall (rejudged u (lines_of s (RejectEvalue.evaluefile E a))) new)))
    as Hdone.
  { intros o' Hf Hc. split; [rewrite Hf, He, Hf2; reflexivity |]. split.
    - exists W. split; [| exact HF]. unfold lines_of in *. rewrite Hf. exact HW.
    - exists new. split; [rewrite Hc, Hn, Hc2; reflexivity |]. right.
      exists (useddata s1). split; [exact Hok1 |]. split; [| exact Hr].
      intros k Hk. rewrite (Hget1 k Hk). unfold lines_of. cbn. reflexivity. }
  unfold bind.
  destruct (RejectEvalue.judge E a s2) as [[] s3|e s3] eqn:Hj; intros ->.
  - destruct (reject_score_frame E a s3) as [Hsc Hsf]. apply Hdone; assumption.
  - apply Hdone; reflexivity.
Qed.

Lemma find_last_from_cases (k : json) (acc : option json) (ls : list line) :
  (find_last_from k acc ls = acc /\
   forall w i, In (Valid w) ls -> rec_id w = Some i -> Py.eq k i = false) \/
  (exists w' i',
      find_last_from k acc ls = Some w' /\ In (Valid w') ls /\
      rec_id w' = Some i' /\ Py.eq k i' = true).
Proof.
  revert acc. induction ls as [|[raw|v] ls IH]; intros acc; cbn [find_last_from].
  - left. split; [reflexivity |]. intros w i [].
  - destruct (IH acc) as [[Hf Hn] | (w' & i' & Hf & Hin & Hrest)].
    + left. split; [exact Hf |]. intros w i [Hw | Hw]; [discriminate | apply Hn, Hw].
    + right. exists w', i'. split; [exact Hf |]. split; [right; exact Hin | exact Hrest].
  - destruct (rec_id v) as [i0|] eqn:Hv.
    + destruct (IH (if Py.eq k i0 then Some v else acc))
        as [[Hf Hn] | (w' & i' & Hf & Hin & Hrest)].
      * destruct (Py.eq k i0) eqn:Hk.
        -- right. exists v, i0. split; [exact Hf |]. split; [left; reflexivity |].
           split; assumption.
        -- left. split; [exact Hf |]. intros w i [Hw | Hw] Hi.
           ++ injection Hw as <-. rewrite Hv in Hi. injection Hi as <-. exact Hk.
           ++ apply (Hn w i Hw Hi).
      * right. exists w', i'. split; [exact Hf |]. split; [right; exact Hin | exact Hrest].
    + destruct (IH acc) as [[Hf Hn] | (w' & i' & Hf & Hin & Hrest)].
      * left. split; [exact Hf |]. intros w i [Hw | Hw] Hi.
        -- injection Hw as <-. rewrite Hv in Hi. discriminate.
        -- apply (Hn w i Hw Hi).
      * right. exists w', i'. split; [exact Hf |]. split; [right; exact Hin | exact Hrest].
Qed.

Lemma rec_id_hashable (v id : json) : rec_id v = Some id -> Py.hashable id = true.
Proof. intros H. apply rec_id_getitem in H. apply H. Qed.








(** On the example the first run judges both records and the second
    run posts nothing. *)
Example rerun_posts_nothing :
  let s0 := start example_reject_input in
  let s1 := final (RejectEvalue.main not_addressed_env RejectEvalue.default_args s0) in
  length (calls s1) = 2%nat /\
  calls (final (RejectEvalue.main not_addressed_env RejectEvalue.default_args s1))
    = calls s1.
Proof. vm_compute. split; reflexivity. Qed.

(** C4, as stated, fails in [reject_evalue.py] when two records of the
    input file carry the same id: the cache keeps one record under that
    id, the last one stored, and the other input record fails the
    comparison of [query] and [prediction] with it.  Here the first run
    judges both records with the id "1"; the second run posts again for
    the first of them. *)
Lemma C4_repeated_id_posted_again :
  let s0 := start example_reject_repeated_id in
  let s1 := final (RejectEvalue.main not_addressed_env RejectEvalue.default_args s0) in
  let s2 := final (RejectEvalue.main not_addressed_env RejectEvalue.default_args s1) in
  length (calls s1) = 2%nat /\
  length (lines_of s1 (RejectEvalue.outputfile not_addressed_env
                         RejectEvalue.default_args)) = 2%nat /\
  exists r,
    calls s2 =
      calls s1 ++
      [(Some (JObj [("id", JStr "1"); ("query", JStr "Q1"); ("prediction", JStr "P1")]),
        r)].
Proof. vm_compute. split; [reflexivity |]. split; [reflexivity |]. eexists. reflexivity. Qed.

(** ** The output file of fact_evalue.py when the input is missing *)




(** C10, as stated, fails when the output file of the earlier run
    holds a record without [id]: with no input file, the run raises
    [KeyError] while it fills the cache and the output file is not
    truncated, it still holds the record. *)
Lemma C10_unreadable_output_kept :
  let s := start example_fact_output_no_id in
  let o := FactEvalue.main (example_env JNull) FactEvalue.default_args s in
  files s !! FactEvalue.evaluefile (example_env JNull) FactEvalue.default_args = None /\
  o = Raised (KeyError (JStr "id")) (final o) /\
  lines_of (final o) (FactEvalue.outputfile (example_env JNull) FactEvalue.default_args) =
    [Valid (JObj [("query", JStr "q"); ("evaluation", JStr "Yes")])].
Proof. cbv zeta. repeat split; vm_compute; reflexivity. Qed.

(** ** The scenario of the specification *)

(** Two records, the first judged "Yes, ..." and the second "NO, ...":
    two records are stored and the summary has [rejecttt = 1],
    [nums = 2] and [reject_rate = 1/2]. *)
Example scenario_two_records :
  let E :=
    {| post := fun n _ =>
         match n with
         | O => Response (completion_body
                            (JStr "Yes, the model has identified the factual errors."))
         | _ => Response (completion_body (JStr "NO, the model fail..."))
         end;
       str := fun _ => "?"; str_float := fun _ => "0.5"; str_int := fun _ => "5" |} in
  let fs : gmap string (list line) :=
    {[ FactEvalue.evaluefile E FactEvalue.default_args :=
         [Valid (JObj [("id", JStr "1"); ("query", JStr "Q1");
                       ("prediction", JStr "Yes, it's wrong")]);
          Valid (JObj [("id", JStr "2"); ("query", JStr "Q2");
                       ("prediction", JStr "I think it's correct")])] ]} in
  let s := final (FactEvalue.main E FactEvalue.default_args (start fs)) in
  length (lines_of s (FactEvalue.outputfile E FactEvalue.default_args)) = 2%nat /\
  exists scores,
    summaries s !! FactEvalue.resultfile E FactEvalue.default_args = Some scores /\
    score_of "rejecttt" scores = Some (PInt 1) /\
    score_of "nums" scores = Some (PInt 2) /\
    score_of "reject_rate" scores = Some (PFloat (Qmake 1 2)).
Proof.
  vm_compute. split; [reflexivity |]. eexists. split; [reflexivity |].
  repeat split.
Qed.

(** * Further properties of the two scripts *)

(** ** The result directory and the file names *)

(** X1. For every accepted [--dataset] choice the result directory is
    [result-en] (for [en], [en_int], [en_fact]) or [result-zh] (for
    [zh], [zh_int], [zh_fact]): the fallback directory of the last
    [else] branch, [results] in [fact_evalue.py] and [result-other] in
    [reject_evalue.py], is never used. *)
Theorem X1_resultpath (af : FactEvalue.args) (ar : RejectEvalue.args) :
  FactEvalue.resultpath af =
    (if english (FactEvalue.dataset af) then "result-en" else "result-zh") /\
  RejectEvalue.resultpath ar =
    (if english (RejectEvalue.dataset ar) then "result-en" else "result-zh") /\
  FactEvalue.resultpath af <> "results" /\
  RejectEvalue.resultpath ar <> "result-other".
Proof.
  unfold FactEvalue.resultpath, RejectEvalue.resultpath.
  destruct (FactEvalue.dataset af), (RejectEvalue.dataset ar);
    repeat split; try reflexivity; discriminate.
Qed.

Lemma fact_outputfile_resultfile (E : env) (a : FactEvalue.args) :
  FactEvalue.outputfile E a <> FactEvalue.resultfile E a.
Proof.
  unfold FactEvalue.outputfile, FactEvalue.resultfile. intros H.
  repeat apply append_inv_head in H. discriminate.
Qed.

Lemma fact_evaluefile_resultfile (E : env) (a : FactEvalue.args) :
  FactEvalue.evaluefile E a <> FactEvalue.resultfile E a.
Proof.
  unfold FactEvalue.evaluefile, FactEvalue.resultfile. intros H.
  repeat apply append_inv_head in H. discriminate.
Qed.

Lemma reject_outputfile_resultfile (E : env) (a : RejectEvalue.args) :
  RejectEvalue.outputfile E a <> RejectEvalue.resultfile E a.
Proof.
  unfold RejectEvalue.outputfile, RejectEvalue.resultfile. intros H.
  repeat apply append_inv_head in H. discriminate.
Qed.

Lemma reject_evaluefile_resultfile (E : env) (a : RejectEvalue.args) :
  RejectEvalue.evaluefile E a <> RejectEvalue.resultfile E a.
Proof.
  unfold RejectEvalue.evaluefile, RejectEvalue.resultfile. intros H.
  repeat apply append_inv_head in H. discriminate.
Qed.

Lemma string_append_assoc (x y z : string) : (x +:+ y) +:+ z = x +:+ (y +:+ z).
Proof.
  induction x as [|c x IH]; [reflexivity |].
  change (String c ((x +:+ y) +:+ z) = String c (x +:+ (y +:+ z))).
  rewrite IH. reflexivity.
Qed.

(** X2. Whatever the arguments and however numbers are rendered, the
    three file names of a run are pairwise different and lie in the
    result directory: the input file is none of the two files a run
    writes.  In both scripts. *)
Theorem X2_file_names_distinct (E : env) (af : FactEvalue.args) (ar : RejectEvalue.args) :
  (FactEvalue.evaluefile E af <> FactEvalue.outputfile E af /\
   FactEvalue.evaluefile E af <> FactEvalue.resultfile E af /\
   FactEvalue.outputfile E af <> FactEvalue.resultfile E af /\
   Forall (fun name =>
             Py.starts_with (FactEvalue.resultpath af +:+ "/prediction_") name = true)
     [FactEvalue.evaluefile E af; FactEvalue.outputfile E af; FactEvalue.resultfile E af]) /\
  (RejectEvalue.evaluefile E ar <> RejectEvalue.outputfile E ar /\
   RejectEvalue.evaluefile E ar <> RejectEvalue.resultfile E ar /\
   RejectEvalue.outputfile E ar <> RejectEvalue.resultfile E ar /\
   Forall (fun name =>
             Py.starts_with (RejectEvalue.resultpath ar +:+ "/prediction_") name = true)
     [RejectEvalue.evaluefile E ar; RejectEvalue.outputfile E ar;
      RejectEvalue.resultfile E ar]).
Proof.
  split; (split; [| split; [| split]]).
  - apply fact_evaluefile_outputfile.
  - apply fact_evaluefile_resultfile.
  - apply fact_outputfile_resultfile.
  - repeat apply Forall_cons_2; [| | | apply Forall_nil_2];
      apply starts_with_spec; eexists;
      unfold FactEvalue.evaluefile, FactEvalue.outputfile, FactEvalue.resultfile;
      rewrite string_append_assoc; reflexivity.
  - apply reject_evaluefile_outputfile.
  - apply reject_evaluefile_resultfile.
  - apply reject_outputfile_resultfile.
  - repeat apply Forall_cons_2; [| | | apply Forall_nil_2];
      apply starts_with_spec; eexists;
      unfold RejectEvalue.evaluefile, RejectEvalue.outputfile, RejectEvalue.resultfile;
      rewrite string_append_assoc; reflexivity.
Qed.

(** ** Every outcome of the judge client on a 2xx response *)

Lemma str_contains_single (n : string) (c : ascii) :
  (1 < String.length n)%nat -> Py.str_contains n (String c EmptyString) = false.
Proof.
  destruct n as [|x [|y n]]; cbn [String.length]; try lia. intros _.
  cbn. destruct (Ascii.eqb x c); reflexivity.
Qed.

Lemma index_first (n : nat) : Py.index (S n) 0 = Some O.
Proof. reflexivity. Qed.

(** The three ways a client ends when the content cannot be read. *)
Ltac ends_first := split; [discriminate | intros; left; eexists; reflexivity].
Ltac ends_second := split; [discriminate | intros; right; left; eexists; reflexivity].
Ltac ends_third := split; [discriminate | intros; right; right; eexists; reflexivity].

(** The outcomes of the client of [fact_evalue.py] on a 2xx response. *)
Lemma fact_getdata_response (E : env) (text url key : string) (s : state) (j : json) :
  post E (length (calls s)) (fact_request text url key) = Response j ->
  let o := FactEvalue.getdata E text url key s in
  (forall x, completion_content j = Ok x -> exists s', o = Normal x s') /\
  (forall e, completion_content j = Raise e ->
     (exists s', o = Normal (JStr "Error: Unexpected API response") s') \/
     (exists s', o = Raised TypeError s') \/
     (exists s', o = Raised (KeyError (JInt 0)) s')).
Proof.
  intros H. cbv zeta. unfold FactEvalue.getdata, bind, requests_post.
  fold (fact_request text url key). rewrite H. unfold completion_content.
  destruct j as [| | |sj|lj|d]; cbn; try ends_second.
  - destruct (Py.str_contains "choices" sj); cbn; [ends_second | ends_first].
  - destruct (existsb _ lj); cbn; [ends_second | ends_first].
  - destruct (Py.dict_get "choices" d) as [c|]; cbn; [| ends_first].
    destruct c as [| | |sc|lc|dc]; cbn; try ends_second.
    + destruct sc as [|a sc]; cbn -[Py.str_contains]; [ends_first |].
      rewrite index_first. cbn -[Py.str_contains].
      rewrite (str_contains_single "message" a) by (cbn; lia). cbn. ends_first.
    + destruct lc as [|c0 lc]; cbn; [ends_first |].
      rewrite index_first. cbn.
      destruct c0 as [| | |s0|l0|d0]; cbn; try ends_second.
      * destruct (Py.str_contains "message" s0); cbn; [ends_second | ends_first].
      * destruct (existsb _ l0); cbn; [ends_second | ends_first].
      * destruct (Py.dict_get "message" d0) as [m|]; cbn; [| ends_first].
        destruct m as [| | |sm|lm|dm]; cbn; try ends_second.
        -- destruct (Py.str_contains "content" sm); cbn; [ends_second | ends_first].
        -- destruct (existsb _ lm); cbn; [ends_second | ends_first].
        -- destruct (Py.dict_get "content" dm) as [x|]; cbn; [| ends_first].
           split; [| discriminate]. intros x' Hx. injection Hx as <-.
           eexists. reflexivity.
    + destruct dc as [|kv dc]; cbn; [ends_first | ends_third].
Qed.

(** X3. The client of [fact_evalue.py] on a 2xx response with the JSON
    body [j].  When [j['choices'][0]['message']['content']] can be
    read, the client returns that value.  When it cannot, the client
    returns the text "Error: Unexpected API response", or raises
    [TypeError], or raises [KeyError(0)]; it raises nothing else, in
    particular no [IndexError]. *)
Theorem X3_fact_getdata_response (E : env) (text url key : string) (s : state) (j : json) :
  post E (length (calls s)) (fact_request text url key) = Response j ->
  let o := FactEvalue.getdata E text url key s in
  (forall x, completion_content j = Ok x -> exists s', o = Normal x s') /\
  (forall e, completion_content j = Raise e ->
     (exists s', o = Normal (JStr "Error: Unexpected API response") s') \/
     (exists s', o = Raised TypeError s') \/
     (exists s', o = Raised (KeyError (JInt 0)) s')).
Proof. exact (fact_getdata_response E text url key s j). Qed.

Lemma X3_fact_getdata_response_witness :
  exists s',
    FactEvalue.getdata (example_env (completion_body (JStr "Yes"))) "text" "url" "key"
      (start ∅) = Normal (JStr "Yes") s'.
Proof.
  destruct (X3_fact_getdata_response (example_env (completion_body (JStr "Yes")))
              "text" "url" "key" (start ∅) (completion_body (JStr "Yes")) eq_refl)
    as [H _].
  apply (H (JStr "Yes")). reflexivity.
Defined.

(** The outcomes of the client of [reject_evalue.py] on a 2xx response. *)
Lemma reject_getdata_response (E : env) (text url key : string) (s : state) (j : json) :
  post E (length (calls s)) (reject_request text url key) = Response j ->
  let o := RejectEvalue.getdata E text url key s in
  (forall x, completion_content j = Ok x -> exists s', o = Normal x s') /\
  (forall e, completion_content j = Raise e ->
     (exists s', o = Normal (JStr "Error: Unexpected API response") s') \/
     (exists s', o = Raised TypeError s') \/
     (exists s',
        o = Normal (JStr ("Error: KeyError in API response - " +:+ str E (JInt 0))) s')).
Proof.
  intros H. cbv zeta. unfold RejectEvalue.getdata, bind, requests_post, try_except_KeyError.
  fold (reject_request text url key). rewrite H. unfold completion_content.
  destruct j as [| | |sj|lj|d]; cbn; try ends_second.
  - destruct (Py.str_contains "choices" sj); cbn; [ends_second | ends_first].
  - destruct (existsb _ lj); cbn; [ends_second | ends_first].
  - destruct (Py.dict_get "choices" d) as [c|]; cbn; [| ends_first].
    destruct c as [| | |sc|lc|dc]; cbn; try ends_second.
    + destruct sc as [|a sc]; cbn -[Py.str_contains]; [ends_first |].
      rewrite index_first. cbn -[Py.str_contains].
      rewrite (str_contains_single "message" a) by (cbn; lia). cbn. ends_first.
    + destruct lc as [|c0 lc]; cbn; [ends_first |].
      rewrite index_first. cbn.
      destruct c0 as [| | |s0|l0|d0]; cbn; try ends_second.
      * destruct (Py.str_contains "message" s0); cbn; [ends_second | ends_first].
      * destruct (existsb _ l0); cbn; [ends_second | ends_first].
      * destruct (Py.dict_get "message" d0) as [m|]; cbn; [| ends_first].
        destruct m as [| | |sm|lm|dm]; cbn; try ends_second.
        -- destruct (Py.str_contains "content" sm); cbn; [ends_second | ends_first].
        -- destruct (existsb _ lm); cbn; [ends_second | ends_first].
        -- destruct (Py.dict_get "content" dm) as [x|]; cbn; [| ends_first].
           split; [| discriminate]. intros x' Hx. injection Hx as <-.
           eexists. reflexivity.
    + destruct dc as [|kv dc]; cbn; [ends_first | ends_third].
Qed.

(** X4. The client of [reject_evalue.py] on a 2xx response with the
    JSON body [j].  When [j['choices'][0]['message']['content']] can be
    read, the client returns that value.  When it cannot, the client
    returns the text "Error: Unexpected API response", or the text of
    the caught [KeyError(0)], or raises [TypeError]: no [KeyError] and
    no [IndexError] leaves it. *)
Theorem X4_reject_getdata_response (E : env) (text url key : string) (s : state) (j : json) :
  post E (length (calls s)) (reject_request text url key) = Response j ->
  let o := RejectEvalue.getdata E text url key s in
  (forall x, completion_content j = Ok x -> exists s', o = Normal x s') /\
  (forall e, completion_content j = Raise e ->
     (exists s', o = Normal (JStr "Error: Unexpected API response") s') \/
     (exists s', o = Raised TypeError s') \/
     (exists s',
        o = Normal (JStr ("Error: KeyError in API response - " +:+ str E (JInt 0))) s')).
Proof. exact (reject_getdata_response E text url key s j). Qed.

Lemma X4_reject_getdata_response_witness :
  exists s',
    RejectEvalue.getdata not_addressed_env "text" "url" "key" (start ∅)
      = Normal (JStr "No, the question is not addressed by the documents.") s'.
Proof.
  destruct (X4_reject_getdata_response not_addressed_env "text" "url" "key" (start ∅)
              (completion_body (JStr "No, the question is not addressed by the documents."))
              eq_refl) as [H _].
  apply (H (JStr "No, the question is not addressed by the documents.")). reflexivity.
Defined.

(** ** Error texts in the aggregation *)

(** X5. A failed call is scored by the text of its exception.  After
    a transport failure the client returns an error text, the judging
    loop stores it as the evaluation, and the aggregator counts a
    record with that evaluation in [rejecttt] exactly when the text of
    the exception itself contains a marker ("has identified" or "Yes"
    in [fact_evalue.py], "not addressed" in [reject_evalue.py]): the
    fixed part of the error text never matches.  A record whose
    evaluation is the text "Error: Unexpected API response" is never
    counted in [rejecttt]. *)
Theorem X5_error_text_scored (E : env) (text url key : string) (s : state) (d : dict) :
  (transport_failure (post E (length (calls s)) (fact_request text url key)) = true ->
   exists x s',
     FactEvalue.getdata E text url key s = Normal (JStr x) s' /\
     (Py.dict_get "evaluation" d = Some (JStr x) ->
      FactEvalue.counts_rejecttt (JObj d) =
        Ok (Py.str_contains "has identified"
              (fact_exception_text (post E (length (calls s)) (fact_request text url key)))
            || Py.str_contains "Yes"
              (fact_exception_text (post E (length (calls s)) (fact_request text url key)))))) /\
  (transport_failure (post E (length (calls s)) (reject_request text url key)) = true ->
   exists x s',
     RejectEvalue.getdata E text url key s = Normal (JStr x) s' /\
     (Py.dict_get "evaluation" d = Some (JStr x) ->
      RejectEvalue.counts_rejecttt (JObj d) =
        Ok (Py.str_contains "not addressed"
              (reject_exception_text
                 (post E (length (calls s)) (reject_request text url key)))))) /\
  (Py.dict_get "evaluation" d = Some (JStr "Error: Unexpected API response") ->
   FactEvalue.counts_rejecttt (JObj d) = Ok false /\
   RejectEvalue.counts_rejecttt (JObj d) = Ok false).
Proof.
  split; [| split].
  - unfold FactEvalue.getdata, bind, requests_post. fold (fact_request text url key).
    destruct (post E (length (calls s)) (fact_request text url key))
      as [e|e|e|e|[|] e t|j]; try discriminate; intros _;
      eexists _, _; (split; [reflexivity |]); intros Hd;
      rewrite (fact_counts_rejecttt_text d _ Hd); reflexivity.
  - unfold RejectEvalue.getdata, bind, requests_post. fold (reject_request text url key).
    destruct (post E (length (calls s)) (reject_request text url key))
      as [e|e|e|e|[|] e t|j]; try discriminate; intros _;
      eexists _, _; (split; [reflexivity |]); intros Hd;
      rewrite (reject_counts_rejecttt_text d _ Hd); reflexivity.
  - intros Hd. rewrite (fact_counts_rejecttt_text d _ Hd).
    rewrite (reject_counts_rejecttt_text d _ Hd). split; reflexivity.
Qed.

Lemma X5_error_text_scored_witness :
  exists x s',
    FactEvalue.getdata (constant_env (HTTPError "401: Yes")) "text" "url" "key" (start ∅)
      = Normal (JStr x) s' /\
    FactEvalue.counts_rejecttt (JObj [("id", JStr "1"); ("evaluation", JStr x)]) = Ok true.
Proof.
  destruct (X5_error_text_scored (constant_env (HTTPError "401: Yes")) "text" "url" "key"
              (start ∅)
              [("id", JStr "1"); ("evaluation", JStr "Error: HTTP Error - 401: Yes")])
    as [H _].
  destruct (H eq_refl) as (x & s' & Hrun & Hcount).
  exists x, s'. split; [exact Hrun |].
  injection Hrun as <- _. exact (Hcount eq_refl).
Defined.

(** ** The aggregators on arbitrary result lists *)

Lemma fact_counts_rejecttt_raise (i : json) (e : exn) :
  FactEvalue.counts_rejecttt i = Raise e -> e = TypeError.
Proof.
  unfold FactEvalue.counts_rejecttt.
  destruct i as [| | |s|l|d]; cbn; try (intros H; injection H as <-; reflexivity).
  - destruct (Py.str_contains "evaluation" s); cbn; [| discriminate].
    intros H; injection H as <-; reflexivity.
  - destruct (existsb _ l); cbn; [| discriminate].
    intros H; injection H as <-; reflexivity.
  - destruct (Py.dict_get "evaluation" d) as [x|]; cbn; [| discriminate].
    destruct x as [| | |sx|lx|dx]; cbn;
      try (intros H; injection H as <-; reflexivity).
    + destruct (Py.str_contains "has identified" sx); discriminate.
    + destruct (existsb _ lx); discriminate.
    + destruct (Py.dict_get "has identified" dx); cbn; [discriminate |].
      discriminate.
Qed.

Lemma fact_counts_tt_raise (i : json) (e : exn) :
  FactEvalue.counts_tt i = Raise e -> e = TypeError.
Proof.
  unfold FactEvalue.counts_tt.
  destruct i as [| | |s|l|d]; cbn; try (intros H; injection H as <-; reflexivity).
  - destruct (Py.str_contains "label" s); cbn; [| discriminate].
    intros H; injection H as <-; reflexivity.
  - destruct (existsb _ l); cbn; [| discriminate].
    intros H; injection H as <-; reflexivity.
  - destruct (fact_counts_tt_total d) as [g Hg]. unfold FactEvalue.counts_tt in Hg.
    cbn in Hg. rewrite Hg. discriminate.
Qed.

Lemma reject_counts_raise (i : json) (e : exn) :
  RejectEvalue.counts_rejecttt i = Raise e \/ RejectEvalue.counts_tt i = Raise e ->
  e = TypeError \/ e = AttributeError.
Proof.
  intros [H | H].
  - unfold RejectEvalue.counts_rejecttt in H.
    destruct i as [| | |s|l|d]; cbn in H;
      try (injection H as <-; right; reflexivity).
    destruct (match Py.dict_get "evaluation" d with Some x => x | None => JStr "" end)
      as [| | |sx|lx|dx]; cbn in H; try discriminate;
      injection H as <-; left; reflexivity.
  - destruct i as [| | |s|l|d];
      try (unfold RejectEvalue.counts_tt in H; cbn in H; injection H as <-;
           right; reflexivity).
    destruct (reject_counts_tt_total d) as [g Hg]. congruence.
Qed.

Lemma fact_count_raise (results : list json) :
  forall r t c e, FactEvalue.count results r t c = Raise e -> e = TypeError.
Proof.
  induction results as [|i rest IH]; intros r t c e; [discriminate |].
  destruct (FactEvalue.counts_rejecttt i) as [f|e'] eqn:Hf.
  2: { cbn [FactEvalue.count]. rewrite Hf. cbn. intros H. injection H as <-.
       apply (fact_counts_rejecttt_raise i), Hf. }
  destruct (FactEvalue.counts_tt i) as [g|e'] eqn:Hg.
  2: { cbn [FactEvalue.count]. rewrite Hf, Hg. destruct f; cbn;
         intros H; injection H as <-; apply (fact_counts_tt_raise i), Hg. }
  rewrite (fact_count_cons i rest f g r t c Hf Hg). apply IH.
Qed.

Lemma reject_count_raise (results : list json) :
  forall r t e,
    RejectEvalue.count results r t = Raise e -> e = TypeError \/ e = AttributeError.
Proof.
  induction results as [|i rest IH]; intros r t e; [discriminate |].
  destruct (RejectEvalue.counts_rejecttt i) as [f|e'] eqn:Hf.
  2: { cbn [RejectEvalue.count]. rewrite Hf. cbn. intros H. injection H as <-.
       apply (reject_counts_raise i). left. exact Hf. }
  destruct (RejectEvalue.counts_tt i) as [g|e'] eqn:Hg.
  2: { cbn [RejectEvalue.count]. rewrite Hf, Hg. cbn.
       intros H; injection H as <-. apply (reject_counts_raise i). right. exact Hg. }
  rewrite (reject_count_cons i rest f g r t Hf Hg). apply IH.
Qed.

(** One record on which the first test raises makes the whole loop
    raise. *)
Lemma fact_count_In_raise (results : list json) (i : json) (e : exn) :
  In i results -> FactEvalue.counts_rejecttt i = Raise e ->
  forall r t c, exists e', FactEvalue.count results r t c = Raise e'.
Proof.
  intros Hin Hi. induction results as [|i0 rest IH]; [destruct Hin |]. intros r t c.
  destruct (FactEvalue.counts_rejecttt i0) as [f|e'] eqn:Hf.
  2: { cbn [FactEvalue.count]. rewrite Hf. eexists. reflexivity. }
  destruct (FactEvalue.counts_tt i0) as [g|e'] eqn:Hg.
  2: { cbn [FactEvalue.count]. rewrite Hf, Hg. destruct f; eexists; reflexivity. }
  rewrite (fact_count_cons i0 rest f g r t c Hf Hg).
  destruct Hin as [-> | Hin]; [congruence |]. apply IH, Hin.
Qed.

Lemma reject_count_In_raise (results : list json) (i : json) (e : exn) :
  In i results -> RejectEvalue.counts_rejecttt i = Raise e ->
  forall r t, exists e', RejectEvalue.count results r t = Raise e'.
Proof.
  intros Hin Hi. induction results as [|i0 rest IH]; [destruct Hin |]. intros r t.
  destruct (RejectEvalue.counts_rejecttt i0) as [f|e'] eqn:Hf.
  2: { cbn [RejectEvalue.count]. rewrite Hf. eexists. reflexivity. }
  destruct (RejectEvalue.counts_tt i0) as [g|e'] eqn:Hg.
  2: { cbn [RejectEvalue.count]. rewrite Hf, Hg. eexists; reflexivity. }
  rewrite (reject_count_cons i0 rest f g r t Hf Hg).
  destruct Hin as [-> | Hin]; [congruence |]. apply IH, Hin.
Qed.

Lemma scalar_judgment_raises (d : dict) (x : json) :
  Py.dict_get "evaluation" d = Some x -> scalar_judgment x = true ->
  FactEvalue.counts_rejecttt (JObj d) = Raise TypeError /\
  RejectEvalue.counts_rejecttt (JObj d) = Raise TypeError.
Proof.
  intros Hd Hx. unfold FactEvalue.counts_rejecttt, RejectEvalue.counts_rejecttt.
  cbn. rewrite Hd. destruct x; try discriminate; split; reflexivity.
Qed.

(** X6. One stored judgment that is [None], a number or a boolean
    stops the scoring of the whole run: [fact_evalue.py] raises
    [TypeError], [reject_evalue.py] raises [TypeError] or
    [AttributeError], and neither writes the result file or prints a
    rate.  (The clients return such a value for a completion whose
    content is [null].) *)
Theorem X6_unscorable_judgment (E : env) (af : FactEvalue.args) (ar : RejectEvalue.args)
    (s : state) (d : dict) (x : json) :
  In (JObj d) (results s) ->
  Py.dict_get "evaluation" d = Some x ->
  scalar_judgment x = true ->
  FactEvalue.score E af s = Raised TypeError s /\
  exists e, (e = TypeError \/ e = AttributeError) /\
            RejectEvalue.score E ar s = Raised e s.
Proof.
  intros Hin Hd Hx. destruct (scalar_judgment_raises d x Hd Hx) as [Hf Hr]. split.
  - unfold FactEvalue.score, bind, gets.
    destruct (results s) as [|i rest] eqn:Hres; [destruct Hin |]. cbn [Py.truthy].
    destruct (fact_count_In_raise (i :: rest) (JObj d) _ Hin Hf 0%nat 0%nat 0%nat)
      as [e He].
    rewrite He. rewrite (fact_count_raise _ _ _ _ _ He). reflexivity.
  - unfold RejectEvalue.score, bind, gets.
    destruct (results s) as [|i rest] eqn:Hres; [destruct Hin |].
    cbn [length Nat.eqb ret].
    destruct (reject_count_In_raise (i :: rest) (JObj d) _ Hin Hr 0%nat 0%nat) as [e He].
    exists e. split; [apply (reject_count_raise _ _ _ _ He) |].
    rewrite He. reflexivity.
Qed.

Lemma X6_unscorable_judgment_witness :
  let s := with_results
             [example_record "1" [1; 1] "Yes";
              JObj [("id", JStr "2"); ("evaluation", JNull)]] (start ∅) in
  FactEvalue.score (example_env JNull) FactEvalue.default_args s = Raised TypeError s.
Proof.
  cbv zeta.
  apply (X6_unscorable_judgment (example_env JNull) FactEvalue.default_args
           RejectEvalue.default_args
           (with_results
              [example_record "1" [1; 1] "Yes";
               JObj [("id", JStr "2"); ("evaluation", JNull)]] (start ∅))
           [("id", JStr "2"); ("evaluation", JNull)] JNull).
  - right. left. reflexivity.
  - reflexivity.
  - reflexivity.
Defined.

(** X7. Whenever the scoring of a non-empty result list returns, on
    records of any shape, the summary it has written holds
    [nums = len(results)], the counters [rejecttt], [tt] and
    [correct_tt] are the numbers of records on which the respective
    tests return [True], and [correct_tt <= rejecttt <= nums] and
    [tt <= nums]; no file is written besides.  In both scripts. *)
Theorem X7_summary_counts (E : env) (af : FactEvalue.args) (ar : RejectEvalue.args)
    (s s' : state) :
  results s <> [] ->
  (FactEvalue.score E af s = Normal tt s' ->
   let rejecttt := how_many (fun i => holds (FactEvalue.counts_rejecttt i)) (results s) in
   let tt_count := how_many (fun i => holds (FactEvalue.counts_tt i)) (results s) in
   let correct_tt :=
     how_many (fun i => holds (FactEvalue.counts_rejecttt i) &&
                        holds (FactEvalue.counts_tt i)) (results s) in
   summaries s' =
     <[FactEvalue.resultfile E af :=
         fact_scores (FactEvalue.noise_rate af) rejecttt tt_count correct_tt
           (length (results s))]> (summaries s) /\
   (correct_tt <= rejecttt)%nat /\ (rejecttt <= length (results s))%nat /\
   (tt_count <= length (results s))%nat /\ files s' = files s) /\
  (RejectEvalue.score E ar s = Normal tt s' ->
   let rejecttt := how_many (fun i => holds (RejectEvalue.counts_rejecttt i)) (results s) in
   let tt_count := how_many (fun i => holds (RejectEvalue.counts_tt i)) (results s) in
   summaries s' =
     <[RejectEvalue.resultfile E ar :=
         reject_scores rejecttt tt_count (length (results s))]> (summaries s) /\
   (rejecttt <= length (results s))%nat /\
   (tt_count <= length (results s))%nat /\ files s' = files s).
Proof.
  intros Hne. split.
  - apply fact_score_summary. exact Hne.
  - apply reject_score_summary. exact Hne.
Qed.

Lemma X7_summary_counts_witness :
  let s := with_results [JObj [("id", JStr "1"); ("evaluation", JArr [JStr "Yes"])]]
             (start ∅) in
  let s' := final (FactEvalue.score (example_env JNull) FactEvalue.default_args s) in
  summaries s' =
    <[FactEvalue.resultfile (example_env JNull) FactEvalue.default_args :=
        fact_scores (FactEvalue.noise_rate FactEvalue.default_args) 1 0 0 1]> (summaries s).
Proof.
  cbv zeta.
  destruct (X7_summary_counts (example_env JNull) FactEvalue.default_args
              RejectEvalue.default_args
              (with_results
                 [JObj [("id", JStr "1"); ("evaluation", JArr [JStr "Yes"])]] (start ∅))
              (final (FactEvalue.score (example_env JNull) FactEvalue.default_args
                        (with_results
                           [JObj [("id", JStr "1"); ("evaluation", JArr [JStr "Yes"])]]
                           (start ∅)))))
    as [H _]; [discriminate |].
  destruct (H eq_refl) as (Hs & _). exact Hs.
Defined.

(** ** The judging loops, record by record *)

Lemma getitem_str_raise (c : json) (k : string) (e : exn) :
  Py.getitem c (JStr k) = Raise e -> e = TypeError \/ e = KeyError (JStr k).
Proof.
  destruct c as [| | |s|l|d]; cbn; try (intros H; injection H as <-; left; reflexivity).
  destruct (Py.dict_get k d); [discriminate |].
  intros H; injection H as <-; right; reflexivity.
Qed.

Lemma fact_getdata_raises (E : env) (text url key : string) (s s' : state) (e : exn) :
  FactEvalue.getdata E text url key s = Raised e s' ->
  e = TypeError \/ e = KeyError (JInt 0).
Proof.
  intros H.
  destruct (post E (length (calls s)) (fact_request text url key)) as [x|x|x|x|b x t|j] eqn:Hp.
  1-5: destruct (fact_getdata_failure E text url key s) as (msg & s1 & H1);
       [rewrite Hp; reflexivity | congruence].
  destruct (fact_getdata_response E text url key s j Hp) as [Hok Hbad].
  destruct (completion_content j) as [x|e'].
  - destruct (Hok x eq_refl) as [s1 H1]. congruence.
  - destruct (Hbad e' eq_refl) as [[s1 H1] | [[s1 H1] | [s1 H1]]];
      rewrite H1 in H; try discriminate; injection H as <- _; auto.
Qed.

Lemma reject_getdata_raises (E : env) (text url key : string) (s s' : state) (e : exn) :
  RejectEvalue.getdata E text url key s = Raised e s' -> e = TypeError.
Proof.
  intros H.
  destruct (post E (length (calls s)) (reject_request text url key))
    as [x|x|x|x|b x t|j] eqn:Hp.
  1-5: destruct (reject_getdata_failure E text url key s) as (msg & s1 & H1);
       [rewrite Hp; reflexivity | congruence].
  destruct (reject_getdata_response E text url key s j Hp) as [Hok Hbad].
  destruct (completion_content j) as [x|e'].
  - destruct (Hok x eq_refl) as [s1 H1]. congruence.
  - destruct (Hbad e' eq_refl) as [[s1 H1] | [[s1 H1] | [s1 H1]]];
      rewrite H1 in H; try discriminate; injection H as <- _; auto.
Qed.

Lemma fact_check_raises (E : env) (q ans : json) (url key : string) (s s' : state)
    (e : exn) :
  FactEvalue.check E q ans url key s = Raised e s' ->
  e = TypeError \/ e = KeyError (JInt 0).
Proof.
  unfold FactEvalue.check. rewrite fact_format. mstep. apply fact_getdata_raises.
Qed.

Lemma reject_check_raises (E : env) (q ans : json) (url key : string) (s s' : state)
    (e : exn) :
  RejectEvalue.check E q ans url key s = Raised e s' -> e = TypeError.
Proof.
  unfold RejectEvalue.check. rewrite reject_format. mstep. apply reject_getdata_raises.
Qed.

(** The handler of the judging loops, from a state in which the two
    names are bound. *)
Lemma report_error_names_bound (e : exn) (s : state) :
  names_bound s = true ->
  exists s', report_error e s = Normal tt s' /\
    files s' = files s /\ summaries s' = summaries s /\ calls s' = calls s /\
    results s' = results s /\ useddata s' = useddata s /\
    processed_count s' = processed_count s /\ names_bound s' = true.
Proof.
  unfold names_bound. intros H.
  destruct (question s) as [q|] eqn:Hq; [| discriminate].
  destruct (answer s) as [ans|] eqn:Ha; [| discriminate].
  rewrite (report_error_bound e s q ans Hq Ha). eexists. split; [reflexivity |].
  cbn. rewrite Hq, Ha. repeat split.
Qed.

(** The handler while [answer] is not bound. *)
Lemma report_error_unbound (e : exn) (s : state) :
  answer s = None ->
  exists s', report_error e s = Raised NameError s' /\
    files s' = files s /\ summaries s' = summaries s /\ calls s' = calls s /\
    results s' = results s /\ useddata s' = useddata s.
Proof.
  intros Ha. unfold report_error, bind, print, read_name.
  cbn [question answer with_stdout].
  destruct (question s) eqn:Hq; cbn; rewrite ?Hq, ?Ha; cbn;
    eexists; (split; [reflexivity |]); repeat split.
Qed.

Lemma loop_post_raised (counted : bool) (out : string) (l : line) (m : M unit)
    (s s1 : state) (e : exn) :
  m s = Raised e s1 -> e <> SystemExit ->
  useddata s1 = useddata s -> summaries s1 = summaries s -> files s1 = files s ->
  results s1 = results s -> processed_count s1 = processed_count s ->
  (names_bound s = true -> names_bound s1 = true) ->
  loop_post counted out [l] s (try_except m report_error s).
Proof.
  intros Hm He Hu Hsum Hf Hr Hp Hn.
  assert (try_except m report_error s = report_error e s1) as ->.
  { unfold try_except. rewrite Hm. destruct e; try reflexivity. contradiction. }
  destruct (report_error_frame e s1) as (Hf' & Hs' & _ & Hr' & Hu' & Hp' & Ho).
  unfold loop_post. rewrite Hu', Hs', Hf', Hu, Hsum, Hf.
  split; [reflexivity |]. split; [reflexivity |]. split; [reflexivity |].
  split; [| split].
  - exists []. rewrite Hr', Hr, Hp', Hp. unfold lines_of. rewrite Hf', Hf.
    rewrite !app_nil_r. destruct counted; cbn; repeat split; auto; lia.
  - intros Hb. destruct (report_error_names_bound e s1 (Hn Hb)) as (s' & Hrun & H).
    rewrite Hrun. cbn [final]. split; [reflexivity | apply H].
  - exact Ho.
Qed.

Lemma loop_post_skipped (counted : bool) (out : string) (l : line) (s s1 : state) :
  useddata s1 = useddata s -> summaries s1 = summaries s -> files s1 = files s ->
  results s1 = results s -> processed_count s1 = processed_count s ->
  (names_bound s = true -> names_bound s1 = true) ->
  loop_post counted out [l] s (Normal tt s1).
Proof.
  intros Hu Hsum Hf Hr Hp Hn. unfold loop_post. cbn [final].
  rewrite Hu, Hsum, Hf.
  split; [reflexivity |]. split; [reflexivity |]. split; [reflexivity |].
  split; [| split].
  - exists []. rewrite Hr, Hp. unfold lines_of. rewrite Hf.
    rewrite !app_nil_r. destruct counted; cbn; repeat split; auto; lia.
  - intros Hb. split; [reflexivity | apply Hn, Hb].
  - left. reflexivity.
Qed.

Lemma loop_post_stored (counted : bool) (out : string) (v w : json) (s s1 : state) :
  same_id v w = true ->
  useddata s1 = useddata s -> summaries s1 = summaries s ->
  (forall p, p <> out -> files s1 !! p = files s !! p) ->
  results s1 = results s ++ [w] ->
  lines_of s1 out = lines_of s out ++ [Valid w] ->
  processed_count s1 = (processed_count s + if counted then 1 else 0)%nat ->
  (names_bound s = true -> names_bound s1 = true) ->
  loop_post counted out [Valid v] s (Normal tt s1).
Proof.
  intros Hid Hu Hsum Hf Hr Hl Hp Hn. unfold loop_post. cbn [final].
  split; [exact Hu |]. split; [exact Hsum |]. split; [exact Hf |].
  split; [| split].
  - exists [w]. split; [exact Hr |]. split; [exact Hl |].
    split; [destruct counted; exact Hp |]. split.
    + constructor; [| constructor]. exists v. split; [left; reflexivity | exact Hid].
    + cbn. lia.
  - intros Hb. split; [reflexivity | apply Hn, Hb].
  - left. reflexivity.
Qed.

Lemma stored_for_weaken (ls ls' : list line) (w : json) :
  (forall l, In l ls -> In l ls') -> stored_for ls w -> stored_for ls' w.
Proof. intros H (v & Hin & Hid). exists v. split; [apply H, Hin | exact Hid]. Qed.

(** The loop over the lines [ls], from what its body does on a line. *)
Lemma loop_post_for_each (counted : bool) (out : string) (body : line -> M unit) :
  (forall l s, cache_ok (useddata s) -> loop_post counted out [l] s (body l s)) ->
  forall ls s, cache_ok (useddata s) ->
    loop_post counted out ls s (for_each ls body s).
Proof.
  intros Hbody. induction ls as [|l ls IH]; intros s Hok.
  - cbn. unfold loop_post. cbn [final]. repeat split; auto.
    exists []. rewrite !app_nil_r. destruct counted; cbn; repeat split; auto; lia.
  - cbn [for_each]. unfold bind.
    destruct (Hbody l s Hok) as (Hu & Hsum & Hf & (W & Hr & Hl & Hp & HW & Hlen) & Hn & Ho).
    destruct (body l s) as [[] s1|e s1] eqn:Hb; cbn [final] in *.
    + assert (cache_ok (useddata s1)) as Hok1 by (rewrite Hu; exact Hok).
      destruct (IH s1 Hok1)
        as (Hu' & Hsum' & Hf' & (W' & Hr' & Hl' & Hp' & HW' & Hlen') & Hn' & Ho').
      unfold loop_post.
      split; [congruence |]. split; [congruence |].
      split; [intros p Hne; rewrite Hf', Hf by exact Hne; reflexivity |].
      split; [| split].
      * exists (W ++ W'). rewrite Hr', Hr, Hl', Hl, Hp', Hp, map_app, !app_assoc.
        split; [reflexivity |]. split; [reflexivity |].
        split; [rewrite length_app; destruct counted; lia |]. split.
        -- apply Forall_app. split.
           ++ eapply Forall_impl; [exact HW |]. intros w.
              apply stored_for_weaken. intros l' [<- | []]. left. reflexivity.
           ++ eapply Forall_impl; [exact HW' |]. intros w.
              apply stored_for_weaken. intros l' Hin. right. exact Hin.
        -- rewrite length_app. unfold how_many in *. cbn [List.filter] in *.
           destruct (is_valid l); cbn [length] in *; lia.
      * intros Hbound. destruct (Hn Hbound) as [_ Hb1]. apply Hn', Hb1.
      * exact Ho'.
    + unfold loop_post. cbn [final].
      split; [exact Hu |]. split; [exact Hsum |]. split; [exact Hf |].
      split; [| split].
      * exists W. split; [exact Hr |]. split; [exact Hl |]. split; [exact Hp |]. split.
        -- eapply Forall_impl; [exact HW |]. intros w.
           apply stored_for_weaken. intros l' [<- | []]. left. reflexivity.
        -- unfold how_many in *. cbn [List.filter] in *.
           destruct (is_valid l); cbn [length] in *; lia.
      * intros Hbound. destruct (Hn Hbound) as [Hc _]. discriminate.
      * exact Ho.
Qed.

Lemma same_id_cached (u : list (json * json)) (v id cached : json) :
  cache_ok u ->
  Py.getitem v (JStr "id") = Ok id -> Py.hashable id = true ->
  Cache.get id u = Some cached ->
  same_id v cached = true.
Proof.
  intros Hok Hid Hh Hc.
  destruct (cache_ok_get_id u id cached Hok Hh Hc) as (c & id' & -> & Hd & Hh' & Heq).
  unfold same_id.
  rewrite (proj2 (rec_id_getitem v id) (conj Hid Hh)).
  rewrite (proj2 (rec_id_getitem (JObj c) id')); [exact Heq |].
  split; [cbn; rewrite Hd; reflexivity | exact Hh'].
Qed.

Lemma same_id_judged (d : dict) (id evaluation : json) :
  Py.dict_get "id" d = Some id -> Py.hashable id = true ->
  same_id (JObj d) (JObj (Py.dict_set "evaluation" evaluation d)) = true.
Proof.
  intros Hd Hh. unfold same_id.
  rewrite (proj2 (rec_id_getitem (JObj d) id)).
  2: { split; [cbn; rewrite Hd; reflexivity | exact Hh]. }
  rewrite (proj2 (rec_id_getitem (JObj (Py.dict_set "evaluation" evaluation d)) id)).
  2: { split; [| exact Hh]. cbn. rewrite dict_get_set_other by reflexivity.
       rewrite Hd. reflexivity. }
  apply eq_hashable_refl, Hh.
Qed.

Lemma names_bound_data (x : option json) (s : state) :
  names_bound (with_data x s) = names_bound s.
Proof. reflexivity. Qed.

(** What the body of the judging loop of [fact_evalue.py] does on one
    line. *)
Lemma fact_process_line_step (E : env) (a : FactEvalue.args) (l : line) (s : state) :
  cache_ok (useddata s) ->
  loop_post false (FactEvalue.outputfile E a) [l] s (FactEvalue.process_line E a l s).
Proof.
  intros Hok. destruct l as [raw|v].
  { cbn [FactEvalue.process_line]. unfold print.
    apply loop_post_skipped; try reflexivity. auto. }
  cbn [FactEvalue.process_line].
  destruct (Py.getitem v (JStr "id")) as [id|e] eqn:Hid.
  2: { apply (loop_post_raised _ _ _ _ s (with_data (Some v) s) e); try reflexivity.
       - unfold FactEvalue.judge_record. mstep. rewrite Hid. reflexivity.
       - destruct (getitem_str_raise _ _ _ Hid) as [-> | ->]; discriminate.
       - auto. }
  destruct (Py.hashable id) eqn:Hh.
  2: { apply (loop_post_raised _ _ _ _ s (with_data (Some v) s) TypeError);
         try reflexivity.
       - unfold FactEvalue.judge_record. mstep. rewrite Hid. mstep. rewrite Hh.
         reflexivity.
       - discriminate.
       - auto. }
  destruct (Cache.get id (useddata s)) as [cached|] eqn:Hc.
  { unfold try_except. rewrite (fact_judge_record_hit E a v id cached s Hid Hh Hc).
    apply (loop_post_stored false _ v cached); try reflexivity.
    - apply (same_id_cached (useddata s) v id cached Hok Hid Hh Hc).
    - intros p Hp. cbn. apply lookup_insert_ne. congruence.
    - unfold lines_of. cbn. rewrite lookup_insert_eq. reflexivity.
    - cbn. lia.
    - auto. }
  destruct (getitem_str_dict v "id" id Hid) as (d & -> & Hd).
  destruct (Py.dict_get "query" d) as [q|] eqn:Hq.
  2: { apply (loop_post_raised _ _ _ _ s (with_data (Some (JObj d)) s)
                (KeyError (JStr "query"))); try reflexivity.
       - unfold FactEvalue.judge_record. mstep. rewrite Hid. mstep. rewrite Hh. mstep.
         rewrite Hc. mstep. cbn [Py.getitem]. rewrite Hq. reflexivity.
       - discriminate.
       - auto. }
  destruct (Py.dict_get "prediction" d) as [ans|] eqn:Ha.
  2: { apply (loop_post_raised _ _ _ _ s
                (with_question (Some q) (with_data (Some (JObj d)) s))
                (KeyError (JStr "prediction"))); try reflexivity.
       - unfold FactEvalue.judge_record. mstep. rewrite Hid. mstep. rewrite Hh. mstep.
         rewrite Hc. mstep. cbn [Py.getitem]. rewrite Hq. mstep. rewrite Ha.
         reflexivity.
       - discriminate.
       - unfold names_bound. cbn. destruct (question s), (answer s); auto. }
  pose proof (fact_judge_record_miss E a d id q ans s Hd Hh Hc Hq Ha) as Hrun.
  cbv zeta in Hrun.
  set (s3 := with_answer (Some ans) (with_question (Some q) (with_data (Some (JObj d)) s)))
    in Hrun.
  destruct (fact_check_calls E q ans (FactEvalue.url a) (FactEvalue.api_key a) s3)
    as (_ & Hfiles & Hsum & Hres & Hused & _ & Hqu & Han & Hpc).
  destruct (FactEvalue.check E q ans (FactEvalue.url a) (FactEvalue.api_key a) s3)
    as [evaluation s4|e s4] eqn:Hcheck; cbn [final] in *.
  - unfold try_except. rewrite Hrun.
    apply (loop_post_stored false _ (JObj d)
             (JObj (Py.dict_set "evaluation" evaluation d))).
    + apply (same_id_judged d id evaluation Hd Hh).
    + cbn. exact Hused.
    + cbn. exact Hsum.
    + intros p Hp. cbn. rewrite lookup_insert_ne by congruence. rewrite Hfiles.
      reflexivity.
    + cbn. rewrite Hres. reflexivity.
    + unfold lines_of. cbn. rewrite lookup_insert_eq, Hfiles. reflexivity.
    + cbn. rewrite Hpc. cbn. lia.
    + intros _. unfold names_bound. cbn. rewrite Hqu, Han. reflexivity.
  - apply (loop_post_raised _ _ _ _ s s4 e); try assumption.
    + destruct (fact_check_raises _ _ _ _ _ _ _ _ Hcheck) as [-> | ->]; discriminate.
    + intros _. unfold names_bound. rewrite Hqu, Han. reflexivity.
Qed.

Lemma fact_loop_step (E : env) (a : FactEvalue.args) (ls : list line) (s : state) :
  cache_ok (useddata s) ->
  loop_post false (FactEvalue.outputfile E a) ls s
    (for_each ls (FactEvalue.process_line E a) s).
Proof.
  apply loop_post_for_each. intros l s'. apply fact_process_line_step.
Qed.

Lemma fact_score_frame (E : env) (a : FactEvalue.args) (s : state) :
  let o := FactEvalue.score E a s in
  files (final o) = files s /\ results (final o) = results s /\
  useddata (final o) = useddata s /\
  (forall p, p <> FactEvalue.resultfile E a -> summaries (final o) !! p = summaries s !! p).
Proof.
  cbv zeta. unfold FactEvalue.score. mstep.
  destruct (Py.truthy (JArr (results s))); [| repeat split].
  destruct (FactEvalue.count (results s) 0 0 0) as [[[r t] c]|e]; [| repeat split].
  mstep. cbn [fst snd].
  destruct (Nat.ltb 0 (length (results s))).
  - destruct (Py.truediv t (length (results s))); mstep; [| repeat split].
    destruct (div_if true r (length (results s))); mstep; [| repeat split].
    destruct (div_if true t (length (results s))); mstep; [| repeat split].
    destruct (div_if (Nat.ltb 0 r) c r); mstep; repeat split.
    intros p Hp. cbn. apply lookup_insert_ne. congruence.
  - mstep. cbn [div_if]. mstep.
    destruct (div_if (Nat.ltb 0 r) c r); mstep; repeat split.
    intros p Hp. cbn. apply lookup_insert_ne. congruence.
Qed.

Lemma reject_score_frame_all (E : env) (a : RejectEvalue.args) (s : state) :
  let o := RejectEvalue.score E a s in
  files (final o) = files s /\ results (final o) = results s /\
  useddata (final o) = useddata s /\ processed_count (final o) = processed_count s /\
  (forall p, p <> RejectEvalue.resultfile E a ->
     summaries (final o) !! p = summaries s !! p).
Proof.
  cbv zeta. unfold RejectEvalue.score. mstep.
  destruct (Nat.eqb (length (results s)) 0); [repeat split |]. mstep.
  destruct (RejectEvalue.count (results s) 0 0) as [[r t]|e]; [| repeat split].
  mstep. cbn [fst snd].
  destruct (Py.truediv r (length (results s))); mstep; [| repeat split].
  destruct (Py.truediv t (length (results s))); mstep; repeat split.
  intros p Hp. cbn. apply lookup_insert_ne. congruence.
Qed.



(** The judging loop of [fact_evalue.py] with its [open(outputfile, 'w')]. *)
Lemma fact_judge_step (E : env) (a : FactEvalue.args) (s : state) :
  cache_ok (useddata s) ->
  let o := FactEvalue.judge E a s in
  useddata (final o) = useddata s /\ summaries (final o) = summaries s /\
  (forall p, p <> FactEvalue.outputfile E a -> files (final o) !! p = files s !! p) /\
  (exists W,
     results (final o) = results s ++ W /\
     lines_of (final o) (FactEvalue.outputfile E a) = map Valid W /\
     Forall (stored_for (lines_of s (FactEvalue.evaluefile E a))) W /\
     (length W <= how_many is_valid (lines_of s (FactEvalue.evaluefile E a)))%nat) /\
  (names_bound s = true -> o = Normal tt (final o)) /\
  (o = Normal tt (final o) \/ o = Raised NameError (final o)).
Proof.
  intros Hok. cbv zeta. unfold FactEvalue.judge, lines_of. mstep.
  rewrite lookup_insert_ne by (apply not_eq_sym, fact_evaluefile_outputfile).
  destruct (files s !! FactEvalue.evaluefile E a) as [ls|] eqn:Hev; cbn [negb].
  - mstep.
    rewrite lookup_insert_ne by (apply not_eq_sym, fact_evaluefile_outputfile).
    rewrite Hev.
    set (s1 := with_files (<[FactEvalue.outputfile E a := []]> (files s)) s).
    destruct (fact_loop_step E a ls s1 Hok)
      as (Hu & Hsum & Hf & (W & Hr & Hl & _ & HW & Hlen) & Hn & Ho).
    split; [exact Hu |]. split; [exact Hsum |]. split; [| split; [| split]].
    + intros p Hp. rewrite (Hf p Hp). subst s1. cbn. apply lookup_insert_ne. congruence.
    + exists W. split; [exact Hr |]. split; [| split; assumption].
      unfold lines_of in Hl. rewrite Hl. subst s1. cbn. rewrite lookup_insert_eq.
      reflexivity.
    + intros Hb. apply Hn, Hb.
    + exact Ho.
  - mstep. cbn [final].
    split; [reflexivity |]. split; [reflexivity |]. split; [| split; [| split]].
    + intros p Hp. cbn. apply lookup_insert_ne. congruence.
    + exists []. cbn. rewrite lookup_insert_eq, app_nil_r.
      split; [reflexivity |]. split; [reflexivity |]. split; [constructor |].
      unfold how_many. cbn. lia.
    + intros _. reflexivity.
    + left. reflexivity.
Qed.

(** What a run of [fact_evalue.py] leaves behind. *)
Lemma fact_main_step (E : env) (a : FactEvalue.args) (s : state) :
  let o := FactEvalue.main E a s in
  (forall p, p <> FactEvalue.outputfile E a -> files (final o) !! p = files s !! p) /\
  (forall p, p <> FactEvalue.resultfile E a ->
     summaries (final o) !! p = summaries s !! p) /\
  Forall (stored_for (lines_of s (FactEvalue.evaluefile E a))) (results (final o)) /\
  (length (results (final o))
     <= how_many is_valid (lines_of s (FactEvalue.evaluefile E a)))%nat /\
  (forallb loadable (lines_of s (FactEvalue.outputfile E a)) = true ->
   lines_of (final o) (FactEvalue.outputfile E a) = map Valid (results (final o))) /\
  (forallb loadable (lines_of s (FactEvalue.outputfile E a)) = false ->
   files (final o) = files s /\ results (final o) = []).
Proof.
  cbv zeta. unfold FactEvalue.main, bind, modify. cbv beta.
  set (s0 := with_useddata [] (with_results [] s)).
  destruct (fact_load_cache_spec E a s0) as (Hw & Hgood & Hbad). cbv zeta in *.
  destruct (FactEvalue.load_cache E a s0) as [[] s1|e s1] eqn:Hload; cbv iota beta.
  - destruct (fact_load_cache_get E a s0 s1 Hload eq_refl) as (_ & Hl & Hok & _).
    destruct Hw as (Hf & Hsum & _ & Hr & _). cbn [final] in *.
    destruct (fact_judge_step E a s1 Hok)
      as (_ & Hsum2 & Hf2 & (W & Hr2 & Hl2 & HW & Hlen) & _ & _).
    cbv zeta in *.
    match goal with |- context [final ?o] => set (o2 := o) end.
    assert (files (final o2) = files (final (FactEvalue.judge E a s1)) /\
            results (final o2) = results (final (FactEvalue.judge E a s1)) /\
            (forall p, p <> FactEvalue.resultfile E a ->
               summaries (final o2) !! p =
                 summaries (final (FactEvalue.judge E a s1)) !! p))
      as (Hf3 & Hr3 & Hs3).
    { subst o2.
      destruct (FactEvalue.judge E a s1) as [[] s2|e s2]; [| repeat split].
      destruct (fact_score_frame E a s2) as (H1 & H2 & _ & H4). repeat split; assumption. }
    clearbody o2.
    rewrite Hr3, Hr2, Hr. cbn [results with_useddata with_results app] in *.
    replace (lines_of s (FactEvalue.evaluefile E a))
      with (lines_of s1 (FactEvalue.evaluefile E a))
      by (unfold lines_of; rewrite Hf; reflexivity).
    split; [| split; [| split; [| split; [| split]]]].
    + intros p Hp. rewrite Hf3, (Hf2 p Hp), Hf. reflexivity.
    + intros p Hp. rewrite (Hs3 p Hp), Hsum2, Hsum. reflexivity.
    + exact HW.
    + exact Hlen.
    + intros _. unfold lines_of in *. rewrite Hf3. exact Hl2.
    + intros Habs. exfalso. unfold lines_of in *. cbn in Hl. rewrite Hl in Habs.
      discriminate.
  - destruct Hw as (Hf & Hsum & _ & Hr & _). cbn [final] in *.
    rewrite Hr, Hf, Hsum. cbn.
    split; [reflexivity |]. split; [reflexivity |]. split; [constructor |].
    split; [lia |]. split.
    + intros Hl. destruct (Hgood Hl) as (s' & Habs). discriminate.
    + intros _. split; reflexivity.
Qed.

(** What the body of the judging loop of [reject_evalue.py] does on
    one line. *)
Lemma reject_process_line_step (E : env) (a : RejectEvalue.args) (l : line) (s : state) :
  cache_ok (useddata s) ->
  loop_post true (RejectEvalue.outputfile E a) [l] s (RejectEvalue.process_line E a l s).
Proof.
  intros Hok. destruct l as [raw|v].
  { cbn [RejectEvalue.process_line]. unfold print.
    apply loop_post_skipped; try reflexivity. auto. }
  cbn [RejectEvalue.process_line].
  destruct (Py.getitem v (JStr "id")) as [id|e] eqn:Hid.
  2: { apply (loop_post_raised _ _ _ _ s (with_data (Some v) s) e); try reflexivity.
       - apply reject_judge_record_raises. apply reject_reusable_no_id, Hid.
       - destruct (getitem_str_raise _ _ _ Hid) as [-> | ->]; discriminate.
       - auto. }
  destruct (Py.hashable id) eqn:Hh.
  2: { apply (loop_post_raised _ _ _ _ s (with_data (Some v) s) TypeError);
         try reflexivity.
       - apply reject_judge_record_raises.
         apply (reject_reusable_unhashable v id _ Hid Hh).
       - discriminate.
       - auto. }
  destruct (getitem_str_dict v "id" id Hid) as (d & -> & Hd).
  destruct (reuse_condition (useddata s) d) eqn:Hreuse.
  { destruct (proj1 (reuse_condition_spec (useddata s) d id Hd) Hreuse)
      as (c & Hc & _).
    unfold try_except.
    rewrite (reject_judge_record_reuse E a d id (JObj c) s Hok Hd Hh Hreuse Hc).
    apply (loop_post_stored true _ (JObj d) (JObj c)); try reflexivity.
    - apply (same_id_cached (useddata s) (JObj d) id (JObj c) Hok Hid Hh Hc).
    - intros p Hp. cbn. apply lookup_insert_ne. congruence.
    - unfold lines_of. cbn. rewrite lookup_insert_eq. reflexivity.
    - cbn. lia.
    - auto. }
  destruct (Py.truthy (query_of d) && Py.truthy (prediction_of d)) eqn:Ht.
  2: { unfold try_except.
       rewrite (reject_judge_record_skip E a d id s Hok Hd Hh Hreuse Ht).
       apply loop_post_skipped; reflexivity. }
  pose proof (reject_judge_record_judge E a d id s Hok Hd Hh Hreuse Ht) as Hrun.
  cbv zeta in Hrun. fold (query_of d) (prediction_of d) in Hrun.
  set (s3 := with_answer (Some (prediction_of d))
               (with_question (Some (query_of d)) (with_data (Some (JObj d)) s)))
    in Hrun.
  destruct (reject_check_calls E (query_of d) (prediction_of d)
              (RejectEvalue.url a) (RejectEvalue.api_key a) s3)
    as (_ & Hfiles & Hsum & Hres & Hused & _ & Hqu & Han & Hpc).
  destruct (RejectEvalue.check E (query_of d) (prediction_of d)
              (RejectEvalue.url a) (RejectEvalue.api_key a) s3)
    as [evaluation s4|e s4] eqn:Hcheck; cbn [final] in *.
  - unfold try_except. rewrite Hrun.
    apply (loop_post_stored true _ (JObj d)
             (JObj (Py.dict_set "evaluation" evaluation d))).
    + apply (same_id_judged d id evaluation Hd Hh).
    + cbn. exact Hused.
    + cbn. exact Hsum.
    + intros p Hp. cbn. rewrite lookup_insert_ne by congruence. rewrite Hfiles.
      reflexivity.
    + cbn. rewrite Hres. reflexivity.
    + unfold lines_of. cbn. rewrite lookup_insert_eq, Hfiles. reflexivity.
    + cbn. rewrite Hpc. cbn. lia.
    + intros _. unfold names_bound. cbn. rewrite Hqu, Han. reflexivity.
  - apply (loop_post_raised _ _ _ _ s s4 e); try assumption.
    + rewrite (reject_check_raises _ _ _ _ _ _ _ _ Hcheck). discriminate.
    + intros _. unfold names_bound. rewrite Hqu, Han. reflexivity.
Qed.

Lemma reject_loop_step (E : env) (a : RejectEvalue.args) (ls : list line) (s : state) :
  cache_ok (useddata s) ->
  loop_post true (RejectEvalue.outputfile E a) ls s
    (for_each ls (RejectEvalue.process_line E a) s).
Proof.
  apply loop_post_for_each. intros l s'. apply reject_process_line_step.
Qed.

(** The judging loop of [reject_evalue.py] with its
    [open(outputfile, 'a')] and its counter. *)
Lemma reject_judge_step (E : env) (a : RejectEvalue.args) (s : state) :
  cache_ok (useddata s) ->
  let o := RejectEvalue.judge E a s in
  useddata (final o) = useddata s /\ summaries (final o) = summaries s /\
  (forall p, p <> RejectEvalue.outputfile E a -> files (final o) !! p = files s !! p) /\
  (exists W,
     results (final o) = results s ++ W /\
     lines_of (final o) (RejectEvalue.outputfile E a) =
       lines_of s (RejectEvalue.outputfile E a) ++ map Valid W /\
     processed_count (final o) = length W /\
     Forall (stored_for (lines_of s (RejectEvalue.evaluefile E a))) W /\
     (length W <= how_many is_valid (lines_of s (RejectEvalue.evaluefile E a)))%nat) /\
  (names_bound s = true -> o = Normal tt (final o)) /\
  (o = Normal tt (final o) \/ o = Raised NameError (final o)).
Proof.
  intros Hok. cbv zeta. unfold RejectEvalue.judge.
  unfold bind at 1 2 3, modify, open_a, read_lines. mstep.
  rewrite lookup_insert_ne by (apply not_eq_sym, reject_evaluefile_outputfile).
  fold (lines_of s (RejectEvalue.evaluefile E a)).
  set (s1 := with_files _ _).
  assert (cache_ok (useddata s1)) as Hok1 by exact Hok.
  destruct (reject_loop_step E a (lines_of s (RejectEvalue.evaluefile E a)) s1 Hok1)
    as (Hu & Hsum & Hf & (W & Hr & Hl & Hp & HW & Hlen) & Hn & Ho).
  assert (lines_of s1 (RejectEvalue.outputfile E a) = lines_of s (RejectEvalue.outputfile E a))
    as Hl1.
  { unfold lines_of, s1. mstep. rewrite lookup_insert_eq. reflexivity. }
  assert (forall p, p <> RejectEvalue.outputfile E a -> files s1 !! p = files s !! p)
    as Hf1.
  { intros p Hne. unfold s1. mstep. apply lookup_insert_ne. congruence. }
  rewrite Hl1 in Hl. change (processed_count s1) with O in Hp. cbn [Nat.add] in Hp.
  change (useddata s1) with (useddata s) in Hu.
  change (summaries s1) with (summaries s) in Hsum.
  change (results s1) with (results s) in Hr.
  change (names_bound s1) with (names_bound s) in Hn.
  destruct (for_each (lines_of s (RejectEvalue.evaluefile E a))
              (RejectEvalue.process_line E a) s1) as [[] s2|e s2]; cbn [final] in *.
  - unfold lines_of in *. mstep.
    split; [exact Hu |]. split; [exact Hsum |].
    split; [intros p Hne; rewrite (Hf p Hne); apply Hf1, Hne |].
    split; [exists W; repeat split; assumption |].
    split; [intros _; reflexivity | left; reflexivity].
  - split; [exact Hu |]. split; [exact Hsum |].
    split; [intros p Hne; rewrite (Hf p Hne); apply Hf1, Hne |].
    split; [exists W; repeat split; assumption |].
    split; [intros Hb; apply Hn, Hb | exact Ho].
Qed.

(** What a run of [reject_evalue.py] leaves behind. *)
Lemma reject_main_step (E : env) (a : RejectEvalue.args) (s : state) :
  let o := RejectEvalue.main E a s in
  (forall p, p <> RejectEvalue.outputfile E a -> files (final o) !! p = files s !! p) /\
  (forall p, p <> RejectEvalue.resultfile E a ->
     summaries (final o) !! p = summaries s !! p) /\
  Forall (stored_for (lines_of s (RejectEvalue.evaluefile E a))) (results (final o)) /\
  (length (results (final o))
     <= how_many is_valid (lines_of s (RejectEvalue.evaluefile E a)))%nat /\
  lines_of (final o) (RejectEvalue.outputfile E a) =
    lines_of s (RejectEvalue.outputfile E a) ++ map Valid (results (final o)) /\
  (forallb loadable (lines_of s (RejectEvalue.outputfile E a)) = true ->
   files s !! RejectEvalue.evaluefile E a <> None ->
   processed_count (final o) = length (results (final o))).
Proof.
  cbv zeta.
  assert (forall o : outcome unit,
            files (final o) = files s -> summaries (final o) = summaries s ->
            results (final o) = [] ->
            (forall p, p <> RejectEvalue.outputfile E a ->
               files (final o) !! p = files s !! p) /\
            (forall p, p <> RejectEvalue.resultfile E a ->
               summaries (final o) !! p = summaries s !! p) /\
            Forall (stored_for (lines_of s (RejectEvalue.evaluefile E a)))
              (results (final o)) /\
            (length (results (final o))
               <= how_many is_valid (lines_of s (RejectEvalue.evaluefile E a)))%nat /\
            lines_of (final o) (RejectEvalue.outputfile E a) =
              lines_of s (RejectEvalue.outputfile E a) ++ map Valid (results (final o)))
    as Hnothing.
  { intros o Hf Hs Hr. rewrite Hr, Hs. unfold lines_of. rewrite Hf. cbn.
    rewrite app_nil_r. repeat split; try reflexivity; [constructor | lia]. }
  remember (RejectEvalue.main E a s) as o eqn:Ho. revert Ho.
  unfold RejectEvalue.main. unfold bind at 1 2 3, modify.
  set (s0 := with_useddata [] (with_results [] s)).
  destruct (reject_load_cache_spec E a s0) as (Hw & Hgood). cbv zeta in *.
  destruct (RejectEvalue.load_cache E a s0) as [[] s1|e s1] eqn:Hload.
  2: { destruct Hw as (Hf & Hsum & _ & Hr & _). cbn [final] in *. intros ->.
       destruct (Hnothing (Raised e s1) Hf Hsum Hr) as (H1 & H2 & H3 & H4 & H5).
       repeat split; try assumption.
       intros Hl _. destruct (Hgood Hl) as (s' & Habs). discriminate. }
  destruct (reject_load_cache_get E a s0 s1 Hload eq_refl)
    as ((Hf1 & Hs1 & _ & Hr1 & _) & Hok1 & _).
  unfold bind at 1. unfold RejectEvalue.require_input. mstep.
  destruct (files s1 !! RejectEvalue.evaluefile E a) as [inp|] eqn:Hev; cbn [negb].
  2: { mstep. intros ->.
       match goal with
       | |- context [final ?o'] => destruct (Hnothing o') as (H1 & H2 & H3 & H4 & H5)
       end; try assumption.
       cbn [final] in *. repeat split; try assumption.
       intros _ Habs. exfalso. apply Habs. rewrite <- Hev, Hf1. reflexivity. }
  mstep. set (s2 := with_stdout _ s1).
  assert (cache_ok (useddata s2)) as Hok2 by exact Hok1.
  destruct (reject_judge_step E a s2 Hok2)
    as (_ & Hs2 & Hf2 & (W & Hr2 & Hl2 & Hp2 & HW & Hlen) & _ & _). cbv zeta in *.
  change (results s2) with (results s1) in Hr2. rewrite Hr1 in Hr2.
  cbn [app results with_useddata with_results] in Hr2.
  change (summaries s2) with (summaries s1) in Hs2. rewrite Hs1 in Hs2.
  cbn [summaries with_useddata with_results] in Hs2.
  replace (lines_of s2 (RejectEvalue.outputfile E a))
    with (lines_of s (RejectEvalue.outputfile E a)) in Hl2
    by (unfold lines_of; cbn; rewrite Hf1; reflexivity).
  replace (lines_of s2 (RejectEvalue.evaluefile E a))
    with (lines_of s (RejectEvalue.evaluefile E a)) in HW, Hlen
    by (unfold lines_of; cbn; rewrite Hf1; reflexivity).
  assert (forall p, p <> RejectEvalue.outputfile E a ->
            files (final (RejectEvalue.judge E a s2)) !! p = files s !! p) as Hf3.
  { intros p Hp. rewrite (Hf2 p Hp). cbn. rewrite Hf1. reflexivity. }
  unfold bind.
  assert (forall o' : outcome unit,
            files (final o') = files (final (RejectEvalue.judge E a s2)) ->
            results (final o') = results (final (RejectEvalue.judge E a s2)) ->
            processed_count (final o') =
              processed_count (final (RejectEvalue.judge E a s2)) ->
            (forall p, p <> RejectEvalue.resultfile E a ->
               summaries (final o') !! p =
                 summaries (final (RejectEvalue.judge E a s2)) !! p) ->
            (forall p, p <> RejectEvalue.outputfile E a ->
               files (final o') !! p = files s !! p) /\
            (forall p, p <> RejectEvalue.resultfile E a ->
               summaries (final o') !! p = summaries s !! p) /\
            Forall (stored_for (lines_of s (RejectEvalue.evaluefile E a)))
              (results (final o')) /\
            (length (results (final o'))
               <= how_many is_valid (lines_of s (RejectEvalue.evaluefile E a)))%nat /\
            lines_of (final o') (RejectEvalue.outputfile E a) =
              lines_of s (RejectEvalue.outputfile E a) ++ map Valid (results (final o')) /\
            (forallb loadable (lines_of s (RejectEvalue.outputfile E a)) = true ->
             files s !! RejectEvalue.evaluefile E a <> None ->
             processed_count (final o') = length (results (final o'))))
    as Hdone.
  { intros o' Hf Hr Hp Hs. rewrite Hr, Hr2, Hp, Hp2. unfold lines_of in *. rewrite Hf.
    split; [intros p Hne; apply Hf3, Hne |].
    split; [intros p Hne; rewrite (Hs p Hne), Hs2; reflexivity |].
    repeat split; try assumption. }
  destruct (RejectEvalue.judge E a s2) as [[] s3|e s3] eqn:Hj; intros ->.
  - destruct (reject_score_frame_all E a s3) as (H1 & H2 & _ & H4 & H5).
    apply Hdone; assumption.
  - apply Hdone; reflexivity.
Qed.

(** ** What a run leaves in its files *)





(** X10. A run writes to its output file and to its result file and
    to nothing else: every other file, the input file among them,
    holds after the run what it held before, also when the run ends
    with an exception.  In both scripts. *)
Theorem X10_run_writes_two_files (E : env) (af : FactEvalue.args) (ar : RejectEvalue.args)
    (s : state) :
  (let o := FactEvalue.main E af s in
   (forall p, p <> FactEvalue.outputfile E af -> files (final o) !! p = files s !! p) /\
   (forall p, p <> FactEvalue.resultfile E af ->
      summaries (final o) !! p = summaries s !! p) /\
   files (final o) !! FactEvalue.evaluefile E af = files s !! FactEvalue.evaluefile E af) /\
  (let o := RejectEvalue.main E ar s in
   (forall p, p <> RejectEvalue.outputfile E ar -> files (final o) !! p = files s !! p) /\
   (forall p, p <> RejectEvalue.resultfile E ar ->
      summaries (final o) !! p = summaries s !! p) /\
   files (final o) !! RejectEvalue.evaluefile E ar
     = files s !! RejectEvalue.evaluefile E ar).
Proof.
  cbv zeta. split.
  - destruct (fact_main_step E af s) as (Hf & Hs & _). cbv zeta in *.
    split; [exact Hf |]. split; [exact Hs |].
    apply Hf, fact_evaluefile_outputfile.
  - destruct (reject_main_step E ar s) as (Hf & Hs & _). cbv zeta in *.
    split; [exact Hf |]. split; [exact Hs |].
    apply Hf, reject_evaluefile_outputfile.
Qed.

(** ** Records that raise *)



Lemma try_except_unbound (m : M unit) (s s1 : state) (e : exn) :
  m s = Raised e s1 -> e <> SystemExit -> answer s1 = None ->
  exists s', try_except m report_error s = Raised NameError s' /\
    files s' = files s1 /\ summaries s' = summaries s1 /\ calls s' = calls s1 /\
    results s' = results s1 /\ useddata s' = useddata s1.
Proof.
  intros Hm He Ha.
  assert (try_except m report_error s = report_error e s1) as ->.
  { unfold try_except. rewrite Hm. destruct e; try reflexivity. contradiction. }
  apply report_error_unbound, Ha.
Qed.

(** A record that [fact_evalue.py] cannot read, met while [answer] is
    not bound and its id is not in the cache. *)
Lemma fact_process_line_crash (E : env) (a : FactEvalue.args) (v : json) (s : state) :
  answer s = None ->
  (forall id, rec_id v = Some id -> Cache.get id (useddata s) = None) ->
  fact_readable v = false ->
  exists s', FactEvalue.process_line E a (Valid v) s = Raised NameError s' /\
    files s' = files s /\ summaries s' = summaries s /\ calls s' = calls s /\
    results s' = results s /\ useddata s' = useddata s.
Proof.
  intros Hans Hcache Hbad. cbn [FactEvalue.process_line].
  assert (forall e s1,
            FactEvalue.judge_record E a v s = Raised e s1 -> e <> SystemExit ->
            answer s1 = None /\ files s1 = files s /\ summaries s1 = summaries s /\
            calls s1 = calls s /\ results s1 = results s /\ useddata s1 = useddata s ->
            exists s', try_except (FactEvalue.judge_record E a v) report_error s
                         = Raised NameError s' /\
              files s' = files s /\ summaries s' = summaries s /\ calls s' = calls s /\
              results s' = results s /\ useddata s' = useddata s) as Hgen.
  { intros e s1 Hm He (Ha & Hf & Hs & Hc & Hr & Hu).
    destruct (try_except_unbound _ s s1 e Hm He Ha) as (s' & Hrun & Hf' & Hs' & Hc' & Hr' & Hu').
    exists s'. split; [exact Hrun |]. repeat split; congruence. }
  unfold fact_readable, rec_id in Hbad, Hcache.
  destruct (Py.getitem v (JStr "id")) as [id|e] eqn:Hid.
  2: { apply (Hgen e (with_data (Some v) s)).
       - unfold FactEvalue.judge_record. mstep. rewrite Hid. reflexivity.
       - destruct (getitem_str_raise _ _ _ Hid) as [-> | ->]; discriminate.
       - repeat split. exact Hans. }
  destruct (Py.hashable id) eqn:Hh.
  2: { apply (Hgen TypeError (with_data (Some v) s)).
       - unfold FactEvalue.judge_record. mstep. rewrite Hid. mstep. rewrite Hh.
         reflexivity.
       - discriminate.
       - repeat split. exact Hans. }
  specialize (Hcache id eq_refl).
  destruct (getitem_str_dict v "id" id Hid) as (d & -> & Hd).
  cbn [Py.getitem] in Hbad.
  destruct (Py.dict_get "query" d) as [q|] eqn:Hq.
  2: { apply (Hgen (KeyError (JStr "query")) (with_data (Some (JObj d)) s)).
       - unfold FactEvalue.judge_record. mstep. rewrite Hid. mstep. rewrite Hh. mstep.
         rewrite Hcache. mstep. cbn [Py.getitem]. rewrite Hq. reflexivity.
       - discriminate.
       - repeat split. exact Hans. }
  destruct (Py.dict_get "prediction" d) as [ans|] eqn:Ha; [discriminate |].
  apply (Hgen (KeyError (JStr "prediction"))
           (with_question (Some q) (with_data (Some (JObj d)) s))).
  - unfold FactEvalue.judge_record. mstep. rewrite Hid. mstep. rewrite Hh. mstep.
    rewrite Hcache. mstep. cbn [Py.getitem]. rewrite Hq. mstep. rewrite Ha.
    reflexivity.
  - discriminate.
  - repeat split. exact Hans.
Qed.

(** A record without an [id] that can be a key, met by
    [reject_evalue.py] while [answer] is not bound. *)
Lemma reject_process_line_crash (E : env) (a : RejectEvalue.args) (v : json) (s : state) :
  answer s = None ->
  rec_id v = None ->
  exists s', RejectEvalue.process_line E a (Valid v) s = Raised NameError s' /\
    files s' = files s /\ summaries s' = summaries s /\ calls s' = calls s /\
    results s' = results s /\ useddata s' = useddata s.
Proof.
  intros Hans Hbad. cbn [RejectEvalue.process_line].
  assert (exists e, e <> SystemExit /\
            RejectEvalue.judge_record E a v s = Raised e (with_data (Some v) s))
    as (e & He & Hm).
  { unfold rec_id in Hbad.
    destruct (Py.getitem v (JStr "id")) as [id|e] eqn:Hid.
    - destruct (Py.hashable id) eqn:Hh; [discriminate |].
      exists TypeError. split; [discriminate |].
      apply reject_judge_record_raises.
      apply (reject_reusable_unhashable v id _ Hid Hh).
    - exists e. split.
      + destruct (getitem_str_raise _ _ _ Hid) as [-> | ->]; discriminate.
      + apply reject_judge_record_raises. apply reject_reusable_no_id, Hid. }
  destruct (try_except_unbound _ s _ e Hm He Hans) as (s' & Hrun & H).
  exists s'. split; [exact Hrun | exact H].
Qed.

(** Lines that are not JSON only print a message. *)
Lemma for_each_malformed (file : string) (body : line -> M unit) (pre : list line) :
  (forall raw, body (Malformed raw) = print (InputLineMalformed file raw)) ->
  forallb is_malformed pre = true ->
  forall ls s, exists out,
    for_each (pre ++ ls) body s = for_each ls body (with_stdout out s).
Proof.
  intros Hbody. induction pre as [|l pre IH]; intros Hpre ls s.
  - exists (stdout s). destruct s; reflexivity.
  - cbn [forallb] in Hpre. apply andb_prop in Hpre as [Hl Hpre].
    destruct l as [raw|v]; [| discriminate].
    cbn [app for_each]. rewrite Hbody. unfold bind, print.
    destruct (IH Hpre ls (with_stdout (stdout s ++ [InputLineMalformed file raw]) s))
      as [out Hout].
    exists out. rewrite Hout. reflexivity.
Qed.

Lemma fact_load_cache_absent (E : env) (a : FactEvalue.args) (s : state) :
  files s !! FactEvalue.outputfile E a = None ->
  FactEvalue.load_cache E a s = Normal tt s.
Proof. intros H. unfold FactEvalue.load_cache. mstep. rewrite H. reflexivity. Qed.

Lemma reject_load_cache_absent (E : env) (a : RejectEvalue.args) (s : state) :
  files s !! RejectEvalue.outputfile E a = None ->
  RejectEvalue.load_cache E a s = Normal tt s.
Proof. intros H. unfold RejectEvalue.load_cache. mstep. rewrite H. reflexivity. Qed.

Lemma fact_judge_present (E : env) (a : FactEvalue.args) (s : state) (ls : list line) :
  files s !! FactEvalue.evaluefile E a = Some ls ->
  FactEvalue.judge E a s =
    for_each ls (FactEvalue.process_line E a)
      (with_files (<[FactEvalue.outputfile E a := []]> (files s)) s).
Proof.
  intros H. unfold FactEvalue.judge. mstep.
  rewrite lookup_insert_ne by (apply not_eq_sym, fact_evaluefile_outputfile).
  rewrite H. cbn [negb]. mstep.
  rewrite lookup_insert_ne by (apply not_eq_sym, fact_evaluefile_outputfile).
  rewrite H. reflexivity.
Qed.

Lemma reject_require_input_present (E : env) (a : RejectEvalue.args) (s : state)
    (ls : list line) :
  files s !! RejectEvalue.evaluefile E a = Some ls ->
  RejectEvalue.require_input E a s =
    Normal tt (with_stdout (stdout s ++ [ProcessingFile (RejectEvalue.evaluefile E a)]) s).
Proof.
  intros H. unfold RejectEvalue.require_input. mstep. rewrite H. reflexivity.
Qed.

(** X12. A record that cannot be read stops a first run when it comes
    before every record that can.  With no output file yet and an input
    file whose first record (after any lines that are not JSON) lacks a
    usable [id], or in [fact_evalue.py] lacks [query] or [prediction],
    the handler of the loop reads the unbound name [answer]: the run
    ends with [NameError], no POST issued, nothing stored, no result
    file written, and an empty output file left behind. *)
Theorem X12_first_record_stops_the_run (E : env) (af : FactEvalue.args)
    (ar : RejectEvalue.args) (fs : gmap string (list line)) (pre rest : list line)
    (v : json) :
  forallb is_malformed pre = true ->
  (fs !! FactEvalue.outputfile E af = None ->
   fs !! FactEvalue.evaluefile E af = Some (pre ++ Valid v :: rest) ->
   fact_readable v = false ->
   exists s', FactEvalue.main E af (start fs) = Raised NameError s' /\
     calls s' = [] /\ results s' = [] /\ summaries s' = ∅ /\
     files s' = <[FactEvalue.outputfile E af := []]> fs) /\
  (fs !! RejectEvalue.outputfile E ar = None ->
   fs !! RejectEvalue.evaluefile E ar = Some (pre ++ Valid v :: rest) ->
   rec_id v = None ->
   exists s', RejectEvalue.main E ar (start fs) = Raised NameError s' /\
     calls s' = [] /\ results s' = [] /\ summaries s' = ∅ /\
     files s' = <[RejectEvalue.outputfile E ar := []]> fs).
Proof.
  intros Hpre. split.
  - intros Hout Hev Hbad. unfold FactEvalue.main, bind, modify. cbv beta.
    set (s0 := with_useddata [] (with_results [] (start fs))).
    rewrite (fact_load_cache_absent E af s0 Hout).
    rewrite (fact_judge_present E af s0 _ Hev).
    set (s1 := with_files _ _).
    destruct (for_each_malformed (FactEvalue.evaluefile E af)
                (FactEvalue.process_line E af) pre (fun raw => eq_refl) Hpre
                (Valid v :: rest) s1) as [out Hskip].
    rewrite Hskip. cbn [for_each]. unfold bind.
    destruct (fact_process_line_crash E af v (with_stdout out s1))
      as (s' & Hrun & Hf & Hs & Hc & Hr & _).
    + reflexivity.
    + intros id _. reflexivity.
    + exact Hbad.
    + rewrite Hrun. exists s'. split; [reflexivity |]. repeat split; assumption.
  - intros Hout Hev Hbad. unfold RejectEvalue.main, bind, modify. cbv beta.
    set (s0 := with_useddata [] (with_results [] (start fs))).
    rewrite (reject_load_cache_absent E ar s0 Hout).
    rewrite (reject_require_input_present E ar s0 _ Hev). subst s0.
    unfold RejectEvalue.judge, bind, modify, open_a, read_lines. cbv beta.
    cbn [files with_files with_processed_count with_stdout with_useddata with_results
         start].
    rewrite Hout.
    rewrite lookup_insert_ne by (apply not_eq_sym, reject_evaluefile_outputfile).
    rewrite Hev.
    set (s1 := with_files _ _).
    destruct (for_each_malformed (RejectEvalue.evaluefile E ar)
                (RejectEvalue.process_line E ar) pre (fun raw => eq_refl) Hpre
                (Valid v :: rest) s1) as [out Hskip].
    rewrite Hskip. cbn [for_each]. unfold bind.
    destruct (reject_process_line_crash E ar v (with_stdout out s1))
      as (s' & Hrun & Hf & Hs & Hc & Hr & _).
    + reflexivity.
    + exact Hbad.
    + rewrite Hrun. exists s'. split; [reflexivity |]. repeat split; assumption.
Qed.

Lemma X12_first_record_stops_the_run_witness :
  exists s',
    FactEvalue.main not_addressed_env FactEvalue.default_args
      (start {[ FactEvalue.evaluefile not_addressed_env FactEvalue.default_args :=
                  [Malformed "{"; Valid (JObj [("query", JStr "Q1")]);
                   Valid (JObj [("id", JStr "2"); ("query", JStr "Q2");
                                ("prediction", JStr "P2")])] ]})
      = Raised NameError s' /\
    calls s' = [].
Proof.
  destruct (X12_first_record_stops_the_run not_addressed_env FactEvalue.default_args
              RejectEvalue.default_args
              {[ FactEvalue.evaluefile not_addressed_env FactEvalue.default_args :=
                   [Malformed "{"; Valid (JObj [("query", JStr "Q1")]);
                    Valid (JObj [("id", JStr "2"); ("query", JStr "Q2");
                                 ("prediction", JStr "P2")])] ]}
              [Malformed "{"]
              [Valid (JObj [("id", JStr "2"); ("query", JStr "Q2");
                            ("prediction", JStr "P2")])]
              (JObj [("query", JStr "Q1")]) eq_refl) as [H _].
  destruct (H eq_refl eq_refl eq_refl) as (s' & Hrun & Hc & _).
  exists s'. split; [exact Hrun | exact Hc].
Defined.

(** ** The cache after loading *)

Lemma find_last_from_last (k : json) (acc : option json) (pre post : list line)
    (v id : json) :
  rec_id v = Some id -> Py.eq k id = true ->
  (forall w i, In (Valid w) post -> rec_id w = Some i -> Py.eq k i = false) ->
  find_last_from k acc (pre ++ Valid v :: post) = Some v.
Proof.
  intros Hid Heq Hpost. rewrite find_last_from_app. cbn [find_last_from].
  rewrite Hid, Heq.
  destruct (find_last_from_cases k (Some v) post) as [[H _] | (w & i & _ & Hin & Hi & Hk)];
    [exact H |].
  rewrite (Hpost w i Hin Hi) in Hk. discriminate.
Qed.

Lemma find_last_from_absent (k : json) (ls : list line) :
  (forall w i, In (Valid w) ls -> rec_id w = Some i -> Py.eq k i = false) ->
  find_last_from k None ls = None.
Proof.
  intros Hls.
  destruct (find_last_from_cases k None ls) as [[H _] | (w & i & _ & Hin & Hi & Hk)];
    [exact H |].
  rewrite (Hls w i Hin Hi) in Hk. discriminate.
Qed.

(** X13. What the cache holds after the loading loop, in both
    scripts, when every line of the output file can be loaded: under
    an id that several records of the file carry, the record of the
    last of these lines, the earlier ones being overwritten; and
    nothing under an id that no record of the file carries.  Lines that
    are not JSON are passed over. *)
Theorem X13_cache_keeps_last_record (E : env) (af : FactEvalue.args)
    (ar : RejectEvalue.args) (s : state) :
  useddata s = [] ->
  (forallb loadable (lines_of s (FactEvalue.outputfile E af)) = true ->
   exists s1,
     FactEvalue.load_cache E af s = Normal tt s1 /\
     (forall pre post v id,
        lines_of s (FactEvalue.outputfile E af) = pre ++ Valid v :: post ->
        rec_id v = Some id ->
        (forall w i, In (Valid w) post -> rec_id w = Some i -> Py.eq id i = false) ->
        Cache.get id (useddata s1) = Some v) /\
     (forall k,
        Py.hashable k = true ->
        (forall w i, In (Valid w) (lines_of s (FactEvalue.outputfile E af)) ->
                     rec_id w = Some i -> Py.eq k i = false) ->
        Cache.get k (useddata s1) = None)) /\
  (forallb loadable (lines_of s (RejectEvalue.outputfile E ar)) = true ->
   exists s1,
     RejectEvalue.load_cache E ar s = Normal tt s1 /\
     (forall pre post v id,
        lines_of s (RejectEvalue.outputfile E ar) = pre ++ Valid v :: post ->
        rec_id v = Some id ->
        (forall w i, In (Valid w) post -> rec_id w = Some i -> Py.eq id i = false) ->
        Cache.get id (useddata s1) = Some v) /\
     (forall k,
        Py.hashable k = true ->
        (forall w i, In (Valid w) (lines_of s (RejectEvalue.outputfile E ar)) ->
                     rec_id w = Some i -> Py.eq k i = false) ->
        Cache.get k (useddata s1) = None)).
Proof.
  intros Hu. split.
  - intros Hl. destruct (fact_load_cache_spec E af s) as (_ & Hgood & _).
    destruct (Hgood Hl) as (s1 & Hrun). exists s1. split; [exact Hrun |].
    destruct (fact_load_cache_get E af s s1 Hrun Hu) as (_ & _ & _ & Hget). split.
    + intros pre post v id Hlines Hid Hpost.
      rewrite (Hget id (rec_id_hashable v id Hid)), Hlines.
      apply (find_last_from_last id None pre post v id Hid); [| exact Hpost].
      apply eq_hashable_refl, (rec_id_hashable v id Hid).
    + intros k Hk Hnone. rewrite (Hget k Hk). apply find_last_from_absent, Hnone.
  - intros Hl. destruct (reject_load_cache_spec E ar s) as (_ & Hgood).
    destruct (Hgood Hl) as (s1 & Hrun). exists s1. split; [exact Hrun |].
    destruct (reject_load_cache_get E ar s s1 Hrun Hu) as (_ & _ & Hget). split.
    + intros pre post v id Hlines Hid Hpost.
      rewrite (Hget id (rec_id_hashable v id Hid)), Hlines.
      apply (find_last_from_last id None pre post v id Hid); [| exact Hpost].
      apply eq_hashable_refl, (rec_id_hashable v id Hid).
    + intros k Hk Hnone. rewrite (Hget k Hk). apply find_last_from_absent, Hnone.
Qed.

Lemma X13_cache_keeps_last_record_witness :
  exists s1,
    FactEvalue.load_cache (example_env JNull) FactEvalue.default_args
      (start {[ FactEvalue.outputfile (example_env JNull) FactEvalue.default_args :=
                  [Valid (example_record "1" [1] "NO"); Malformed "{";
                   Valid (example_record "1" [1] "Yes")] ]}) = Normal tt s1 /\
    Cache.get (JStr "1") (useddata s1) = Some (example_record "1" [1] "Yes").
Proof.
  destruct (X13_cache_keeps_last_record (example_env JNull) FactEvalue.default_args
              RejectEvalue.default_args
              (start {[ FactEvalue.outputfile (example_env JNull) FactEvalue.default_args :=
                          [Valid (example_record "1" [1] "NO"); Malformed "{";
                           Valid (example_record "1" [1] "Yes")] ]}) eq_refl)
    as [H _].
  destruct (H eq_refl) as (s1 & Hrun & Hlast & _).
  exists s1. split; [exact Hrun |].
  apply (Hlast [Valid (example_record "1" [1] "NO"); Malformed "{"] []
           (example_record "1" [1] "Yes") (JStr "1")).
  - reflexivity.
  - reflexivity.
  - intros w i [].
Defined.

(** ** Runs of [reject_evalue.py] that differ in their file names only *)

Lemma alike_refl (n : naming) (s : state) : alike n n s s.
Proof.
  unfold alike. repeat split.
  unfold same_scores. destruct (summaries s !! name_result n); [| exact I].
  intros k _. reflexivity.
Qed.

Lemma alike_stdout_l (n1 n2 : naming) (out : list diag) (s1 s2 : state) :
  alike n1 n2 s1 s2 -> alike n1 n2 (with_stdout out s1) s2.
Proof. intros H. exact H. Qed.

Section SimulationReject.

Variables n1 n2 : naming.
Hypothesis Hn1 : name_evalue n1 <> name_output n1.
Hypothesis Hn2 : name_evalue n2 <> name_output n2.

Lemma sim_open_a :
  simulates n1 n2 (open_a (name_output n1)) (open_a (name_output n2)).
Proof.
  intros s1 s2 H. destruct H as (He & Ho & Hrest). split; [reflexivity |].
  unfold alike. cbn.
  rewrite !lookup_insert_eq.
  rewrite !lookup_insert_ne by (apply not_eq_sym; assumption).
  rewrite Ho. split; [exact He |]. split; [reflexivity | exact Hrest].
Qed.

Lemma sim_try_except_KeyError {A} (m1 m2 : M A) (h1 h2 : json -> M A) :
  simulates n1 n2 m1 m2 ->
  (forall k, simulates n1 n2 (h1 k) (h2 k)) ->
  simulates n1 n2 (try_except_KeyError m1 h1) (try_except_KeyError m2 h2).
Proof.
  intros Hm Hh s1 s2 H. unfold try_except_KeyError. specialize (Hm s1 s2 H).
  destruct (m1 s1) as [x s1'|e s1'], (m2 s2) as [y s2'|e' s2']; cbn in Hm;
    try contradiction.
  - exact Hm.
  - destruct Hm as [<- Hs]. destruct e; try (split; [reflexivity | exact Hs]).
    apply Hh, Hs.
Qed.

(** A variable read on two states that are alike. *)
Ltac alike_field :=
  let H := fresh "H" in
  intros ? ? H; destruct H as (?&?&?&?&?&?&?&?&?&?); congruence.

Ltac alike_update :=
  let H := fresh "H" in
  intros ? ? H; destruct H as (?&?&?&?&?&?&?&?&?&?); unfold alike; mstep;
  repeat split; try assumption; try congruence.

(** Steps through two statements of the same shape. *)
Ltac sim_run :=
  repeat match goal with
  | |- simulates _ _ (bind _ _) (bind _ _) => apply sim_bind; [| intros ?]
  | |- simulates _ _ (and_M _ _) (and_M _ _) => unfold and_M
  | |- simulates _ _ (ret _) (ret _) => apply sim_ret
  | |- simulates _ _ (raise _) (raise _) => apply sim_raise
  | |- simulates _ _ (lift _) (lift _) => apply sim_lift
  | |- simulates _ _ (print _) (print _) => apply sim_print
  | |- simulates _ _ (modify _) (modify _) => apply sim_modify; alike_update
  | |- simulates _ _ (gets _) (gets _) => apply sim_gets; alike_field
  | |- simulates _ _ (Cache.mem _) (Cache.mem _) => apply sim_cache_mem
  | |- simulates _ _ (Cache.lookup _) (Cache.lookup _) => apply sim_cache_lookup
  | |- simulates _ _ (Cache.store _ _) (Cache.store _ _) => apply sim_cache_store
  | |- simulates _ _ (requests_post _ _) (requests_post _ _) => apply sim_requests_post
  | |- simulates _ _ (report_error _) (report_error _) => apply sim_report_error
  | |- simulates _ _ (write_line _ _) (write_line _ _) =>
      apply sim_write_line; assumption
  | |- simulates _ _ (open_a _) (open_a _) => apply sim_open_a
  | |- simulates _ _ (path_exists (name_output _)) _ => apply sim_exists_output
  | |- simulates _ _ (path_exists (name_evalue _)) _ => apply sim_exists_evalue
  | |- simulates _ _ (read_lines (name_output _)) _ => apply sim_read_output
  | |- simulates _ _ (read_lines (name_evalue _)) _ => apply sim_read_evalue
  | |- simulates _ _ (try_except_KeyError _ _) (try_except_KeyError _ _) =>
      apply sim_try_except_KeyError; [| intros ?]
  | |- simulates _ _ (if ?b then _ else _) (if ?b then _ else _) => destruct b
  | |- simulates _ _ (match ?x with _ => _ end) (match ?x with _ => _ end) =>
      destruct x
  end.

Variable E : env.
Variables a1 a2 : RejectEvalue.args.
Hypothesis Hnames1 : n1 = reject_naming E a1.
Hypothesis Hnames2 : n2 = reject_naming E a2.
Hypothesis Hurl : RejectEvalue.url a1 = RejectEvalue.url a2.
Hypothesis Hkey : RejectEvalue.api_key a1 = RejectEvalue.api_key a2.

Lemma sim_reject_getdata (text url key : string) :
  simulates n1 n2 (RejectEvalue.getdata E text url key)
    (RejectEvalue.getdata E text url key).
Proof. unfold RejectEvalue.getdata. sim_run. Qed.

Lemma sim_reject_check (q ans : json) (url key : string) :
  simulates n1 n2 (RejectEvalue.check E q ans url key) (RejectEvalue.check E q ans url key).
Proof. unfold RejectEvalue.check. sim_run. apply sim_reject_getdata. Qed.

Lemma sim_reject_load_line (l : line) :
  simulates n1 n2 (RejectEvalue.load_line (RejectEvalue.outputfile E a1) l)
    (RejectEvalue.load_line (RejectEvalue.outputfile E a2) l).
Proof. unfold RejectEvalue.load_line. destruct l; sim_run. Qed.

Lemma sim_reject_reusable (v : json) :
  simulates n1 n2 (RejectEvalue.reusable v) (RejectEvalue.reusable v).
Proof. unfold RejectEvalue.reusable. sim_run. Qed.

Lemma sim_reject_judge_record (v : json) :
  simulates n1 n2 (RejectEvalue.judge_record E a1 v) (RejectEvalue.judge_record E a2 v).
Proof.
  unfold RejectEvalue.judge_record. rewrite <- Hurl, <- Hkey.
  change (RejectEvalue.outputfile E a1) with (name_output (reject_naming E a1)).
  change (RejectEvalue.outputfile E a2) with (name_output (reject_naming E a2)).
  rewrite <- Hnames1, <- Hnames2.
  apply sim_bind; [sim_run |]. intros _.
  apply sim_bind; [apply sim_reject_reusable |]. intros reuse.
  sim_run. apply sim_reject_check.
Qed.

Lemma sim_reject_process_line (l : line) :
  simulates n1 n2 (RejectEvalue.process_line E a1 l) (RejectEvalue.process_line E a2 l).
Proof.
  unfold RejectEvalue.process_line. destruct l; [apply sim_print |].
  apply sim_try_except; [apply sim_reject_judge_record | apply sim_report_error].
Qed.

Lemma sim_reject_load_cache :
  simulates n1 n2 (RejectEvalue.load_cache E a1) (RejectEvalue.load_cache E a2).
Proof.
  unfold RejectEvalue.load_cache.
  change (RejectEvalue.outputfile E a1) with (name_output (reject_naming E a1)) at 1 3.
  change (RejectEvalue.outputfile E a2) with (name_output (reject_naming E a2)) at 1 3.
  rewrite <- Hnames1, <- Hnames2. sim_run.
  apply sim_for_each. apply sim_reject_load_line.
Qed.

Lemma sim_reject_require_input :
  simulates n1 n2 (RejectEvalue.require_input E a1) (RejectEvalue.require_input E a2).
Proof.
  unfold RejectEvalue.require_input.
  change (RejectEvalue.evaluefile E a1) with (name_evalue (reject_naming E a1)) at 2.
  change (RejectEvalue.evaluefile E a2) with (name_evalue (reject_naming E a2)) at 2.
  rewrite <- Hnames1, <- Hnames2. sim_run.
Qed.

Lemma sim_reject_judge :
  simulates n1 n2 (RejectEvalue.judge E a1) (RejectEvalue.judge E a2).
Proof.
  unfold RejectEvalue.judge.
  change (RejectEvalue.outputfile E a1) with (name_output (reject_naming E a1)).
  change (RejectEvalue.outputfile E a2) with (name_output (reject_naming E a2)).
  change (RejectEvalue.evaluefile E a1) with (name_evalue (reject_naming E a1)).
  change (RejectEvalue.evaluefile E a2) with (name_evalue (reject_naming E a2)).
  rewrite <- Hnames1, <- Hnames2. sim_run.
  apply sim_for_each. apply sim_reject_process_line.
Qed.

Lemma sim_reject_score :
  simulates n1 n2 (RejectEvalue.score E a1) (RejectEvalue.score E a2).
Proof.
  unfold RejectEvalue.score.
  apply sim_bind; [sim_run |]. intros r. sim_run.
  change (RejectEvalue.resultfile E a1) with (name_result (reject_naming E a1)).
  change (RejectEvalue.resultfile E a2) with (name_result (reject_naming E a2)).
  rewrite <- Hnames1, <- Hnames2. apply sim_dump. reflexivity.
Qed.

Lemma sim_reject_main :
  simulates n1 n2 (RejectEvalue.main E a1) (RejectEvalue.main E a2).
Proof.
  unfold RejectEvalue.main. sim_run.
  - apply sim_reject_load_cache.
  - apply sim_reject_require_input.
  - apply sim_reject_judge.
  - apply sim_reject_score.
Qed.

End SimulationReject.

(** The loop over [ls] and the loop over the records of [ls] alone. *)
Lemma sim_skip_malformed (n : naming) (file : string) (body : line -> M unit) :
  (forall raw, body (Malformed raw) = print (InputLineMalformed file raw)) ->
  (forall v, simulates n n (body (Valid v)) (body (Valid v))) ->
  forall ls, simulates n n (for_each ls body) (for_each (List.filter is_valid ls) body).
Proof.
  intros Hraw Hbody. induction ls as [|l ls IH].
  - apply sim_ret.
  - destruct l as [raw|v]; cbn [List.filter is_valid for_each].
    + intros s1 s2 H. unfold bind. rewrite Hraw. unfold print.
      apply IH. apply alike_stdout_l, H.
    + apply sim_bind; [apply Hbody | intros _; exact IH].
Qed.

(** X14. A line of the input file that is not JSON has no effect but
    its message: the judging loop over the lines [ls] and the loop over
    the records of [ls] alone, from the same state, end the same way,
    with the same POSTs issued, the same [results], cache, variables
    and counter, and the same lines in the output file.  In both
    scripts. *)
Theorem X14_malformed_lines_only_print (E : env) (af : FactEvalue.args)
    (ar : RejectEvalue.args) (ls : list line) (s : state) :
  alike_outcome (fact_naming E af) (fact_naming E af)
    (for_each ls (FactEvalue.process_line E af) s)
    (for_each (List.filter is_valid ls) (FactEvalue.process_line E af) s) /\
  alike_outcome (reject_naming E ar) (reject_naming E ar)
    (for_each ls (RejectEvalue.process_line E ar) s)
    (for_each (List.filter is_valid ls) (RejectEvalue.process_line E ar) s).
Proof.
  split.
  - apply (sim_skip_malformed (fact_naming E af) (FactEvalue.evaluefile E af)
             (FactEvalue.process_line E af)).
    + intros raw. reflexivity.
    + intros v.
      apply (sim_fact_process_line (fact_naming E af) (fact_naming E af)
               (fact_evaluefile_outputfile E af) (fact_evaluefile_outputfile E af)
               E af af eq_refl eq_refl eq_refl eq_refl).
    + apply alike_refl.
  - apply (sim_skip_malformed (reject_naming E ar) (RejectEvalue.evaluefile E ar)
             (RejectEvalue.process_line E ar)).
    + intros raw. reflexivity.
    + intros v.
      apply (sim_reject_process_line (reject_naming E ar) (reject_naming E ar)
               (reject_evaluefile_outputfile E ar) (reject_evaluefile_outputfile E ar)
               E ar ar eq_refl eq_refl eq_refl eq_refl).
    + apply alike_refl.
Qed.

(** X15. The options [--modelname], [--dataset], [--temp] and
    [--passage_num] of [reject_evalue.py] only name the files.  The
    client posts once per call, with the fixed model, the prompt as the
    only message and no temperature, whatever [--temp] is.  And two
    runs with the same endpoint and key, started on file systems that
    hold the same lines under the respective names, end the same way:
    the same POSTs, the same records stored and the same summary. *)
Theorem X15_reject_options_name_files (E : env) (a1 a2 : RejectEvalue.args)
    (text : string) (s1 s2 : state) :
  (exists r,
      calls (final (RejectEvalue.getdata E text (RejectEvalue.url a1)
                      (RejectEvalue.api_key a1) s1))
        = calls s1 ++ [(data s1, r)] /\
      req_temperature r = None /\
      req_model r = "llama-3.3-70b-versatile" /\
      req_messages r = [("user", text)] /\
      req_url r = RejectEvalue.url a1 /\
      req_authorization r = "Bearer " +:+ RejectEvalue.api_key a1) /\
  (RejectEvalue.url a1 = RejectEvalue.url a2 ->
   RejectEvalue.api_key a1 = RejectEvalue.api_key a2 ->
   alike (reject_naming E a1) (reject_naming E a2) s1 s2 ->
   alike_outcome (reject_naming E a1) (reject_naming E a2)
     (RejectEvalue.main E a1 s1) (RejectEvalue.main E a2 s2)).
Proof.
  split.
  - eexists. split; [apply reject_getdata_calls |]. repeat split.
  - intros Hurl Hkey Hs.
    apply (sim_reject_main (reject_naming E a1) (reject_naming E a2)
             (reject_evaluefile_outputfile E a1) (reject_evaluefile_outputfile E a2)
             E a1 a2 eq_refl eq_refl Hurl Hkey s1 s2 Hs).
Qed.

Lemma X15_reject_options_name_files_witness :
  alike_outcome (reject_naming not_addressed_env RejectEvalue.default_args)
    (reject_naming not_addressed_env other_reject_args)
    (RejectEvalue.main not_addressed_env RejectEvalue.default_args
       (start (example_reject_input_for RejectEvalue.default_args)))
    (RejectEvalue.main not_addressed_env other_reject_args
       (start (example_reject_input_for other_reject_args))).
Proof.
  apply (X15_reject_options_name_files not_addressed_env RejectEvalue.default_args
           other_reject_args ""
           (start (example_reject_input_for RejectEvalue.default_args))
           (start (example_reject_input_for other_reject_args))).
  - reflexivity.
  - reflexivity.
  - unfold alike. repeat split; vm_compute; reflexivity.
Defined.

(** ** Stored judgments *)

Lemma map_Valid_inj (l1 l2 : list json) : map Valid l1 = map Valid l2 -> l1 = l2.
Proof.
  revert l2. induction l1 as [|x l1 IH]; intros [|y l2] H; try discriminate.
  - reflexivity.
  - cbn in H. injection H as -> H. rewrite (IH l2 H). reflexivity.
Qed.

(** X16. [reject_evalue.py] never stores a judgment made for another
    question or answer.  After a run on an input file of parsed JSON,
    every record of [results], and so every line the run has appended
    to the output file, is a dict with the id of a record of the input
    file, with a [query] and a [prediction] equal to those of that
    record, and with a key [evaluation]. *)
Theorem X16_reject_results_are_judgments (E : env) (a : RejectEvalue.args) (s : state) :
  forallb wf_line (lines_of s (RejectEvalue.evaluefile E a)) = true ->
  let o := RejectEvalue.main E a s in
  Forall (judgment_of (lines_of s (RejectEvalue.evaluefile E a))) (results (final o)).
Proof.
  intros Hwf. cbv zeta.
  destruct (reject_main_spec E a s Hwf) as (_ & (W & HW & HF) & _).
  destruct (reject_main_step E a s) as (_ & _ & _ & _ & Hout & _). cbv zeta in *.
  rewrite Hout in HW. apply app_inv_head, map_Valid_inj in HW. rewrite HW.
  eapply Forall_impl; [exact HF |].
  intros w (l & Hin & d & c & -> & -> & Hid & Hacc).
  unfold accepts in Hacc. apply andb_prop in Hacc as [Hacc Hev].
  apply andb_prop in Hacc as [Hq Hp].
  exists d, c. repeat split; try assumption.
  intros Habs. rewrite Habs in Hev. discriminate.
Qed.

Lemma X16_reject_results_are_judgments_witness :
  let o := RejectEvalue.main not_addressed_env RejectEvalue.default_args
             (start example_reject_files) in
  Forall (judgment_of
            (lines_of (start example_reject_files)
               (RejectEvalue.evaluefile not_addressed_env RejectEvalue.default_args)))
    (results (final o)).
Proof.
  apply (X16_reject_results_are_judgments not_addressed_env RejectEvalue.default_args
           (start example_reject_files)).
  reflexivity.
Defined.

(** ** The error texts of the two clients *)

(** X17. In [fact_evalue.py] the error text tells the [except] clause
    that produced it: two failed calls that return the same text were
    handled by the same clause, whatever the texts of their
    exceptions.  In [reject_evalue.py] one clause handles the HTTP
    error, the connection failure, the timeout and the other request
    exceptions, so that failures of these four kinds with the same
    exception text return the same error text. *)
Theorem X17_error_text_and_clause (E1 E2 : env) (text url key e : string)
    (s1 s2 : state) (x : json) :
  (forall s1' s2',
     transport_failure (post E1 (length (calls s1)) (fact_request text url key)) = true ->
     transport_failure (post E2 (length (calls s2)) (fact_request text url key)) = true ->
     FactEvalue.getdata E1 text url key s1 = Normal x s1' ->
     FactEvalue.getdata E2 text url key s2 = Normal x s2' ->
     fact_except_clause (post E1 (length (calls s1)) (fact_request text url key)) =
     fact_except_clause (post E2 (length (calls s2)) (fact_request text url key))) /\
  Forall (fun t =>
            exists s',
              RejectEvalue.getdata (constant_env t) text url key s1
                = Normal (JStr ("Error: Request failed - " +:+ e)) s')
    [HTTPError e; ConnectionError e; Timeout e; RequestException e].
Proof.
  split.
  - intros s1' s2'.
    unfold FactEvalue.getdata, bind, requests_post. fold (fact_request text url key).
    destruct (post E1 (length (calls s1)) (fact_request text url key))
      as [e1|e1|e1|e1|[|] e1 t1|j1]; try discriminate; intros _;
      destruct (post E2 (length (calls s2)) (fact_request text url key))
        as [e2|e2|e2|e2|[|] e2 t2|j2]; try discriminate; intros _;
      cbn; intros H1 H2; try reflexivity;
      injection H1 as <- _; injection H2 as H2 _; discriminate.
  - repeat constructor; eexists; reflexivity.
Qed.

Lemma X17_error_text_and_clause_witness :
  fact_except_clause (RequestException "boom") =
  fact_except_clause (InvalidJSON true "boom" "<html>").
Proof.
  destruct (X17_error_text_and_clause (constant_env (RequestException "boom"))
              (constant_env (InvalidJSON true "boom" "<html>")) "text" "url" "key" ""
              (start ∅) (start ∅) (JStr "Error: Request Exception - boom")) as [H _].
  exact (H _ _ eq_refl eq_refl eq_refl eq_refl).
Defined.

(** ** From the completion to the stored record *)




(** ** The label test *)

Lemma existsb_eq_In (k : json) (l : list json) :
  existsb (fun y => Py.eq k y) l = true <-> exists x, In x l /\ Py.eq k x = true.
Proof. apply existsb_exists. Qed.

Lemma existsb_eq_none (k : json) (l : list json) :
  existsb (fun y => Py.eq k y) l = false <-> forall x, In x l -> Py.eq k x = false.
Proof.
  split.
  - intros H x Hin. destruct (Py.eq k x) eqn:Hx; [| reflexivity].
    rewrite <- H. symmetry. apply existsb_exists. exists x. split; assumption.
  - intros H. destruct (existsb _ l) eqn:Hl; [| reflexivity].
    apply existsb_exists in Hl as (x & Hin & Hx). rewrite (H x Hin) in Hx. discriminate.
Qed.

(** X19. The label test never raises on a dict and is the same test
    in both scripts, although they write it differently
    (['label' in i and isinstance(i['label'], list) and ...] against
    [isinstance(i.get('label'), list) and ...]).  It holds exactly when
    the record has a [label] that is a list with an element equal to 1
    and no element equal to 0; a record without a label, or with a
    label that is not a list, is not counted in [tt]. *)
Theorem X19_label_test (d : dict) :
  exists g,
    FactEvalue.counts_tt (JObj d) = Ok g /\
    RejectEvalue.counts_tt (JObj d) = Ok g /\
    (g = true <->
     exists l,
       Py.dict_get "label" d = Some (JArr l) /\
       (exists x, In x l /\ Py.eq (JInt 1) x = true) /\
       (forall x, In x l -> Py.eq (JInt 0) x = false)).
Proof.
  unfold FactEvalue.counts_tt, RejectEvalue.counts_tt. cbn -[Py.eq existsb].
  destruct (Py.dict_get "label" d) as [label|] eqn:Hl; cbn -[Py.eq existsb].
  2: { exists false. repeat split; try discriminate. intros (l & Habs & _). discriminate. }
  destruct label as [| | |s|l|d']; cbn -[Py.eq existsb];
    try (exists false; repeat split; try discriminate;
         intros (l' & Habs & _); discriminate).
  exists (negb (existsb (fun y => Py.eq (JInt 0) y) l)
          && existsb (fun y => Py.eq (JInt 1) y) l).
  split; [destruct (existsb (fun y => Py.eq (JInt 0) y) l); reflexivity |].
  split; [destruct (existsb (fun y => Py.eq (JInt 0) y) l); reflexivity |].
  split.
  - intros H. apply andb_prop in H as [H0 H1]. exists l. split; [reflexivity |].
    split; [apply existsb_eq_In, H1 |].
    apply existsb_eq_none. apply negb_true_iff, H0.
  - intros (l' & Heq & H1 & H0). injection Heq as <-.
    apply andb_true_intro. split.
    + apply negb_true_iff, existsb_eq_none, H0.
    + apply existsb_eq_In, H1.
Qed.
